(** * ABG-Viewer: [tools/generate_manifest.py]

    A shallow embedding of the manifest generator and the properties of
    its scan, merge, publish, build and write steps.

    Conventions of the embedding.
    - A Python [str] is the [string] of its UTF-8 bytes; [strip] and
      [upper] are given on the ASCII range and leave other bytes alone,
      so the properties that speak through them assume 7-bit text
      ([ascii_names], [ascii_ids], [ascii_template]).
    - A resolved (absolute, symlink-free) [pathlib.Path] is the list of its
      components; pure-path arithmetic ([/], [as_posix]) is modelled on
      [PurePath], which keeps the anchor.
    - The file system, standard output and the clock form the [World]
      threaded through every effectful function; a Python exception is the
      left injection of the result.
    - [hashlib] and [json] are outside the repository: the raw SHA-256
      digest, [json.loads] and [json.dumps] are parameters of the section
      that holds the functions reading or writing file contents. *)

From Stdlib Require Import Ascii String.
From stdpp Require Import gmap strings list sorting pretty.

Local Open Scope string_scope.
Local Open Scope list_scope.
Local Set Warnings "-register-all,-clear-no-such-hyp".

(** ** Python string primitives *)

Module PyStr.

(** [str.isspace] and [str.upper] are given on 7-bit characters, where a
    character of a [str] is one byte of its UTF-8 form; a byte from 128 on
    is neither white space nor changed. On text that is [isascii] these
    are Python's functions; a property that speaks through them assumes
    such text. *)

(** [str.isspace] on one ASCII character: TAB..CR, FS..US and SPACE. *)
Definition isspace (a : ascii) : bool :=
  let n := N_of_ascii a in
  ((9 <=? n) && (n <=? 13) || (28 <=? n) && (n <=? 32))%N.

Definition upper_char (a : ascii) : ascii :=
  let n := N_of_ascii a in
  if ((97 <=? n) && (n <=? 122))%N then ascii_of_N (n - 32) else a.

Fixpoint upper (s : string) : string :=
  match s with
  | "" => ""
  | String a s' => String (upper_char a) (upper s')
  end.

Fixpoint lstrip (s : string) : string :=
  match s with
  | "" => ""
  | String a s' => if isspace a then lstrip s' else s
  end.

Fixpoint rstrip (s : string) : string :=
  match s with
  | "" => ""
  | String a s' =>
      let r := rstrip s' in
      if decide (r = "") then (if isspace a then "" else String a "")
      else String a r
  end.

Definition strip (s : string) : string := rstrip (lstrip s).

(** [s.endswith(suf)] *)
Fixpoint endswith (s suf : string) : bool :=
  bool_decide (s = suf) ||
  match s with
  | "" => false
  | String _ s' => endswith s' suf
  end.

(** [s.startswith(c)] for a one-character [c]. *)
Definition startswith_char (c : ascii) (s : string) : bool :=
  match s with
  | String a _ => bool_decide (a = c)
  | "" => false
  end.

(** [s.rfind(c)], [None] standing for [-1]. *)
Fixpoint rfind (c : ascii) (s : string) : option nat :=
  match s with
  | "" => None
  | String a s' =>
      match rfind c s' with
      | Some i => Some (S i)
      | None => if decide (a = c) then Some 0 else None
      end
  end.

(** [c in s] *)
Fixpoint contains (c : ascii) (s : string) : bool :=
  match s with
  | "" => false
  | String a s' => bool_decide (a = c) || contains c s'
  end.

(** [s.split(c)] for a one-character separator. *)
Fixpoint split_on (c : ascii) (s : string) : list string :=
  match s with
  | "" => [""]
  | String a s' =>
      if decide (a = c) then "" :: split_on c s'
      else match split_on c s' with
           | h :: t => String a h :: t
           | [] => [String a ""]
           end
  end.

(** [sep.join(l)] *)
Fixpoint join (sep : string) (l : list string) : string :=
  match l with
  | [] => ""
  | [x] => x
  | x :: l' => x +:+ sep +:+ join sep l'
  end.

(** [s[:n]] *)
Definition take (n : nat) (s : string) : string := substring 0 n s.
(** [s[n:]] *)
Definition drop (n : nat) (s : string) : string :=
  substring n (String.length s - n) s.

Definition hex_digit (n : N) : ascii :=
  match n with
  | 0 => "0" | 1 => "1" | 2 => "2" | 3 => "3" | 4 => "4" | 5 => "5"
  | 6 => "6" | 7 => "7" | 8 => "8" | 9 => "9" | 10 => "a" | 11 => "b"
  | 12 => "c" | 13 => "d" | 14 => "e" | _ => "f"
  end%N%char.

(** Two lower-case hexadecimal digits of one byte. *)
Definition hex_byte (a : ascii) : string :=
  let n := N_of_ascii a in
  String (hex_digit (n / 16)) (String (hex_digit (n mod 16)) "").

(** [bytes.hex()] *)
Fixpoint hex (bs : string) : string :=
  match bs with
  | "" => ""
  | String a bs' => hex_byte a +:+ hex bs'
  end.

(** [s.zfill(w)] for a string of digits. *)
Fixpoint zeros (k : nat) : string :=
  match k with
  | 0 => ""
  | S k' => String "0" (zeros k')
  end.

Definition zfill (w : nat) (s : string) : string :=
  zeros (w - String.length s) +:+ s.

(** [s.isascii()] *)
Fixpoint isascii (s : string) : bool :=
  match s with
  | "" => true
  | String a s' => (N_of_ascii a <? 128)%N && isascii s'
  end.

(** A continuation byte of UTF-8. *)
Definition utf8_cont (a : ascii) : bool :=
  let n := N_of_ascii a in ((128 <=? n) && (n <=? 191))%N.

(** The byte that may follow the lead byte [n] of a sequence of three or
    four bytes: no overlong form, no surrogate, nothing above U+10FFFF. *)
Definition utf8_second (n : N) (b : ascii) : bool :=
  let m := N_of_ascii b in
  (if n =? 224 then (160 <=? m) && (m <=? 191)
   else if n =? 237 then (128 <=? m) && (m <=? 159)
   else if n =? 240 then (144 <=? m) && (m <=? 191)
   else if n =? 244 then (128 <=? m) && (m <=? 143)
   else (128 <=? m) && (m <=? 191))%N.

(** [bs.decode("utf-8")] does not raise: what reading a file opened with
    [encoding="utf-8"] requires of its bytes. *)
Fixpoint utf8_valid (bs : string) : bool :=
  match bs with
  | "" => true
  | String a s1 =>
      let n := N_of_ascii a in
      if (n <? 128)%N then utf8_valid s1
      else if ((194 <=? n) && (n <=? 223))%N then
        match s1 with
        | String b s2 => utf8_cont b && utf8_valid s2
        | "" => false
        end
      else if ((224 <=? n) && (n <=? 239))%N then
        match s1 with
        | String b (String c s3) =>
            utf8_second n b && utf8_cont c && utf8_valid s3
        | _ => false
        end
      else if ((240 <=? n) && (n <=? 244))%N then
        match s1 with
        | String b (String c (String d s4)) =>
            utf8_second n b && utf8_cont c && utf8_cont d && utf8_valid s4
        | _ => false
        end
      else false
  end.

End PyStr.

(** ** Values decoded from JSON, and Python's [str] of them *)

(** What [json.load] returns. A float is carried by its [repr], the only
    thing the script can observe of it; a [dict] keeps insertion order. *)
Inductive json : Type :=
  | JNull
  | JBool (b : bool)
  | JInt (n : Z)
  | JFloat (repr : string)
  | JStr (s : string)
  | JList (l : list json)
  | JDict (kvs : list (string * json)).

(** Every text of the value is 7-bit. *)
Fixpoint json_isascii (v : json) : bool :=
  match v with
  | JNull | JBool _ | JInt _ => true
  | JFloat r => PyStr.isascii r
  | JStr s => PyStr.isascii s
  | JList l => forallb json_isascii l
  | JDict kvs =>
      forallb (λ kv, let '(k, v') := kv in
                     PyStr.isascii k && json_isascii v') kvs
  end.

Module PyDict.
Section ops.
Context {V : Type}.
Implicit Types (d : list (string * V)) (k : string) (v : V).

(** [d.get(k)] *)
Fixpoint get k d : option V :=
  match d with
  | [] => None
  | (k', v') :: d' => if decide (k' = k) then Some v' else get k d'
  end.

(** [d[k] = v]: an existing key keeps its position. *)
Fixpoint set k v d : list (string * V) :=
  match d with
  | [] => [(k, v)]
  | (k', v') :: d' =>
      if decide (k' = k) then (k', v) :: d' else (k', v') :: set k v d'
  end.

(** [d.setdefault(k, v)], for its effect on [d]. *)
Definition setdefault k v d : list (string * V) :=
  match get k d with
  | Some _ => d
  | None => d ++ [(k, v)]
  end.
End ops.
End PyDict.

Module PyRepr.
Definition dquote : ascii := ascii_of_N 34.
Definition squote : ascii := ascii_of_N 39.
Definition backslash : ascii := ascii_of_N 92.

Definition repr_char (q a : ascii) : string :=
  let n := N_of_ascii a in
  if decide (a = backslash) then String backslash (String backslash "")
  else if decide (a = q) then String backslash (String q "")
  else if decide (n = 9%N) then String backslash "t"
  else if decide (n = 10%N) then String backslash "n"
  else if decide (n = 13%N) then String backslash "r"
  else if ((n <? 32) || (n =? 127))%N
       then String backslash (String "x" (PyStr.hex_byte a))
  else String a "".

Fixpoint repr_body (q : ascii) (s : string) : string :=
  match s with
  | "" => ""
  | String a s' => repr_char q a +:+ repr_body q s'
  end.

(** [repr(s)] for a [str]: single quotes unless the text has a single
    quote and no double quote. *)
Definition repr_str (s : string) : string :=
  let q := if PyStr.contains squote s && negb (PyStr.contains dquote s)
           then dquote else squote in
  String q (repr_body q s +:+ String q "").

Fixpoint repr (v : json) : string :=
  match v with
  | JNull => "None"
  | JBool true => "True"
  | JBool false => "False"
  | JInt n => pretty n
  | JFloat r => r
  | JStr s => repr_str s
  | JList l => "[" +:+ PyStr.join ", " (map repr l) +:+ "]"
  | JDict kvs =>
      "{" +:+ PyStr.join ", "
                (map (λ kv, let '(k, v') := kv in
                            repr_str k +:+ ": " +:+ repr v') kvs) +:+ "}"
  end.

(** [type(v).__name__] *)
Definition type_name (v : json) : string :=
  match v with
  | JNull => "NoneType"
  | JBool _ => "bool"
  | JInt _ => "int"
  | JFloat _ => "float"
  | JStr _ => "str"
  | JList _ => "list"
  | JDict _ => "dict"
  end.

(** [str(v)] *)
Definition str (v : json) : string :=
  match v with
  | JStr s => s
  | _ => repr v
  end.
End PyRepr.

(** ** Time *)

(** A timezone-aware UTC [datetime]. *)
Record datetime := mk_datetime {
  dt_year : N; dt_month : N; dt_day : N;
  dt_hour : N; dt_minute : N; dt_second : N;
  dt_microsecond : N
}.

Module PyTime.
Definition dec (w : nat) (n : N) : string := PyStr.zfill w (pretty n).

Definition with_microsecond (us : N) (d : datetime) : datetime :=
  mk_datetime (dt_year d) (dt_month d) (dt_day d)
              (dt_hour d) (dt_minute d) (dt_second d) us.

(** [d.isoformat()] of a UTC-aware value. *)
Definition isoformat (d : datetime) : string :=
  dec 4 (dt_year d) +:+ "-" +:+ dec 2 (dt_month d) +:+ "-" +:+
  dec 2 (dt_day d) +:+ "T" +:+ dec 2 (dt_hour d) +:+ ":" +:+
  dec 2 (dt_minute d) +:+ ":" +:+ dec 2 (dt_second d) +:+
  (match dt_microsecond d with
   | 0%N => ""
   | us => "." +:+ dec 6 us
   end) +:+ "+00:00".

(** [d.strftime("%Y%m%d-%H%M%S")] *)
Definition strftime_compact (d : datetime) : string :=
  dec 4 (dt_year d) +:+ dec 2 (dt_month d) +:+ dec 2 (dt_day d) +:+ "-" +:+
  dec 2 (dt_hour d) +:+ dec 2 (dt_minute d) +:+ dec 2 (dt_second d).
End PyTime.

Module PyReplace.
Fixpoint is_prefix (p s : string) : bool :=
  match p, s with
  | "", _ => true
  | String a p', String b s' => bool_decide (a = b) && is_prefix p' s'
  | String _ _, "" => false
  end.

(** [s.replace(old, new)] for a non-empty [old]; [skip] counts the
    characters of a match still to be dropped. *)
Fixpoint go (old new : string) (skip : nat) (s : string) : string :=
  match s with
  | "" => ""
  | String a s' =>
      match skip with
      | S k => go old new k s'
      | 0 => if is_prefix old s
             then new +:+ go old new (String.length old - 1) s'
             else String a (go old new 0 s')
      end
  end.

Definition replace (old new s : string) : string := go old new 0 s.
End PyReplace.

(** [iso_z], lines 49-52. [astimezone(utc)] is the identity on a UTC-aware
    value. *)
Definition iso_z (dt : datetime) : string :=
  let dt := PyTime.with_microsecond 0 dt in
  PyReplace.replace "+00:00" "Z" (PyTime.isoformat dt).

(** ** Paths *)

(** A resolved path: the components below the root. *)
Abbreviation Path := (list string).

(** [pathlib.PurePosixPath]: an anchor and the components after it. *)
Record PurePath := mk_pure { anchored : bool; parts : list string }.

Module PyPath.
(** Parsing one segment: empty components and single dots collapse,
    double dots stay. (A segment starting with exactly two slashes keeps
    them as its root in pathlib; here every leading slash anchors at the
    one root.) *)
Definition of_str (s : string) : PurePath :=
  mk_pure (PyStr.startswith_char "/" s)
          (filter (λ c, c ≠ "" ∧ c ≠ ".") (PyStr.split_on "/" s)).

Definition joinpath (p q : PurePath) : PurePath :=
  if anchored q then q
  else mk_pure (anchored p) (parts p ++ parts q).

(** [p / s] *)
Definition div (p : PurePath) (s : string) : PurePath :=
  joinpath p (of_str s).

Definition as_posix (p : PurePath) : string :=
  if anchored p then "/" +:+ PyStr.join "/" (parts p)
  else match parts p with
       | [] => "."
       | _ => PyStr.join "/" (parts p)
       end.

(** [root / p] for a resolved [root]. *)
Definition under (root : Path) (p : PurePath) : Path :=
  if anchored p then parts p else root ++ parts p.

(** [str(p)] of a resolved path. *)
Definition str (p : Path) : string := "/" +:+ PyStr.join "/" p.

Definition name (p : Path) : string := List.last p "".
Definition parent (p : Path) : Path := removelast p.

(** [PurePath.suffix] and [PurePath.stem] of a file name (the [rfind]
    rule of pathlib up to Python 3.13). *)
Definition suffix_at (nm : string) : option nat :=
  match PyStr.rfind "." nm with
  | Some i =>
      if bool_decide (0 < i) && bool_decide (i < String.length nm - 1)
      then Some i else None
  | None => None
  end.

Definition suffix (nm : string) : string :=
  match suffix_at nm with
  | Some i => PyStr.drop i nm
  | None => ""
  end.

Definition stem (nm : string) : string :=
  match suffix_at nm with
  | Some i => PyStr.take i nm
  | None => nm
  end.

(** [p.with_suffix(sfx)]; [None] is the [ValueError] of an empty name. *)
Definition with_suffix (p : Path) (sfx : string) : option Path :=
  match name p with
  | "" => None
  | nm => Some (parent p ++ [stem nm +:+ sfx])%list
  end.

(** How the kernel resolves [..] when the directories named before it
    exist and there are no symbolic links. *)
Definition norm (p : Path) : Path :=
  foldl (λ (acc : Path) c,
           if decide (c = "..") then removelast acc else (acc ++ [c])%list)
        [] p.

(** The order [sorted] uses on paths: component by component, each
    component as a string. *)
Fixpoint leb (p q : Path) : bool :=
  match p, q with
  | [], _ => true
  | _ :: _, [] => false
  | a :: p', b :: q' =>
      if decide (a = b) then leb p' q' else bool_decide (String.le a b)
  end.
Definition le (p q : Path) : Prop := leb p q.

(** [fnmatch(name, "*.pdf")] on a POSIX system. *)
Definition matches_pdf (p : Path) : bool := PyStr.endswith (name p) ".pdf".

(** [d] is a proper ancestor of [p]. *)
Definition below (d p : Path) : bool :=
  bool_decide (d `prefix_of` p) && bool_decide (d ≠ p).
End PyPath.

(** ** The world: file system, standard output, clock *)

Record FileData := mk_file { f_bytes : string; f_mtime : datetime }.

Inductive node : Type :=
  | NDir
  | NFile (f : FileData).

(** The file system is the finite map from resolved paths to what is
    there; in a well-formed one every stored path has its ancestors stored
    as directories. *)
Record World := mk_world {
  w_fs : gmap Path node;       (* keyed by resolved path *)
  w_out : list string;         (* lines printed so far, oldest first *)
  w_tick : nat;                (* clock readings taken so far *)
  w_clock : nat → datetime     (* what each reading returns *)
}.

Inductive exn : Type :=
  | FileNotFoundError (msg : string)
  | FileExistsError (msg : string)
  | NotADirectoryError (msg : string)
  | IsADirectoryError (msg : string)
  | RuntimeError (msg : string)
  | ValueError (msg : string)
  | UnicodeDecodeError
  | JSONDecodeError
  | AttributeError (msg : string).

(** [isinstance(e, ValueError)]: [json.JSONDecodeError] and
    [UnicodeDecodeError] derive from it. *)
Definition is_ValueError (e : exn) : bool :=
  match e with
  | ValueError _ | JSONDecodeError | UnicodeDecodeError => true
  | _ => false
  end.

Definition is_FileNotFoundError (e : exn) : bool :=
  match e with FileNotFoundError _ => true | _ => false end.

Definition is_RuntimeError (e : exn) : bool :=
  match e with RuntimeError _ => true | _ => false end.

(** An effectful computation: a result or an exception, and the world
    it leaves behind. *)
Definition M (A : Type) : Type := World → (exn + A) * World.

Definition ret {A} (a : A) : M A := λ w, (inr a, w).
Definition raise {A} (e : exn) : M A := λ w, (inl e, w).
Definition bind {A B} (m : M A) (k : A → M B) : M B :=
  λ w, match m w with
       | (inl e, w') => (inl e, w')
       | (inr a, w') => k a w'
       end.

Notation "'let*' x ':=' m 'in' k" := (bind m (λ x, k))
  (at level 10, x pattern, m at level 100, k at level 200).

(** [for x in l: s = body(x, s)] *)
Fixpoint for_each {A S} (l : list A) (body : A → S → M S) (s : S) : M S :=
  match l with
  | [] => ret s
  | x :: l' => let* s' := body x s in for_each l' body s'
  end.

Module Os.
Definition set_fs (fs : gmap Path node) (w : World) : World :=
  mk_world fs (w_out w) (w_tick w) (w_clock w).

(** What is at [p]; the root itself is always a directory. *)
Definition at_path (fs : gmap Path node) (p : Path) : option node :=
  match PyPath.norm p with
  | [] => Some NDir
  | k => fs !! k
  end.

(** [print(line)] *)
Definition print (line : string) : M () :=
  λ w, (inr (), mk_world (w_fs w) (w_out w ++ [line]) (w_tick w) (w_clock w)).

(** [datetime.now(timezone.utc)] *)
Definition now : M datetime :=
  λ w, (inr (w_clock w (w_tick w)),
        mk_world (w_fs w) (w_out w) (S (w_tick w)) (w_clock w)).

(** [p.exists()] *)
Definition exists_ (p : Path) : M bool :=
  λ w, (inr (bool_decide (is_Some (at_path (w_fs w) p))), w).

(** [p.is_file()] *)
Definition is_file (p : Path) : M bool :=
  λ w, (inr (match at_path (w_fs w) p with
             | Some (NFile _) => true
             | _ => false
             end), w).

(** Reading a regular file: [p.open("rb")] or [p.stat()]. *)
Definition read_file (p : Path) : M FileData :=
  λ w, match at_path (w_fs w) p with
       | Some (NFile f) => (inr f, w)
       | Some NDir => (inl (IsADirectoryError (PyPath.str p)), w)
       | None => (inl (FileNotFoundError (PyPath.str p)), w)
       end.

(** One directory of [mkdir(parents=True, exist_ok=True)]. *)
Definition mkdir1 (p : Path) (_ : ()) : M () :=
  λ w, match at_path (w_fs w) p with
       | Some NDir => (inr (), w)
       | Some (NFile _) => (inl (FileExistsError (PyPath.str p)), w)
       | None => (inr (), set_fs (<[PyPath.norm p := NDir]> (w_fs w)) w)
       end.

(** The non-empty prefixes of [p], shortest first. *)
Fixpoint ancestors_and_self (p : Path) : list Path :=
  match p with
  | [] => []
  | c :: p' => [c] :: map (cons c) (ancestors_and_self p')
  end.

(** [p.mkdir(parents=True, exist_ok=True)] *)
Definition mkdir_parents (p : Path) : M () :=
  for_each (ancestors_and_self p) mkdir1 ().

(** Creating or truncating [p] and writing [data], as
    [p.open("w")] ... [f.write] does. *)
Definition write_file (p : Path) (data : string) : M () :=
  λ w, match at_path (w_fs w) p with
       | Some NDir => (inl (IsADirectoryError (PyPath.str p)), w)
       | _ =>
           match at_path (w_fs w) (PyPath.parent p) with
           | Some NDir =>
               (inr (), set_fs (<[PyPath.norm p :=
                                   NFile (mk_file data (w_clock w (w_tick w)))]>
                                 (w_fs w)) w)
           | Some (NFile _) => (inl (NotADirectoryError (PyPath.str p)), w)
           | None => (inl (FileNotFoundError (PyPath.str p)), w)
           end
       end.

(** [src.replace(dst)], i.e. [os.replace]. *)
Definition replace (src dst : Path) : M () :=
  λ w, match at_path (w_fs w) src with
       | Some (NFile f) =>
           match at_path (w_fs w) dst with
           | Some NDir => (inl (IsADirectoryError (PyPath.str dst)), w)
           | _ =>
               (inr (), set_fs (<[PyPath.norm dst := NFile f]>
                                  (delete (PyPath.norm src) (w_fs w))) w)
           end
       | Some NDir => (inl (IsADirectoryError (PyPath.str src)), w)
       | None => (inl (FileNotFoundError (PyPath.str src)), w)
       end.

(** [shutil.copy2(src, dst)] onto a path that does not exist yet:
    contents and modification time are carried over. *)
Definition copy2 (src dst : Path) : M () :=
  let* f := read_file src in
  λ w, match at_path (w_fs w) (PyPath.parent dst) with
       | Some NDir =>
           (inr (), set_fs (<[PyPath.norm dst := NFile f]> (w_fs w)) w)
       | Some (NFile _) => (inl (NotADirectoryError (PyPath.str dst)), w)
       | None => (inl (FileNotFoundError (PyPath.str dst)), w)
       end.

(** [d.rglob("*.pdf")]: every entry strictly below [d] whose name
    matches (case-sensitively, hidden names included, directories too),
    in the order the directory walk happens to yield them; and [sorted]
    of it. *)
Definition rglob_pdf (fs : gmap Path node) (d : Path) : list Path :=
  filter (λ p, PyPath.below d p && PyPath.matches_pdf p) (map_to_list fs).*1.

Definition sorted_pdfs (fs : gmap Path node) (d : Path) : list Path :=
  merge_sort PyPath.le (rglob_pdf fs d).

Definition sorted_rglob_pdf (d : Path) : M (list Path) :=
  λ w, (inr (sorted_pdfs (w_fs w) d), w).
End Os.

(** ** The script *)

Definition SCHEMA_VERSION : Z := 1.

(** [safe_iata_from_filename], lines 63-66 *)
Definition safe_iata_from_filename (path : Path) : string :=
  PyStr.upper (PyStr.strip (PyPath.stem (PyPath.name path))).

(** [ensure_trailing_slash], lines 69-70 *)
Definition ensure_trailing_slash (url : string) : string :=
  if PyStr.endswith url "/" then url else url +:+ "/".

(** [PdfInfo], lines 73-79 *)
Module PdfInfo.
Record t := mk {
  iata : string;
  src_path : Path;
  sha256 : string;
  size : Z;
  mtime : datetime
}.
End PdfInfo.

(** [normalize_airport_dict], lines 145-152 *)
Definition normalize_airport_dict
    (airport : list (string * json)) (iata : string) : list (string * json) :=
  let out := airport in
  let out := PyDict.set "iata" (JStr iata) out in
  let out := PyDict.setdefault "icao" (JStr iata) out in
  let out := PyDict.setdefault "name" (JStr iata) out in
  let out := PyDict.setdefault "city" (JStr "") out in
  out.

(** The identifier a template entry names, line 174. *)
Definition template_iata (a : list (string * json)) : string :=
  PyStr.upper (PyStr.strip
    (PyRepr.str (default (JStr "") (PyDict.get "iata" a)))).

(** The [pdf] block of a manifest entry, lines 185-192 and 205-211. *)
Definition pdf_block (rel_url : string) (pdf : PdfInfo.t) : json :=
  JDict [("url", JStr rel_url);
         ("sha256", JStr (PdfInfo.sha256 pdf));
         ("size", JInt (PdfInfo.size pdf));
         ("updatedAt", JStr (iso_z (PdfInfo.mtime pdf)));
         ("version", JStr (PyStr.take 10 (iso_z (PdfInfo.mtime pdf))))].

(** The relative and absolute destination of lines 133-134. *)
Definition immutable_rel (pdf : PdfInfo.t) : PurePath :=
  PyPath.div (PyPath.div (PyPath.of_str "pdfs") (PdfInfo.iata pdf))
             (PdfInfo.sha256 pdf +:+ ".pdf").

(** [copy_pdf_to_immutable_path], lines 130-142 *)
Definition copy_pdf_to_immutable_path
    (site_root : Path) (pdf : PdfInfo.t) : M string :=
  let rel := immutable_rel pdf in
  let dst := PyPath.under site_root rel in
  let* _ := Os.mkdir_parents (PyPath.parent dst) in
  let* present := Os.exists_ dst in
  if present : bool then ret (PyPath.as_posix rel)
  else
    let* _ := Os.copy2 (PdfInfo.src_path pdf) dst in
    ret (PyPath.as_posix rel).

(** The warnings of lines 96 and 180. *)
Definition duplicate_warning (iata : string) (kept skipped : Path) : string :=
  "WARN: duplicate IATA '" +:+ iata +:+ "' found. Keeping: "
  +:+ PyPath.str kept +:+ "  Skipping: " +:+ PyPath.str skipped.

Definition missing_pdf_warning (iata : string) : string :=
  "WARN: template contains airport " +:+ iata
  +:+ ", but no PDF found. Skipping it.".

(** Command-line arguments after [parse_args] and path resolution
    (lines 239-243). [args_template] is [None] when the flag is absent or
    empty. *)
Record Args := mk_args {
  args_source_pdfs : Path;
  args_site_root : Path;
  args_base_url : option string;
  args_template : option Path;
  args_timestamp : option string
}.

Section Script.

(** [hashlib.sha256(data).digest()] *)
Variable sha256_digest : string → string.
(** [json.loads(text)], on the UTF-8 form of the text; [None] when the
    text is not a JSON document ([JSONDecodeError]). *)
Variable json_loads : string → option json.
(** [json.dumps(obj, indent=2, ensure_ascii=False)] *)
Variable json_dumps : json → string.

(** [sha256_file], lines 55-60: the chunks read are the file's bytes in
    order, so the digest is that of the whole contents. *)
Definition sha256_file (path : Path) : M string :=
  let* f := Os.read_file path in
  ret (PyStr.hex (sha256_digest (f_bytes f))).

(** The body of the loop of lines 88-108. *)
Definition scan_step (p : Path) (pdf_map : gmap string PdfInfo.t)
    : M (gmap string PdfInfo.t) :=
  let* is_file := Os.is_file p in
  if negb is_file then ret pdf_map
  else
    let iata := safe_iata_from_filename p in
    if decide (iata = "") then ret pdf_map
    else
      match pdf_map !! iata with
      | Some kept =>
          let* _ := Os.print
            (duplicate_warning iata (PdfInfo.src_path kept) p) in
          ret pdf_map
      | None =>
          let* stat := Os.read_file p in
          let mtime := f_mtime stat in
          let* digest := sha256_file p in
          ret (<[iata := PdfInfo.mk iata p digest
                           (Z.of_nat (String.length (f_bytes stat))) mtime]>
                 pdf_map)
      end.

(** [scan_pdfs], lines 82-113 *)
Definition scan_pdfs (source_dir : Path) : M (gmap string PdfInfo.t) :=
  let* found := Os.exists_ source_dir in
  if negb found
  then raise (FileNotFoundError
                ("source-pdfs folder not found: " +:+ PyPath.str source_dir))
  else
    let* paths := Os.sorted_rglob_pdf source_dir in
    let* pdf_map := for_each paths scan_step ∅ in
    if decide (pdf_map = ∅)
    then raise (RuntimeError
                  ("No PDFs found under: " +:+ PyPath.str source_dir))
    else ret pdf_map.

(** [load_json], lines 116-118: the file is opened as UTF-8 text, so
    reading it raises [UnicodeDecodeError] on bytes that are not; the text
    read is then parsed. *)
Definition load_json (path : Path) : M json :=
  let* f := Os.read_file path in
  if negb (PyStr.utf8_valid (f_bytes f)) then raise UnicodeDecodeError
  else
    match json_loads (f_bytes f) with
    | Some v => ret v
    | None => raise JSONDecodeError
    end.

(** [write_json], lines 121-127 *)
Definition write_json (path : Path) (obj : json) : M () :=
  let* _ := Os.mkdir_parents (PyPath.parent path) in
  match PyPath.with_suffix path (PyPath.suffix (PyPath.name path) +:+ ".tmp") with
  | None => raise (ValueError "has an empty name")
  | Some tmp =>
      let* _ := Os.write_file tmp (json_dumps obj +:+ String (ascii_of_N 10) "") in
      Os.replace tmp path
  end.

(** The body of the template loop, lines 171-193. *)
Definition template_step (pdfs : gmap string PdfInfo.t) (site_root : Path)
    (a : json) (airports_out : list json) : M (list json) :=
  match a with
  | JDict a =>
      let iata := template_iata a in
      if decide (iata = "") then ret airports_out
      else
        match pdfs !! iata with
        | None =>
            let* _ := Os.print (missing_pdf_warning iata) in
            ret airports_out
        | Some pdf =>
            let* rel_url := copy_pdf_to_immutable_path site_root pdf in
            let a2 := normalize_airport_dict a iata in
            let a2 := PyDict.set "pdf" (pdf_block rel_url pdf) a2 in
            ret (airports_out ++ [JDict a2])
        end
  | _ => ret airports_out
  end.

(** The body of the bootstrap loop, lines 197-213. *)
Definition minimal_step (site_root : Path) (kv : string * PdfInfo.t)
    (airports_out : list json) : M (list json) :=
  let '(iata, pdf) := kv in
  let* rel_url := copy_pdf_to_immutable_path site_root pdf in
  ret (airports_out ++
         [JDict [("iata", JStr iata); ("icao", JStr iata);
                 ("name", JStr iata); ("city", JStr "");
                 ("pdf", pdf_block rel_url pdf)]]).

(** [sorted(pdfs.items(), key=lambda kv: kv[0])] *)
Definition items_by_key (pdfs : gmap string PdfInfo.t)
    : list (string * PdfInfo.t) :=
  merge_sort (λ kv1 kv2, String.le kv1.1 kv2.1) (map_to_list pdfs).

(** [build_manifest], lines 155-224 *)
Definition build_manifest (pdfs : gmap string PdfInfo.t) (site_root : Path)
    (base_url : option string) (template_manifest_path : option Path)
    : M json :=
  let* now := Os.now in
  let* airports_out :=
    match template_manifest_path with
    | Some path =>
        let* template := load_json path in
        match template with
        | JDict template =>
            match PyDict.get "airports" template with
            | Some (JList template_airports) =>
                for_each template_airports (template_step pdfs site_root) []
            | _ => raise (ValueError
                     "Template manifest must contain an 'airports' array.")
            end
        | v => raise (AttributeError
                 ("'" +:+ PyRepr.type_name v +:+
                  "' object has no attribute 'get'"))
        end
    | None =>
        for_each (items_by_key pdfs) (minimal_step site_root) []
    end in
  let manifest :=
    [("schemaVersion", JInt SCHEMA_VERSION);
     ("generatedAt", JStr (iso_z now));
     ("airports", JList airports_out)] in
  let manifest :=
    match base_url with
    | Some url =>
        if decide (url = "") then manifest
        else PyDict.set "baseURL" (JStr (ensure_trailing_slash url)) manifest
    | None => manifest
    end in
  ret (JDict manifest).

(** [len(manifest.get('airports', []))], line 265 *)
Definition airports_of (manifest : json) : list json :=
  match manifest with
  | JDict m =>
      match PyDict.get "airports" m with
      | Some (JList l) => l
      | _ => []
      end
  | _ => []
  end.

(** [main], lines 227-267, from the parsed arguments on. *)
Definition main (args : Args) : M Z :=
  let source_dir := args_source_pdfs args in
  let site_root := args_site_root args in
  let template_path := args_template args in
  let* pdfs := scan_pdfs source_dir in
  let* manifest :=
    build_manifest pdfs site_root (args_base_url args) template_path in
  let latest_manifest_path :=
    PyPath.under site_root (PyPath.of_str "manifest.json") in
  let* ts :=
    match args_timestamp args with
    | Some ts => if decide (ts = "") then
                   let* t := Os.now in ret (PyTime.strftime_compact t)
                 else ret ts
    | None => let* t := Os.now in ret (PyTime.strftime_compact t)
    end in
  let versioned_manifest_path :=
    PyPath.under site_root
      (PyPath.div (PyPath.of_str "manifests") ("manifest-" +:+ ts +:+ ".json")) in
  let* _ := write_json latest_manifest_path manifest in
  let* _ := write_json versioned_manifest_path manifest in
  let* _ := Os.print ("OK: wrote " +:+ PyPath.str latest_manifest_path) in
  let* _ := Os.print ("OK: wrote " +:+ PyPath.str versioned_manifest_path) in
  let* _ := Os.print
    ("OK: processed " +:+ pretty (length (airports_of manifest))
     +:+ " airports") in
  ret 0%Z.

End Script.

(** ** Vocabulary of the properties *)

(** A regular file is at [p]. *)
Definition file_at (fs : gmap Path node) (p : Path) : bool :=
  match Os.at_path fs p with
  | Some (NFile _) => true
  | _ => false
  end.

(** Something (file or directory) is at [p]. *)
Definition present_at (fs : gmap Path node) (p : Path) : Prop :=
  is_Some (Os.at_path fs p).

(** The documents of a source directory: what [rglob] yields that is a
    regular file with a usable identifier. *)
Definition documents (fs : gmap Path node) (d : Path) : list Path :=
  filter (λ p, file_at fs p ∧ safe_iata_from_filename p ≠ "")
         (Os.rglob_pdf fs d).

(** No component of a stored path holds the separator. *)
Definition names_ok (fs : gmap Path node) : bool :=
  forallb (forallb (λ c, negb (PyStr.contains "/" c))) (map_to_list fs).*1.

(** The names of the files [rglob] yields are 7-bit text, on which
    [PyStr.strip] and [PyStr.upper] are [str.strip] and [str.upper]. *)
Definition ascii_names (fs : gmap Path node) (d : Path) : bool :=
  forallb (λ p, PyStr.isascii (PyPath.name p)) (Os.rglob_pdf fs d).

(** The value under [iata] of every object of a template list is 7-bit
    text throughout. *)
Definition ascii_ids (l : list json) : bool :=
  forallb (λ a, match a with
                | JDict a' =>
                    json_isascii (default (JStr "") (PyDict.get "iata" a'))
                | _ => true
                end) l.

(** Field [k] of a JSON object. *)
Definition field (k : string) (e : json) : option json :=
  match e with
  | JDict d => PyDict.get k d
  | _ => None
  end.

(** The manifest entry a template entry turns into, if any. *)
Definition merged_entry (pdfs : gmap string PdfInfo.t) (a : json)
    : option json :=
  match a with
  | JDict a =>
      let iata := template_iata a in
      if decide (iata = "") then None
      else
        pdf ← pdfs !! iata;
        Some (JDict (PyDict.set "pdf"
                       (pdf_block (PyPath.as_posix (immutable_rel pdf)) pdf)
                       (normalize_airport_dict a iata)))
  | _ => None
  end.

(** The manifest entry of a scanned record when no template is given. *)
Definition minimal_entry (kv : string * PdfInfo.t) : json :=
  JDict [("iata", JStr kv.1); ("icao", JStr kv.1);
         ("name", JStr kv.1); ("city", JStr "");
         ("pdf", pdf_block (PyPath.as_posix (immutable_rel kv.2)) kv.2)].

(** Where [copy_pdf_to_immutable_path] puts a record. *)
Definition immutable_dst (site_root : Path) (pdf : PdfInfo.t) : Path :=
  PyPath.under site_root (immutable_rel pdf).

(** Order of the keys of [pdfs.items()]. *)
Definition key_le (kv1 kv2 : string * PdfInfo.t) : Prop :=
  String.le kv1.1 kv2.1.

(** The fields of the root manifest, lines 215-222. *)
Definition manifest_fields (generated : datetime) (airports : list json)
    (base_url : option string) : list (string * json) :=
  let manifest :=
    [("schemaVersion", JInt SCHEMA_VERSION);
     ("generatedAt", JStr (iso_z generated));
     ("airports", JList airports)] in
  match base_url with
  | Some url =>
      if decide (url = "") then manifest
      else PyDict.set "baseURL" (JStr (ensure_trailing_slash url)) manifest
  | None => manifest
  end.

(** What a successful build knows about its template: the file, the
    object decoded from it and its [airports] list. *)
Definition template_airports (json_loads : string → option json)
    (fs : gmap Path node) (path : Path) (l : list json) : Prop :=
  ∃ f t, Os.at_path fs path = Some (NFile f) ∧
         PyStr.utf8_valid (f_bytes f) = true ∧
         json_loads (f_bytes f) = Some (JDict t) ∧
         PyDict.get "airports" t = Some (JList l).

(** The template, when one is given and its list can be read, names
    identifiers in 7-bit text. *)
Definition ascii_template (json_loads : string → option json)
    (fs : gmap Path node) (tpl : option Path) : Prop :=
  ∀ path l, tpl = Some path → template_airports json_loads fs path l →
            ascii_ids l.

(** The record line 102 builds for the file [f] found at [p]. *)
Definition scanned_record (sha256_digest : string → string)
    (p : Path) (f : FileData) : PdfInfo.t :=
  PdfInfo.mk (safe_iata_from_filename p) p
             (PyStr.hex (sha256_digest (f_bytes f)))
             (Z.of_nat (String.length (f_bytes f))) (f_mtime f).

(** The record of the first regular file of [l] whose identifier is [k]. *)
Fixpoint scan_first (sha256_digest : string → string)
    (fs : gmap Path node) (k : string) (l : list Path) : option PdfInfo.t :=
  match l with
  | [] => None
  | p :: l' =>
      match Os.at_path fs p with
      | Some (NFile f) =>
          if decide (safe_iata_from_filename p = k)
          then Some (scanned_record sha256_digest p f)
          else scan_first sha256_digest fs k l'
      | _ => scan_first sha256_digest fs k l'
      end
  end.

(** The entry carries identifier [k]. *)
Definition has_iata (k : string) (e : json) : bool :=
  match field "iata" e with
  | Some (JStr s) => bool_decide (s = k)
  | _ => false
  end.

(** The identifier an entry carries (empty when it has none). *)
Definition entry_iata (e : json) : string :=
  match field "iata" e with
  | Some (JStr s) => s
  | _ => ""
  end.

(** The normalized identifiers the objects of a template list name, in
    the order of the list. *)
Definition template_ids (l : list json) : list string :=
  omap (λ a, match a with
             | JDict a' => Some (template_iata a')
             | _ => None
             end) l.

(** The manifest entry [e] has the fields of the template object [a]:
    its normalized identifier, [icao] and [name] as [a] supplies them or
    else the identifier, [city] as supplied or else the empty string, and
    every other field of [a] but [pdf] as supplied. *)
Definition keeps_fields (a : list (string * json)) (e : json) : Prop :=
  field "iata" e = Some (JStr (template_iata a)) ∧
  field "icao" e =
    Some (default (JStr (template_iata a)) (PyDict.get "icao" a)) ∧
  field "name" e =
    Some (default (JStr (template_iata a)) (PyDict.get "name" a)) ∧
  field "city" e = Some (default (JStr "") (PyDict.get "city" a)) ∧
  ∀ k v, k ≠ "iata" → k ≠ "pdf" → PyDict.get k a = Some v →
         field k e = Some v.

(** Since the world [w0], nothing was changed or removed, and at the
    place [root/pdfs/k/s.pdf] there is nothing, or a regular file with
    the contents and the modification time [f]. *)
Definition target_free_or_copied (root : Path) (k s : string) (f : FileData)
    (w0 w : World) : Prop :=
  w_fs w0 ⊆ w_fs w ∧
  (w_fs w !! PyPath.norm (root ++ ["pdfs"; k; s +:+ ".pdf"]) = None ∨
   w_fs w !! PyPath.norm (root ++ ["pdfs"; k; s +:+ ".pdf"])
     = Some (NFile f)).

(** The [url] of the [pdf] block of a manifest entry. *)
Definition entry_url (e : json) : option json := field "pdf" e ≫= field "url".

(** ** Sample runs

    The worlds and stand-ins below serve to run the model on concrete
    inputs. The properties hold for every digest, decoder and encoder;
    the samples use the simplest ones. *)

Definition sample_time : datetime := mk_datetime 2024 3 7 9 5 0 123456.
Definition sample_clock (n : nat) : datetime :=
  mk_datetime 2024 3 7 9 5 (N.of_nat n) 0.

Definition sample_digest (data : string) : string := data.

Definition jfk_entry : list (string * json) :=
  [("iata", JStr " jfk ");
   ("name", JStr "John F. Kennedy Intl");
   ("city", JStr "New York")].

Definition sfo_entry : list (string * json) :=
  [("iata", JStr "SFO"); ("name", JStr "San Francisco")].

Definition lax_entry : list (string * json) := [("iata", JStr "LAX")].

Definition sample_template : json :=
  JDict [("airports", JList [JDict jfk_entry; JDict sfo_entry; JDict lax_entry])].

Definition sample_loads (text : string) : option json :=
  if decide (text = "template") then Some sample_template
  else if decide (text = "lax only")
       then Some (JDict [("airports", JList [JDict [("iata", JStr "LAX")]])])
  else if decide (text = "no list") then Some (JDict [("airports", JStr "JFK")])
  else if decide (text = "no field") then Some (JDict [("schemaVersion", JInt 1)])
  else None.

Definition sample_dumps (v : json) : string := PyRepr.repr v.

Definition sample_fs : gmap Path node :=
  list_to_map
    [(["src"], NDir);
     (["src"; "a"], NDir);
     (["src"; "a"; "JFK.pdf"], NFile (mk_file "X" sample_time));
     (["src"; "jfk.pdf"], NFile (mk_file "YY" sample_time));
     (["src"; "lax.pdf"], NFile (mk_file "Z" sample_time));
     (["src"; "notes.txt"], NFile (mk_file "n" sample_time));
     (["empty"], NDir);
     (["empty"; "readme.txt"], NFile (mk_file "r" sample_time));
     (["site"], NDir);
     (["tpl"], NDir);
     (["tpl"; "manifest_template.json"], NFile (mk_file "template" sample_time));
     (["tpl"; "lax_only.json"], NFile (mk_file "lax only" sample_time));
     (["tpl"; "no_list.json"], NFile (mk_file "no list" sample_time));
     (["tpl"; "no_field.json"], NFile (mk_file "no field" sample_time))].

Definition sample_world : World := mk_world sample_fs [] 0 sample_clock.

(** The scan of the sample source directory and what it leaves. *)
Definition sample_pdfs : gmap string PdfInfo.t :=
  match (scan_pdfs sample_digest ["src"] sample_world).1 with
  | inr pdfs => pdfs
  | inl _ => ∅
  end.

Definition sample_scanned : World :=
  (scan_pdfs sample_digest ["src"] sample_world).2.

(** The manifest built from it, with or without the sample template. *)
Definition sample_manifest (base_url : option string) (tpl : option Path)
    : json :=
  match (build_manifest sample_loads sample_pdfs ["site"] base_url tpl
           sample_scanned).1 with
  | inr m => m
  | inl _ => JNull
  end.

Definition sample_built (base_url : option string) (tpl : option Path)
    : World :=
  (build_manifest sample_loads sample_pdfs ["site"] base_url tpl
     sample_scanned).2.

(** A complete sample run, with an explicit time stamp. *)
Definition sample_args : Args :=
  mk_args ["src"] ["site"] (Some "https://x.github.io/r")
          (Some ["tpl"; "manifest_template.json"]) (Some "20240307-090500").

Definition sample_ran : World :=
  (main sample_digest sample_loads sample_dumps sample_args sample_world).2.

(** The SHA-256 digest of the empty file, in hexadecimal. *)
Definition sha256_of_empty : string :=
  "e3b0c44298fc1c149afbf4c8996fb92427ae41e4649b934ca495991b7852b855".

(** A source tree holding an empty [JFK.pdf], and the record of it. *)
Definition jfk_world : World :=
  mk_world (list_to_map
              [(["src"], NDir);
               (["src"; "JFK.pdf"], NFile (mk_file "" sample_time));
               (["src"; ". .pdf"], NFile (mk_file "" sample_time));
               (["site"], NDir)])
           [] 0 sample_clock.

(** The same tree when the site already has a directory at the place
    where the copy of [JFK.pdf] goes. *)
Definition occupied_world : World :=
  mk_world (list_to_map
              [(["src"], NDir);
               (["src"; "JFK.pdf"], NFile (mk_file "" sample_time));
               (["site"], NDir);
               (["site"; "pdfs"], NDir);
               (["site"; "pdfs"; "JFK"], NDir);
               (["site"; "pdfs"; "JFK"; sha256_of_empty +:+ ".pdf"], NDir)])
           [] 0 sample_clock.

Definition jfk_record : PdfInfo.t :=
  PdfInfo.mk "JFK" ["src"; "JFK.pdf"] sha256_of_empty 0 sample_time.

(** The record of the empty file named [. .pdf], whose stem strips to a
    single dot. *)
Definition dot_record : PdfInfo.t :=
  PdfInfo.mk (safe_iata_from_filename ["src"; ". .pdf"]) ["src"; ". .pdf"]
             sha256_of_empty 0 sample_time.

(** The ranges of the fields of a [datetime]. *)
Definition valid_datetime (d : datetime) : bool :=
  ((1 <=? dt_year d) && (dt_year d <=? 9999) &&
   (1 <=? dt_month d) && (dt_month d <=? 12) &&
   (1 <=? dt_day d) && (dt_day d <=? 31) &&
   (dt_hour d <=? 23) && (dt_minute d <=? 59) && (dt_second d <=? 59) &&
   (dt_microsecond d <=? 999999))%N.

(** The field [n] prints on exactly [w] characters, none of them a plus
    sign. *)
Definition plain_field (w : nat) (n : N) : bool :=
  (String.length (PyTime.dec w n) =? w)%nat &&
  negb (PyStr.contains "+" (PyTime.dec w n)).

(** The date part of a time stamp. *)
Definition iso_date (d : datetime) : string :=
  PyTime.dec 4 (dt_year d) +:+ "-" +:+ PyTime.dec 2 (dt_month d) +:+ "-" +:+
  PyTime.dec 2 (dt_day d).

(** The time-of-day part of a time stamp. *)
Definition iso_time (d : datetime) : string :=
  PyTime.dec 2 (dt_hour d) +:+ ":" +:+ PyTime.dec 2 (dt_minute d) +:+ ":" +:+
  PyTime.dec 2 (dt_second d).

(** A decoder that reads the text [manifest] as the sample manifest built
    without a template, and a world in which that text is in a file. *)
Definition manifest_loads (text : string) : option json :=
  if decide (text = "manifest") then Some (sample_manifest None None)
  else None.

Definition republished_world : World :=
  Os.set_fs (<[["site"; "manifest.json"] :=
                 NFile (mk_file "manifest" sample_time)]>
               (w_fs (sample_built None None)))
            (sample_built None None).


(** The second build, with the first manifest as its template. *)
Definition republished_manifest : json :=
  match (build_manifest manifest_loads sample_pdfs ["site"] None
           (Some ["site"; "manifest.json"]) republished_world).1 with
  | inr m => m
  | inl _ => JNull
  end.

Definition republished_built : World :=
  (build_manifest manifest_loads sample_pdfs ["site"] None
     (Some ["site"; "manifest.json"]) republished_world).2.

(** A source directory whose two documents have different identifiers,
    with the sample template beside it; its scan, and the manifests built
    from it. *)
Definition unique_world : World :=
  mk_world (list_to_map
              [(["src"], NDir);
               (["src"; "JFK.pdf"], NFile (mk_file "X" sample_time));
               (["src"; "lax.pdf"], NFile (mk_file "Z" sample_time));
               (["site"], NDir);
               (["tpl"], NDir);
               (["tpl"; "manifest_template.json"],
                NFile (mk_file "template" sample_time))])
           [] 0 sample_clock.

Definition unique_pdfs : gmap string PdfInfo.t :=
  match (scan_pdfs sample_digest ["src"] unique_world).1 with
  | inr pdfs => pdfs
  | inl _ => ∅
  end.

Definition unique_scanned : World :=
  (scan_pdfs sample_digest ["src"] unique_world).2.

Definition unique_manifest (tpl : option Path) : json :=
  match (build_manifest sample_loads unique_pdfs ["site"] None tpl
           unique_scanned).1 with
  | inr m => m
  | inl _ => JNull
  end.

Definition unique_built (tpl : option Path) : World :=
  (build_manifest sample_loads unique_pdfs ["site"] None tpl
     unique_scanned).2.

(** A decoder that reads the text [[]] as the empty list, and the scanned
    sample world with a template file holding that text. *)
Definition list_loads (text : string) : option json :=
  if decide (text = "[]") then Some (JList []) else None.

Definition list_template_world : World :=
  Os.set_fs (<[["tpl"; "list.json"] := NFile (mk_file "[]" sample_time)]>
               (w_fs sample_scanned))
            sample_scanned.

(** ** Properties *)

(** *** The primitives on samples *)

Example iso_z_sample :
  iso_z (mk_datetime 2024 3 7 9 5 0 123456) = "2024-03-07T09:05:00Z".
Proof. reflexivity. Qed.

Example repr_samples :
  PyRepr.str (JList [JStr "a"; JInt (-3); JNull]) = "['a', -3, None]" ∧
  PyRepr.str (JStr "jfk") = "jfk" ∧
  PyRepr.str (JDict [("k", JBool true)]) = "{'k': True}".
Proof. vm_compute. done. Qed.

Example stem_samples :
  PyPath.stem "JFK.pdf" = "JFK" ∧ PyPath.stem ".pdf" = ".pdf" ∧
  PyPath.stem "a.b.pdf" = "a.b" ∧ PyPath.stem ". .pdf" = ". " ∧
  PyPath.suffix "manifest.json" = ".json".
Proof. vm_compute. done. Qed.

Example pure_path_samples :
  PyPath.as_posix (PyPath.div (PyPath.div (PyPath.of_str "pdfs") "JFK") "ab.pdf")
    = "pdfs/JFK/ab.pdf" ∧
  PyPath.as_posix (PyPath.div (PyPath.div (PyPath.of_str "pdfs") ".") "ab.pdf")
    = "pdfs/ab.pdf" ∧
  PyPath.norm ["site"; "pdfs"; ".."; "ab.pdf"] = ["site"; "ab.pdf"].
Proof. vm_compute. done. Qed.

(** *** The monad *)

Lemma bind_inr {A B} (m : M A) (k : A → M B) w b w' :
  bind m k w = (inr b, w') ↔
  ∃ a w1, m w = (inr a, w1) ∧ k a w1 = (inr b, w').
Proof.
  unfold bind. split.
  - destruct (m w) as [[e|a] w1]; [discriminate|]. eauto.
  - intros (a & w1 & -> & ->). done.
Qed.

Lemma bind_inl {A B} (m : M A) (k : A → M B) w e w' :
  bind m k w = (inl e, w') ↔
  m w = (inl e, w') ∨ ∃ a w1, m w = (inr a, w1) ∧ k a w1 = (inl e, w').
Proof.
  unfold bind. split.
  - destruct (m w) as [[e'|a] w1]; [left; congruence|]. eauto.
  - intros [-> | (a & w1 & -> & ->)]; done.
Qed.

Lemma ret_inr {A} (a b : A) w w' : ret a w = (inr b, w') ↔ a = b ∧ w = w'.
Proof. unfold ret. split; [intros [= -> ->]|intros [-> ->]]; done. Qed.

(** Splits a hypothesis stating that a sequence of binds succeeded. *)
Ltac inv_ok H :=
  repeat match type of H with
  | bind _ _ _ = (inr _, _) =>
      let a := fresh "a" in let w := fresh "w" in
      let H1 := fresh "Hstep" in
      apply bind_inr in H; destruct H as (a & w & H1 & H)
  | ret _ _ = (inr _, _) => apply ret_inr in H as [? ?]; subst
  | raise _ _ = (inr _, _) => discriminate H
  end.

(** A loop invariant holds after a loop that ran to its end. *)
Lemma for_each_ind {A S} (P : S → World → Prop) (l : list A)
    (body : A → S → M S) s w s' w' :
  for_each l body s w = (inr s', w') →
  P s w →
  (∀ x s1 w1 s2 w2,
     x ∈ l → P s1 w1 → body x s1 w1 = (inr s2, w2) → P s2 w2) →
  P s' w'.
Proof.
  revert s w. induction l as [|x l IH]; intros s w Hrun Hinit Hbody; simpl in Hrun.
  - apply ret_inr in Hrun as [-> ->]. done.
  - apply bind_inr in Hrun as (s1 & w1 & Hx & Hrun).
    eapply IH; [done| |].
    + eapply Hbody; [|done..]. left.
    + intros ??????. eapply Hbody. by right.
Qed.

(** *** Runs on concrete worlds *)

(** A run that returns, from its result alone: what it returned and the
    world it left are the two components of the run. *)
Lemma run_returned {A} (m : M A) (w : World) (d : A) :
  match (m w).1 with inr _ => true | inl _ => false end = true →
  m w = (inr match (m w).1 with inr a => a | inl _ => d end, (m w).2).
Proof. destruct (m w) as [[e|a] w']; simpl; [discriminate|done]. Qed.

Lemma run_result {A} (m : M A) (w : World) (a : A) :
  (m w).1 = inr a → m w = (inr a, (m w).2).
Proof. destruct (m w) as [r w']. simpl. by intros ->. Qed.

Lemma sample_scan_run :
  scan_pdfs sample_digest ["src"] sample_world
    = (inr sample_pdfs, sample_scanned).
Proof.
  apply (run_returned (scan_pdfs sample_digest ["src"]) sample_world ∅).
  vm_compute. reflexivity.
Qed.

Lemma sample_build_run loads tpl :
  match (build_manifest loads sample_pdfs ["site"] None tpl sample_scanned).1
  with inr _ => true | inl _ => false end = true →
  build_manifest loads sample_pdfs ["site"] None tpl sample_scanned
    = (inr match (build_manifest loads sample_pdfs ["site"] None tpl
                    sample_scanned).1 with
           | inr m => m
           | inl _ => JNull
           end,
       (build_manifest loads sample_pdfs ["site"] None tpl sample_scanned).2).
Proof. apply run_returned. Qed.

Lemma unique_scan_run :
  scan_pdfs sample_digest ["src"] unique_world
    = (inr unique_pdfs, unique_scanned).
Proof.
  apply (run_returned (scan_pdfs sample_digest ["src"]) unique_world ∅).
  vm_compute. reflexivity.
Qed.

Lemma unique_build_run tpl :
  match (build_manifest sample_loads unique_pdfs ["site"] None tpl
           unique_scanned).1
  with inr _ => true | inl _ => false end = true →
  build_manifest sample_loads unique_pdfs ["site"] None tpl unique_scanned
    = (inr (unique_manifest tpl), unique_built tpl).
Proof. apply run_returned. Qed.

(** The sample template, as the builds read it. *)
Lemma sample_template_airports_before :
  template_airports sample_loads (w_fs sample_world)
    ["tpl"; "manifest_template.json"]
    [JDict jfk_entry; JDict sfo_entry; JDict lax_entry].
Proof.
  exists (mk_file "template" sample_time),
    [("airports", JList [JDict jfk_entry; JDict sfo_entry; JDict lax_entry])].
  split_and!; vm_compute; reflexivity.
Qed.

Lemma sample_template_airports :
  template_airports sample_loads (w_fs sample_scanned)
    ["tpl"; "manifest_template.json"]
    [JDict jfk_entry; JDict sfo_entry; JDict lax_entry].
Proof.
  exists (mk_file "template" sample_time),
    [("airports", JList [JDict jfk_entry; JDict sfo_entry; JDict lax_entry])].
  split_and!; vm_compute; reflexivity.
Qed.

Lemma unique_template_airports :
  template_airports sample_loads (w_fs unique_world)
    ["tpl"; "manifest_template.json"]
    [JDict jfk_entry; JDict sfo_entry; JDict lax_entry].
Proof.
  exists (mk_file "template" sample_time),
    [("airports", JList [JDict jfk_entry; JDict sfo_entry; JDict lax_entry])].
  split_and!; vm_compute; reflexivity.
Qed.

(** A template whose list is known and 7-bit is a 7-bit template; so is
    no template. *)
Lemma ascii_template_of loads fs path l :
  template_airports loads fs path l → ascii_ids l →
  ascii_template loads fs (Some path).
Proof.
  intros (f & t & Hat & _ & Hloads & Hget) Hascii path' l' [= <-]
    (f' & t' & Hat' & _ & Hloads' & Hget').
  assert (l' = l) as -> by congruence. done.
Qed.

Lemma ascii_template_none loads fs : ascii_template loads fs None.
Proof. by intros path l [=]. Qed.

Lemma sample_ids_ascii :
  ascii_ids [JDict jfk_entry; JDict sfo_entry; JDict lax_entry].
Proof. vm_compute. exact I. Qed.

Lemma sample_names_ascii : ascii_names (w_fs sample_world) ["src"].
Proof. vm_compute. exact I. Qed.

Lemma unique_names_ascii : ascii_names (w_fs unique_world) ["src"].
Proof. vm_compute. exact I. Qed.


(** *** The order on paths *)

Global Instance path_le_dec : RelDecision PyPath.le.
Proof. intros p q. unfold PyPath.le. apply _. Defined.

Global Instance path_le_refl : Reflexive PyPath.le.
Proof.
  intros p. unfold PyPath.le. induction p as [|a p IH]; simpl; [done|].
  by rewrite decide_True.
Qed.

Global Instance path_le_trans : Transitive PyPath.le.
Proof.
  unfold PyPath.le. intros p. induction p as [|a p IH]; intros [|b q] [|c r]; simpl;
    try done.
  repeat case_decide; subst; try done; rewrite ?bool_decide_spec.
  - apply IH.
  - intros ??. exfalso. assert (b = c) by (by apply (anti_symm String.le)). done.
  - intros ??. by etrans.
Qed.

Global Instance path_le_antisym : AntiSymm (=) PyPath.le.
Proof.
  unfold PyPath.le. intros p. induction p as [|a p IH]; intros [|b q]; simpl; try done.
  case_decide; subst.
  - rewrite decide_True by done. intros ??. f_equal. by apply IH.
  - rewrite decide_False by done. rewrite !bool_decide_spec. intros ??.
    exfalso. assert (a = b) by (by apply (anti_symm String.le)). done.
Qed.

Global Instance path_le_total : Total PyPath.le.
Proof.
  unfold PyPath.le. intros p. induction p as [|a p IH]; intros [|b q]; simpl; auto.
  case_decide; subst.
  - rewrite decide_True by done. apply IH.
  - rewrite decide_False by done. rewrite !bool_decide_spec.
    apply (total String.le).
Qed.

Global Instance key_le_dec : RelDecision key_le.
Proof. intros ??. unfold key_le. apply _. Defined.

Global Instance key_le_trans : Transitive key_le.
Proof. unfold key_le. intros ???. apply transitivity. Qed.

Global Instance key_le_total : Total key_le.
Proof. unfold key_le. intros ??. apply (total String.le). Qed.

(** *** Appending strings *)

Lemma string_app_assoc (a b c : string) : (a +:+ b) +:+ c = a +:+ (b +:+ c).
Proof.
  induction a as [|x a IH]; [done|].
  change (String x a +:+ b) with (String x (a +:+ b)).
  change (String x (a +:+ b) +:+ c) with (String x ((a +:+ b) +:+ c)).
  by rewrite IH.
Qed.

Lemma string_length_app (a b : string) :
  String.length (a +:+ b) = (String.length a + String.length b)%nat.
Proof.
  induction a as [|x a IH]; [done|].
  change (String x a +:+ b) with (String x (a +:+ b)). simpl. by rewrite IH.
Qed.

Lemma string_app_inv_head (s a b : string) : s +:+ a = s +:+ b → a = b.
Proof.
  induction s as [|x s IH]; [done|].
  change (String x s +:+ ?t) with (String x (s +:+ t)). intros [= E]. auto.
Qed.

Lemma string_app_inv_tail (a b t : string) : a +:+ t = b +:+ t → a = b.
Proof.
  revert b. induction a as [|x a IH]; intros [|y b]; [done|..].
  - intros E%(f_equal String.length).
    change (String y b +:+ t) with (String y (b +:+ t)) in E.
    change ("" +:+ t) with t in E.
    simpl in E. rewrite string_length_app in E. lia.
  - intros E%(f_equal String.length).
    change (String x a +:+ t) with (String x (a +:+ t)) in E.
    change ("" +:+ t) with t in E.
    simpl in E. rewrite string_length_app in E. lia.
  - change (String x a +:+ t) with (String x (a +:+ t)).
    change (String y b +:+ t) with (String y (b +:+ t)).
    intros [= -> E]. by rewrite (IH b).
Qed.

(** *** Strings without the path separator *)

Lemma contains_app c s t :
  PyStr.contains c (s +:+ t) = PyStr.contains c s || PyStr.contains c t.
Proof.
  induction s as [|a s IH]; [done|].
  change (String a s +:+ t) with (String a (s +:+ t)). simpl.
  rewrite IH. by rewrite orb_assoc.
Qed.

Lemma upper_char_slash a : PyStr.upper_char a = "/"%char → a = "/"%char.
Proof. destruct a as [[] [] [] [] [] [] [] []]; vm_compute; congruence. Qed.

Lemma contains_upper s :
  PyStr.contains "/" s = false → PyStr.contains "/" (PyStr.upper s) = false.
Proof.
  induction s as [|a s IH]; simpl; [done|].
  intros [Ha Hs]%orb_false_elim. rewrite IH by done.
  apply bool_decide_eq_false in Ha. rewrite orb_false_r.
  apply bool_decide_eq_false. intros ?%upper_char_slash. done.
Qed.

Lemma contains_lstrip c s :
  PyStr.contains c s = false → PyStr.contains c (PyStr.lstrip s) = false.
Proof.
  induction s as [|a s IH]; simpl; [done|].
  intros H. destruct (PyStr.isspace a); [|done].
  apply orb_false_elim in H as [_ H]. auto.
Qed.

Lemma contains_rstrip c s :
  PyStr.contains c s = false → PyStr.contains c (PyStr.rstrip s) = false.
Proof.
  induction s as [|a s IH]; simpl; [done|].
  intros [Ha Hs]%orb_false_elim.
  destruct (decide (PyStr.rstrip s = "")); [destruct (PyStr.isspace a)|];
    simpl; rewrite ?Ha, ?IH; done.
Qed.

Lemma contains_substring c n m s :
  PyStr.contains c s = false → PyStr.contains c (substring n m s) = false.
Proof.
  revert n m. induction s as [|a s IH]; intros n m H.
  - by destruct n, m.
  - simpl in H. apply orb_false_elim in H as [Ha Hs].
    destruct n, m; simpl; rewrite ?Ha; simpl; auto.
Qed.

Lemma contains_stem c nm :
  PyStr.contains c nm = false → PyStr.contains c (PyPath.stem nm) = false.
Proof.
  intros H. unfold PyPath.stem. destruct (PyPath.suffix_at nm); [|done].
  by apply contains_substring.
Qed.

Lemma split_on_absent c s :
  PyStr.contains c s = false → PyStr.split_on c s = [s].
Proof.
  induction s as [|a s IH]; simpl; [done|].
  intros [Ha Hs]%orb_false_elim. apply bool_decide_eq_false in Ha.
  rewrite decide_False by done. by rewrite IH.
Qed.

(** A segment without separator that is neither empty nor the single dot
    is one relative component. *)
Lemma of_str_component s :
  PyStr.contains "/" s = false → s ≠ "" → s ≠ "." →
  PyPath.of_str s = mk_pure false [s].
Proof.
  intros Hs Hne Hdot. unfold PyPath.of_str. rewrite split_on_absent by done.
  f_equal.
  - destruct s as [|a s]; [done|]. simpl in *.
    by apply orb_false_elim in Hs as [-> _].
  - rewrite filter_cons_True by done. done.
Qed.

Lemma hex_digit_not_slash n : PyStr.hex_digit n ≠ "/"%char.
Proof. unfold PyStr.hex_digit. repeat case_match; done. Qed.

Lemma contains_hex bs : PyStr.contains "/" (PyStr.hex bs) = false.
Proof.
  induction bs as [|a bs IH]; [done|].
  simpl. rewrite contains_app, IH, orb_false_r.
  unfold PyStr.hex_byte. simpl.
  rewrite !bool_decide_eq_false_2; [done|apply hex_digit_not_slash..].
Qed.

Lemma endswith_app s t : PyStr.endswith (s +:+ t) t = true.
Proof.
  induction s as [|a s IH].
  - change ("" +:+ t) with t.
    destruct t; simpl; [done|]. by rewrite bool_decide_eq_true_2.
  - change (String a s +:+ t) with (String a (s +:+ t)). simpl.
    rewrite IH. apply orb_true_r.
Qed.

Lemma app_not_empty s t : t ≠ "" → s +:+ t ≠ "".
Proof. by destruct s, t. Qed.

(** The relative destination of a record whose identifier is an ordinary
    component. *)
Lemma immutable_rel_parts pdf :
  PyStr.contains "/" (PdfInfo.iata pdf) = false →
  PdfInfo.iata pdf ≠ "" → PdfInfo.iata pdf ≠ "." →
  PyStr.contains "/" (PdfInfo.sha256 pdf) = false →
  immutable_rel pdf =
    mk_pure false ["pdfs"; PdfInfo.iata pdf; PdfInfo.sha256 pdf +:+ ".pdf"].
Proof.
  intros Hi Hne Hdot Hs. unfold immutable_rel, PyPath.div.
  rewrite (of_str_component (PdfInfo.iata pdf)) by done.
  rewrite (of_str_component (_ +:+ ".pdf")).
  - done.
  - by rewrite contains_app, Hs.
  - by apply app_not_empty.
  - intros H. pose proof (endswith_app (PdfInfo.sha256 pdf) ".pdf") as E.
    rewrite H in E. done.
Qed.

(** *** Publishing only adds to the file system *)

Lemma at_path_None fs p :
  Os.at_path fs p = None → PyPath.norm p ≠ [] ∧ fs !! PyPath.norm p = None.
Proof. unfold Os.at_path. destruct (PyPath.norm p); done. Qed.

Lemma at_path_weaken fs fs' p n :
  fs ⊆ fs' → Os.at_path fs p = Some n → Os.at_path fs' p = Some n.
Proof.
  unfold Os.at_path. intros Hsub. destruct (PyPath.norm p); [done|].
  intros H. by eapply lookup_weaken.
Qed.

Lemma present_at_mono fs fs' p :
  fs ⊆ fs' → present_at fs p → present_at fs' p.
Proof. intros Hsub [n Hn]. exists n. by eapply at_path_weaken. Qed.

Lemma at_path_insert fs p n :
  PyPath.norm p ≠ [] → Os.at_path (<[PyPath.norm p := n]> fs) p = Some n.
Proof.
  unfold Os.at_path. destruct (PyPath.norm p) eqn:E; [done|].
  intros _. apply lookup_insert_eq.
Qed.

Lemma mkdir1_grows p u w u' w' :
  Os.mkdir1 p u w = (inr u', w') → w_fs w ⊆ w_fs w' ∧ w_out w' = w_out w.
Proof.
  unfold Os.mkdir1. destruct (Os.at_path (w_fs w) p) as [[|f]|] eqn:E.
  - intros [= <- <-]. done.
  - done.
  - intros [= <- <-]. simpl. split; [|done].
    apply insert_subseteq. by apply at_path_None in E as [_ ?].
Qed.

Lemma mkdir_parents_grows p w u w' :
  Os.mkdir_parents p w = (inr u, w') → w_fs w ⊆ w_fs w' ∧ w_out w' = w_out w.
Proof.
  intros H.
  apply (for_each_ind (λ _ w1, w_fs w ⊆ w_fs w1 ∧ w_out w1 = w_out w)) in H;
    [done|done|].
  intros x s1 w1 s2 w2 _ [Hsub Hout] [Hsub' Hout']%mkdir1_grows.
  split; [by etrans|congruence].
Qed.

(** [copy_pdf_to_immutable_path], when it returns: the URL is the POSIX
    form of the relative destination, something is at the destination, and
    nothing that was in the file system was changed or removed. *)
Lemma copy_pdf_spec root pdf w url w' :
  copy_pdf_to_immutable_path root pdf w = (inr url, w') →
  url = PyPath.as_posix (immutable_rel pdf) ∧
  w_fs w ⊆ w_fs w' ∧ w_out w' = w_out w ∧
  present_at (w_fs w') (immutable_dst root pdf).
Proof.
  unfold copy_pdf_to_immutable_path. intros H.
  apply bind_inr in H as (u & w1 & [Hsub Hout]%mkdir_parents_grows & H).
  apply bind_inr in H as (present & w2 & Hex & H).
  unfold Os.exists_ in Hex. injection Hex as <- <-.
  case_bool_decide as Hpres.
  - apply ret_inr in H as [<- <-]. done.
  - apply bind_inr in H as (u2 & w3 & Hcopy & H).
    apply ret_inr in H as [<- <-].
    unfold Os.copy2 in Hcopy.
    apply bind_inr in Hcopy as (f & w4 & Hread & Hcopy).
    unfold Os.read_file in Hread.
    destruct (Os.at_path (w_fs w1) (PdfInfo.src_path pdf)) as [[|f']|];
      try done. injection Hread as <- <-.
    destruct (Os.at_path (w_fs w1) (PyPath.parent _)) as [[|?]|]; try done.
    injection Hcopy as <- <-. simpl.
    assert (Os.at_path (w_fs w1) (immutable_dst root pdf) = None) as Habs.
    { destruct (Os.at_path _ _) eqn:E; [|done]. destruct Hpres. by eexists. }
    apply at_path_None in Habs as [Hnn Hnone].
    split_and!; [done| |done|].
    + etrans; [done|]. by apply insert_subseteq.
    + eexists. by apply at_path_insert.
Qed.

Lemma template_loop_spec pdfs root l acc w out w' :
  for_each l (template_step pdfs root) acc w = (inr out, w') →
  out = acc ++ omap (merged_entry pdfs) l ∧
  w_fs w ⊆ w_fs w' ∧
  ∀ a pdf, JDict a ∈ l → template_iata a ≠ "" →
           pdfs !! template_iata a = Some pdf →
           present_at (w_fs w') (immutable_dst root pdf).
Proof.
  revert acc w. induction l as [|x l IH]; intros acc w H; simpl in H.
  { apply ret_inr in H as [<- <-]. rewrite app_nil_r.
    split_and!; [done..|]. intros ?? ?%elem_of_nil. done. }
  apply bind_inr in H as (acc1 & w1 & Hx & H).
  apply IH in H as (-> & Hsub & Hpub).
  assert (acc1 = acc ++ option_list (merged_entry pdfs x) ∧
          w_fs w ⊆ w_fs w1 ∧
          ∀ a pdf, x = JDict a → template_iata a ≠ "" →
                   pdfs !! template_iata a = Some pdf →
                   present_at (w_fs w1) (immutable_dst root pdf))
    as (-> & Hsub1 & Hpub1).
  { unfold template_step in Hx. destruct x as [| | | | |?|a];
      try (apply ret_inr in Hx as [<- <-]; simpl; rewrite app_nil_r;
           split_and!; [done..|]; intros; done).
    simpl. destruct (decide (template_iata a = "")) as [E|E].
    { apply ret_inr in Hx as [<- <-]. rewrite app_nil_r.
      split_and!; [done..|]. intros ?? [= <-]. done. }
    destruct (pdfs !! template_iata a) as [pdf|] eqn:Hpdf; simpl.
    - apply bind_inr in Hx as (url & w2 & (-> & Hs & _ & Hp)%copy_pdf_spec & Hx).
      apply ret_inr in Hx as [<- <-].
      split_and!; [done..|]. intros ?? [= <-] _ ?. by simplify_eq.
    - apply bind_inr in Hx as (u & w2 & Hprint & Hx).
      apply ret_inr in Hx as [<- <-]. unfold Os.print in Hprint. simplify_eq.
      rewrite app_nil_r. split_and!; [done..|]. intros ?? [= <-] _ ?. congruence. }
  split_and!.
  - simpl. destruct (merged_entry pdfs x); simpl; by rewrite <-?app_assoc, ?app_nil_r.
  - by etrans.
  - intros a pdf [Heq|Hin]%elem_of_cons Hne Hpdf.
    + eapply present_at_mono; [done|]. by eapply Hpub1.
    + by eapply Hpub.
Qed.

Lemma minimal_loop_spec root l acc w out w' :
  for_each l (minimal_step root) acc w = (inr out, w') →
  out = acc ++ (minimal_entry <$> l) ∧
  w_fs w ⊆ w_fs w' ∧
  ∀ kv, kv ∈ l → present_at (w_fs w') (immutable_dst root kv.2).
Proof.
  revert acc w. induction l as [|[k pdf] l IH]; intros acc w H; simpl in H.
  { apply ret_inr in H as [<- <-]. rewrite app_nil_r.
    split_and!; [done..|]. intros ? ?%elem_of_nil. done. }
  apply bind_inr in H as (acc1 & w1 & Hx & H).
  apply IH in H as (-> & Hsub & Hpub).
  apply bind_inr in Hx as (url & w2 & (-> & Hs & _ & Hp)%copy_pdf_spec & Hx).
  apply ret_inr in Hx as [<- <-].
  split_and!.
  - by rewrite <-app_assoc.
  - by etrans.
  - intros kv [->|Hin]%elem_of_cons.
    + by eapply present_at_mono.
    + by apply Hpub.
Qed.

(** *** What [build_manifest] returns *)

Section Build.
Context (json_loads : string → option json).

Lemma airports_of_manifest generated entries base :
  airports_of (JDict (manifest_fields generated entries base)) = entries.
Proof.
  unfold manifest_fields. destruct base as [url|]; [|done].
  case_decide; done.
Qed.

(** [load_json], when it returns: the file is a regular one, its bytes
    are UTF-8 and parse to the value; the world is as it was. *)
Lemma load_json_inr path w v w' :
  load_json json_loads path w = (inr v, w') →
  w' = w ∧
  ∃ f, Os.at_path (w_fs w) path = Some (NFile f) ∧
       PyStr.utf8_valid (f_bytes f) = true ∧
       json_loads (f_bytes f) = Some v.
Proof.
  unfold load_json. intros H.
  apply bind_inr in H as (f & w1 & Hread & H).
  unfold Os.read_file in Hread.
  destruct (Os.at_path (w_fs w) path) as [[|f']|] eqn:Hat; try done.
  injection Hread as <- <-.
  destruct (PyStr.utf8_valid (f_bytes f')) eqn:Hutf; [|done]. simpl in H.
  destruct (json_loads (f_bytes f')) as [v'|] eqn:Hv; [|done].
  apply ret_inr in H as [<- <-]. split; [done|]. by exists f'.
Qed.

(** The entries of the manifest are a pure function of the scan result and
    the template; the effects of the build are the published copies. *)
Lemma build_manifest_spec pdfs root base tpl w m w' :
  build_manifest json_loads pdfs root base tpl w = (inr m, w') →
  ∃ entries,
    m = JDict (manifest_fields (w_clock w (w_tick w)) entries base) ∧
    w_fs w ⊆ w_fs w' ∧
    match tpl with
    | None =>
        entries = minimal_entry <$> items_by_key pdfs ∧
        ∀ kv, kv ∈ items_by_key pdfs →
              present_at (w_fs w') (immutable_dst root kv.2)
    | Some path =>
        ∃ l, template_airports json_loads (w_fs w) path l ∧
             entries = omap (merged_entry pdfs) l ∧
             ∀ a pdf, JDict a ∈ l → template_iata a ≠ "" →
                      pdfs !! template_iata a = Some pdf →
                      present_at (w_fs w') (immutable_dst root pdf)
    end.
Proof.
  unfold build_manifest. intros H.
  apply bind_inr in H as (now & w1 & Hnow & H).
  unfold Os.now in Hnow. injection Hnow as <- <-.
  apply bind_inr in H as (entries & w2 & Hloop & H).
  apply ret_inr in H as [<- <-]. exists entries.
  split; [done|]. destruct tpl as [path|].
  - apply bind_inr in Hloop as (template & w3 & Hload & Hloop).
    apply load_json_inr in Hload as (-> & f' & Hat & Hutf & Hv).
    destruct template as [| | | | | |t]; try done.
    destruct (PyDict.get "airports" t) as [[| | | | |l|]|] eqn:Hl; try done.
    apply template_loop_spec in Hloop as (-> & Hsub & Hpub).
    split; [done|]. exists l. split_and!; [|done..].
    exists f', t. done.
  - apply minimal_loop_spec in Hloop as (-> & Hsub & Hpub). done.
Qed.

End Build.

(** *** What [scan_pdfs] returns *)

Section Scan.
Context (sha256_digest : string → string).

Local Abbreviation step := (scan_step sha256_digest).
Local Abbreviation first_of := (scan_first sha256_digest).
Local Abbreviation record := (scanned_record sha256_digest).

(** One iteration of the scan, case by case; it never raises. *)
Lemma scan_step_eq p m w :
  step p m w =
    match Os.at_path (w_fs w) p with
    | Some (NFile f) =>
        let iata := safe_iata_from_filename p in
        if decide (iata = "") then (inr m, w)
        else match m !! iata with
             | Some kept =>
                 (inr m, mk_world (w_fs w)
                           (w_out w ++
                              [duplicate_warning iata (PdfInfo.src_path kept) p])
                           (w_tick w) (w_clock w))
             | None => (inr (<[iata := record p f]> m), w)
             end
    | _ => (inr m, w)
    end.
Proof.
  unfold scan_step, sha256_file, bind, Os.is_file, Os.read_file,
    Os.print, ret.
  destruct (Os.at_path (w_fs w) p) as [[|f]|] eqn:Hat; simpl; try done.
  case_decide; [done|].
  destruct (m !! safe_iata_from_filename p); simpl; [done|].
  rewrite Hat. simpl. by rewrite Hat.
Qed.

Lemma scan_first_Some fs k l i :
  first_of fs k l = Some i →
  ∃ l1 l2 f,
    l = l1 ++ PdfInfo.src_path i :: l2 ∧
    Os.at_path fs (PdfInfo.src_path i) = Some (NFile f) ∧
    i = record (PdfInfo.src_path i) f ∧
    PdfInfo.iata i = k ∧
    ∀ q, q ∈ l1 → file_at fs q → safe_iata_from_filename q ≠ k.
Proof.
  induction l as [|p l IH]; simpl; [done|].
  destruct (Os.at_path fs p) as [[|f]|] eqn:Hat.
  - intros (l1 & l2 & f & -> & ?)%IH. exists (p :: l1), l2, f.
    split_and!; try naive_solver.
    intros q [->|?]%elem_of_cons; [|naive_solver].
    unfold file_at. by rewrite Hat.
  - case_decide as Hk.
    + intros [= <-]. exists [], l, f. simpl. split_and!; try done.
      intros ? ?%elem_of_nil. done.
    + intros (l1 & l2 & f' & -> & ?)%IH. exists (p :: l1), l2, f'.
      split_and!; try naive_solver.
      intros q [->|?]%elem_of_cons; naive_solver.
  - intros (l1 & l2 & f & -> & ?)%IH. exists (p :: l1), l2, f.
    split_and!; try naive_solver.
    intros q [->|?]%elem_of_cons; [|naive_solver].
    unfold file_at. by rewrite Hat.
Qed.

Lemma scan_first_is_Some fs k l q :
  q ∈ l → file_at fs q → safe_iata_from_filename q = k →
  is_Some (first_of fs k l).
Proof.
  induction l as [|p l IH]; [by intros ?%elem_of_nil|].
  intros [->|Hin]%elem_of_cons Hfile Hk; simpl.
  - unfold file_at in Hfile. destruct (Os.at_path fs p) as [[|f]|]; try done.
    rewrite decide_True by done. by eexists.
  - destruct (Os.at_path fs p) as [[|f]|]; try case_decide; eauto.
Qed.

(** In a sorted listing the first file with an identifier is the least. *)
Lemma scan_first_least fs k l i q :
  StronglySorted PyPath.le l →
  first_of fs k l = Some i →
  q ∈ l → file_at fs q → safe_iata_from_filename q = k →
  PyPath.le (PdfInfo.src_path i) q.
Proof.
  intros Hsorted (l1 & l2 & f & -> & _ & _ & _ & Hbefore)%scan_first_Some
    Hin Hfile Hk.
  apply elem_of_app in Hin as [Hin|Hin].
  { by destruct (Hbefore q Hin Hfile). }
  apply elem_of_cons in Hin as [->|Hin]; [done|].
  apply StronglySorted_app in Hsorted as (_ & _ & Hs).
  apply StronglySorted_cons in Hs as [Hall _].
  rewrite Forall_forall in Hall. by apply Hall.
Qed.

(** The scan loop: the map gains, for every identifier it did not hold,
    the record of the first file with that identifier; the file system is
    only read and the output only grows. *)
Lemma scan_loop_spec l m w :
  ∃ m' w',
    for_each l step m w = (inr m', w') ∧
    w_fs w' = w_fs w ∧
    (∃ lines, w_out w' = w_out w ++ lines) ∧
    ∀ k, m' !! k =
         match m !! k with
         | Some i => Some i
         | None => if decide (k = "") then None else first_of (w_fs w) k l
         end.
Proof.
  revert m w. induction l as [|p l IH]; intros m w.
  { exists m, w. split_and!; [done|done|by exists []; rewrite app_nil_r|].
    intros k. simpl. destruct (m !! k); [done|]. by case_decide. }
  simpl. unfold bind. rewrite scan_step_eq.
  destruct (Os.at_path (w_fs w) p) as [[|f]|] eqn:Hat; simpl.
  1,3: destruct (IH m w) as (m' & w' & -> & ? & ? & Hk); exists m', w';
       split_and!; [done..|]; intros k; rewrite Hk; done.
  destruct (decide (safe_iata_from_filename p = "")) as [Hempty|Hne].
  { destruct (IH m w) as (m' & w' & -> & ? & ? & Hk). exists m', w'.
    split_and!; [done..|]. intros k. rewrite Hk.
    destruct (m !! k); [done|]. repeat case_decide; congruence. }
  destruct (m !! safe_iata_from_filename p) as [kept|] eqn:Hkept.
  - match goal with |- context [for_each l _ m ?w1] =>
      destruct (IH m w1) as (m' & w' & -> & Hfs & [lines Hout] & Hk) end.
    exists m', w'. simpl in *. split_and!; [done|done| |].
    { eexists. rewrite Hout, <-app_assoc. done. }
    intros k. rewrite Hk. destruct (m !! k) eqn:E; [done|].
    repeat case_decide; congruence.
  - destruct (IH (<[safe_iata_from_filename p := record p f]> m) w)
      as (m' & w' & -> & Hfs & Hout & Hk).
    exists m', w'. split_and!; [done..|].
    intros k. rewrite Hk.
    destruct (decide (safe_iata_from_filename p = k)) as [<-|Hpk].
    + rewrite lookup_insert_eq, Hkept. by rewrite decide_False.
    + rewrite lookup_insert_ne by done. done.
Qed.

End Scan.

Section ScanPdfs.
Context (sha256_digest : string → string).

Local Abbreviation first_of := (scan_first sha256_digest).
Local Abbreviation record := (scanned_record sha256_digest).

Lemma sorted_pdfs_sorted fs d : StronglySorted PyPath.le (Os.sorted_pdfs fs d).
Proof. apply (StronglySorted_merge_sort _). Qed.

Lemma elem_of_sorted_pdfs fs d p :
  p ∈ Os.sorted_pdfs fs d ↔ p ∈ Os.rglob_pdf fs d.
Proof. unfold Os.sorted_pdfs. by rewrite merge_sort_Permutation. Qed.

(** [scan_pdfs] unfolded once: the existence test, the loop, the
    emptiness test. *)
Lemma scan_pdfs_eq d w :
  scan_pdfs sha256_digest d w =
    if bool_decide (present_at (w_fs w) d) then
      match for_each (Os.sorted_pdfs (w_fs w) d) (scan_step sha256_digest) ∅ w with
      | (inr pdf_map, w') =>
          if decide (pdf_map = ∅)
          then (inl (RuntimeError ("No PDFs found under: " +:+ PyPath.str d)), w')
          else (inr pdf_map, w')
      | (inl e, w') => (inl e, w')
      end
    else (inl (FileNotFoundError
                 ("source-pdfs folder not found: " +:+ PyPath.str d)), w).
Proof.
  unfold scan_pdfs, bind, Os.exists_, Os.sorted_rglob_pdf, present_at. simpl.
  case_bool_decide; simpl; [|done].
  destruct (for_each _ _ _ _) as [[e|m] w']; [done|].
  by case_decide.
Qed.

(** A scan that returns: the directory exists, nothing was written, and
    the map holds, for each non-empty identifier, the record of the first
    file carrying it in sorted order. *)
Lemma scan_pdfs_inr d w pdfs w' :
  scan_pdfs sha256_digest d w = (inr pdfs, w') →
  present_at (w_fs w) d ∧ w_fs w' = w_fs w ∧
  (∃ lines, w_out w' = w_out w ++ lines) ∧
  ∀ k, pdfs !! k =
       if decide (k = "") then None
       else first_of (w_fs w) k (Os.sorted_pdfs (w_fs w) d).
Proof.
  rewrite scan_pdfs_eq. case_bool_decide; [|done].
  destruct (scan_loop_spec sha256_digest (Os.sorted_pdfs (w_fs w) d) ∅ w)
    as (m' & w1 & -> & Hfs & Hout & Hk).
  case_decide; [done|]. intros [= <- <-]. split_and!; [done..|].
  intros k. rewrite Hk, lookup_empty. done.
Qed.

(** Every record of the scan result is that of a regular file of the
    listing, stored under the file's normalized identifier. *)
Lemma scan_pdfs_record d w pdfs w' k i :
  scan_pdfs sha256_digest d w = (inr pdfs, w') →
  pdfs !! k = Some i →
  k ≠ "" ∧ PdfInfo.iata i = k ∧
  PdfInfo.src_path i ∈ Os.rglob_pdf (w_fs w) d ∧
  ∃ f, Os.at_path (w_fs w) (PdfInfo.src_path i) = Some (NFile f) ∧
       i = record (PdfInfo.src_path i) f.
Proof.
  intros (_ & _ & _ & Hk)%scan_pdfs_inr Hi. rewrite Hk in Hi.
  case_decide; [done|].
  apply scan_first_Some in Hi as (l1 & l2 & f & Hl & Hat & Hrec & Hiata & _).
  split_and!; [done..| |by exists f].
  apply elem_of_sorted_pdfs. rewrite Hl. apply elem_of_app. right. left.
Qed.

(** A scan of an existing directory with at least one document returns. *)
Lemma scan_pdfs_returns d w q :
  present_at (w_fs w) d → q ∈ documents (w_fs w) d →
  ∃ pdfs w', scan_pdfs sha256_digest d w = (inr pdfs, w').
Proof.
  intros Hd [[Hfile Hne] Hq]%list_elem_of_filter.
  rewrite scan_pdfs_eq, bool_decide_eq_true_2 by done.
  destruct (scan_loop_spec sha256_digest (Os.sorted_pdfs (w_fs w) d) ∅ w)
    as (m' & w1 & -> & Hfs & Hout & Hk).
  rewrite decide_False; [by eauto|]. intros ->.
  specialize (Hk (safe_iata_from_filename q)).
  rewrite !lookup_empty, decide_False in Hk by done.
  destruct (scan_first_is_Some sha256_digest (w_fs w)
              (safe_iata_from_filename q) (Os.sorted_pdfs (w_fs w) d) q)
    as [i Hi]; [by apply elem_of_sorted_pdfs|done..|].
  congruence.
Qed.

End ScanPdfs.

(** *** Dictionaries *)

Section dict.
Context {V : Type}.
Implicit Types (d : list (string * V)) (k : string) (v : V).

Lemma dict_get_set k v d k' :
  PyDict.get k' (PyDict.set k v d) =
    if decide (k = k') then Some v else PyDict.get k' d.
Proof.
  induction d as [|[k0 v0] d IH]; simpl.
  - repeat case_decide; done.
  - repeat (case_decide; simpl; subst); try done.
Qed.

Lemma dict_get_app k d1 d2 :
  PyDict.get k (d1 ++ d2) =
    match PyDict.get k d1 with
    | Some v => Some v
    | None => PyDict.get k d2
    end.
Proof.
  induction d1 as [|[k0 v0] d1 IH]; simpl; [done|]. by case_decide.
Qed.

Lemma dict_get_setdefault k v d k' :
  PyDict.get k' (PyDict.setdefault k v d) =
    match PyDict.get k' d with
    | Some x => Some x
    | None => if decide (k = k') then Some v else None
    end.
Proof.
  unfold PyDict.setdefault. destruct (PyDict.get k d) eqn:E.
  - destruct (PyDict.get k' d) eqn:E'; [done|].
    case_decide; [congruence|done].
  - rewrite dict_get_app. simpl. done.
Qed.

End dict.

(** *** Manifest entries *)

(** Every field of a normalized template entry. *)
Lemma normalize_airport_dict_get airport iata k :
  PyDict.get k (normalize_airport_dict airport iata) =
    if decide (k = "iata") then Some (JStr iata)
    else match PyDict.get k airport with
         | Some v => Some v
         | None =>
             if decide (k = "icao") then Some (JStr iata)
             else if decide (k = "name") then Some (JStr iata)
             else if decide (k = "city") then Some (JStr "")
             else None
         end.
Proof.
  unfold normalize_airport_dict.
  rewrite !dict_get_setdefault, dict_get_set.
  destruct (PyDict.get k airport); repeat (case_decide; simplify_eq; try done).
Qed.

Lemma merged_entry_Some pdfs a e :
  merged_entry pdfs a = Some e →
  ∃ a' pdf,
    a = JDict a' ∧ template_iata a' ≠ "" ∧
    pdfs !! template_iata a' = Some pdf ∧
    e = JDict (PyDict.set "pdf"
                 (pdf_block (PyPath.as_posix (immutable_rel pdf)) pdf)
                 (normalize_airport_dict a' (template_iata a'))).
Proof.
  destruct a as [| | | | | |a']; try done. simpl.
  case_decide; [done|].
  destruct (pdfs !! template_iata a') as [pdf|] eqn:E; [|done].
  intros [= <-]. by exists a', pdf.
Qed.

(** The fields of a merged entry: those of the normalized template entry,
    except [pdf], which is the publication block. *)
Lemma merged_entry_field a' pdf k :
  field k (JDict (PyDict.set "pdf"
                    (pdf_block (PyPath.as_posix (immutable_rel pdf)) pdf)
                    (normalize_airport_dict a' (template_iata a')))) =
    if decide (k = "pdf")
    then Some (pdf_block (PyPath.as_posix (immutable_rel pdf)) pdf)
    else PyDict.get k (normalize_airport_dict a' (template_iata a')).
Proof. simpl. rewrite dict_get_set. repeat case_decide; congruence. Qed.

Lemma elem_of_items_by_key (pdfs : gmap string PdfInfo.t) kv :
  kv ∈ items_by_key pdfs ↔ pdfs !! kv.1 = Some kv.2.
Proof.
  unfold items_by_key. rewrite merge_sort_Permutation.
  destruct kv as [k i]. apply elem_of_map_to_list.
Qed.

(** *** Runs that may raise, and paths without double dots *)

Lemma bind_any {A B} (m : M A) (k : A → M B) w r w' :
  bind m k w = (r, w') →
  (∃ e, m w = (inl e, w') ∧ r = inl e) ∨
  (∃ a w1, m w = (inr a, w1) ∧ k a w1 = (r, w')).
Proof.
  unfold bind. destruct (m w) as [[e|a] w1].
  - intros [= <- <-]. left. by exists e.
  - intros H. right. by exists a, w1.
Qed.

(** An invariant of the world holds after a loop, however it ended. *)
Lemma for_each_any {A S} (P : World → Prop) (l : list A)
    (body : A → S → M S) s w r w' :
  for_each l body s w = (r, w') →
  P w →
  (∀ x s1 w1 r2 w2, x ∈ l → P w1 → body x s1 w1 = (r2, w2) → P w2) →
  P w'.
Proof.
  revert s w. induction l as [|x l IH]; intros s w Hrun Hinit Hbody;
    simpl in Hrun.
  - unfold ret in Hrun. by injection Hrun as _ <-.
  - apply bind_any in Hrun as [(e & Hx & _)|(s1 & w1 & Hx & Hrun)].
    + apply (Hbody x s w (inl e) w'); [left|done..].
    + eapply IH; [done| |].
      * apply (Hbody x s w (inr s1) w1); [left|done..].
      * intros y sa wa rb wb Hy Hwa Hrun'.
        apply (Hbody y sa wa rb wb); [by right|done..].
Qed.

Lemma mkdir1_any p u w r w' :
  Os.mkdir1 p u w = (r, w') →
  w_fs w ⊆ w_fs w' ∧
  ∀ k, k ≠ PyPath.norm p → w_fs w' !! k = w_fs w !! k.
Proof.
  unfold Os.mkdir1. destruct (Os.at_path (w_fs w) p) as [[|f]|] eqn:E;
    intros [= <- <-]; [done..|]. simpl. split.
  - apply insert_subseteq. by apply at_path_None in E as [_ ?].
  - intros k Hk. by rewrite lookup_insert_ne.
Qed.

Lemma mkdirs_any l w r w' :
  for_each l Os.mkdir1 () w = (r, w') →
  w_fs w ⊆ w_fs w' ∧
  ∀ k, (∀ q, q ∈ l → k ≠ PyPath.norm q) → w_fs w' !! k = w_fs w !! k.
Proof.
  intros H. split.
  - apply (for_each_any (λ w1, w_fs w ⊆ w_fs w1)) in H; [done|done|].
    intros x s1 w1 r2 w2 _ Hsub [Hsub' _]%mkdir1_any. by etrans.
  - intros k Hk.
    apply (for_each_any (λ w1, w_fs w1 !! k = w_fs w !! k)) in H; [done|done|].
    intros x s1 w1 r2 w2 Hx Heq [_ Hframe]%mkdir1_any.
    rewrite Hframe; [done|]. by apply Hk.
Qed.

Lemma norm_plain_go (acc p : Path) :
  ".." ∉ p →
  foldl (λ (acc : Path) c,
           if decide (c = "..") then removelast acc else acc ++ [c]) acc p
    = acc ++ p.
Proof.
  revert acc. induction p as [|c p IH]; intros acc Hp; simpl.
  { by rewrite app_nil_r. }
  apply not_elem_of_cons in Hp as [Hc Hp].
  rewrite decide_False by done. rewrite IH by done. by rewrite <-app_assoc.
Qed.

(** A path without double dots is its own resolution. *)
Lemma norm_plain p : ".." ∉ p → PyPath.norm p = p.
Proof. intros Hp. unfold PyPath.norm. by rewrite norm_plain_go. Qed.

Lemma ancestors_prefix p q :
  q ∈ Os.ancestors_and_self p → q ≠ [] ∧ q `prefix_of` p.
Proof.
  revert q. induction p as [|c p IH]; intros q Hq; simpl in Hq.
  { by apply elem_of_nil in Hq. }
  apply elem_of_cons in Hq as [->|Hq].
  - split; [done|]. by exists p.
  - apply list_elem_of_fmap in Hq as (q' & -> & [_ [rest ->]]%IH).
    split; [done|]. by exists rest.
Qed.

Lemma removelast_prefix (p : Path) : removelast p `prefix_of` p.
Proof.
  destruct (decide (p = [])) as [->|Hne]; [done|].
  destruct (exists_last Hne) as (p' & c & ->).
  rewrite removelast_last. by exists [c].
Qed.

Lemma removelast_shorter (p : Path) : p ≠ [] → length (removelast p) < length p.
Proof.
  intros Hne. destruct (exists_last Hne) as (p' & c & ->).
  rewrite removelast_last, length_app. simpl. lia.
Qed.

(** *** Names stored in a well-formed file system *)

Lemma names_ok_name fs p :
  names_ok fs → p ∈ (map_to_list fs).*1 →
  PyStr.contains "/" (PyPath.name p) = false.
Proof.
  unfold names_ok. intros Hok Hp.
  apply Is_true_true in Hok. rewrite forallb_forall in Hok.
  apply list_elem_of_In, Hok in Hp. rewrite forallb_forall in Hp.
  unfold PyPath.name. destruct (decide (p = [])) as [->|Hne]; [done|].
  specialize (Hp (List.last p "")).
  apply negb_true_iff, Hp.
  destruct (exists_last Hne) as (p' & c & ->).
  rewrite last_last. apply in_or_app. right. by left.
Qed.

Lemma rglob_pdf_stored fs d p :
  p ∈ Os.rglob_pdf fs d → p ∈ (map_to_list fs).*1.
Proof. unfold Os.rglob_pdf. by intros [_ ?]%list_elem_of_filter. Qed.

Lemma safe_iata_no_separator p :
  PyStr.contains "/" (PyPath.name p) = false →
  PyStr.contains "/" (safe_iata_from_filename p) = false.
Proof.
  intros H. unfold safe_iata_from_filename, PyStr.strip.
  by apply contains_upper, contains_rstrip, contains_lstrip, contains_stem.
Qed.

Section Published.
Context (sha256_digest : string → string) (json_loads : string → option json).

(** A scanned record has an identifier and a digest that are each one
    path component. *)
Lemma scanned_record_components d w pdfs w1 k i :
  names_ok (w_fs w) →
  scan_pdfs sha256_digest d w = (inr pdfs, w1) →
  pdfs !! k = Some i →
  PdfInfo.iata i = k ∧ k ≠ "" ∧
  PyStr.contains "/" (PdfInfo.iata i) = false ∧
  PyStr.contains "/" (PdfInfo.sha256 i) = false.
Proof.
  intros Hok Hscan Hi.
  destruct (scan_pdfs_record _ _ _ _ _ _ _ Hscan Hi)
    as (Hne & Hiata & Hin & f & Hat & Hrec).
  split_and!; [done..| |].
  - rewrite Hrec. simpl.
    apply safe_iata_no_separator, (names_ok_name (w_fs w)); [done|].
    by eapply rglob_pdf_stored.
  - rewrite Hrec. simpl. apply contains_hex.
Qed.

(** Where an ordinary record is published, and under which URL. *)
Lemma ordinary_record_destination root i :
  PyStr.contains "/" (PdfInfo.iata i) = false →
  PyStr.contains "/" (PdfInfo.sha256 i) = false →
  PdfInfo.iata i ≠ "" → PdfInfo.iata i ≠ "." →
  PyPath.as_posix (immutable_rel i) =
    "pdfs/" +:+ PdfInfo.iata i +:+ "/" +:+ PdfInfo.sha256 i +:+ ".pdf" ∧
  immutable_dst root i =
    root ++ ["pdfs"; PdfInfo.iata i; PdfInfo.sha256 i +:+ ".pdf"].
Proof.
  intros. unfold immutable_dst. rewrite immutable_rel_parts by done. done.
Qed.

End Published.

(** *** What a copy can touch *)

Lemma ancestors_snoc (p : Path) c :
  Os.ancestors_and_self (p ++ [c]) = Os.ancestors_and_self p ++ [p ++ [c]].
Proof.
  induction p as [|a p IH]; [done|]. simpl. rewrite IH, map_app. done.
Qed.

(** Resolution below a directory that has no double dots. *)
Lemma norm_app_plain (root x : Path) :
  ".." ∉ root →
  PyPath.norm (root ++ x) =
    foldl (λ (acc : Path) c,
             if decide (c = "..") then removelast acc else acc ++ [c]) root x.
Proof.
  intros Hroot. unfold PyPath.norm. rewrite foldl_app.
  by rewrite (norm_plain_go [] root).
Qed.

Lemma ancestors_plain (root q : Path) :
  ".." ∉ root → q ∈ Os.ancestors_and_self root →
  PyPath.norm q = q ∧ (length q ≤ length root)%nat.
Proof.
  intros Hroot [_ [rest ->]]%ancestors_prefix. split.
  - apply norm_plain. intros Hq. apply Hroot, elem_of_app. by left.
  - rewrite length_app. lia.
Qed.

(** The name of a published copy is no directory of the layout. *)
Lemma pdf_name_not_pdfs s : s +:+ ".pdf" ≠ "pdfs".
Proof.
  intros E. pose proof (endswith_app s ".pdf") as H. by rewrite E in H.
Qed.

Lemma pdf_name_not_dots s : s +:+ ".pdf" ≠ "..".
Proof.
  intros E. pose proof (endswith_app s ".pdf") as H. by rewrite E in H.
Qed.

Lemma pdf_name_inj s t : s +:+ ".pdf" = t +:+ ".pdf" → s = t.
Proof. apply string_app_inv_tail. Qed.

(** Where a record with a one-component identifier and digest goes: a
    single dot as identifier disappears from the path. *)
Lemma immutable_dst_shape root pdf :
  PyStr.contains "/" (PdfInfo.iata pdf) = false →
  PdfInfo.iata pdf ≠ "" →
  PyStr.contains "/" (PdfInfo.sha256 pdf) = false →
  immutable_dst root pdf =
    root ++ "pdfs" :: (if decide (PdfInfo.iata pdf = ".") then []
                       else [PdfInfo.iata pdf])
         ++ [PdfInfo.sha256 pdf +:+ ".pdf"].
Proof.
  intros Hi Hne Hs. case_decide as Hdot.
  - unfold immutable_dst, immutable_rel, PyPath.div. rewrite Hdot.
    rewrite (of_str_component (_ +:+ ".pdf")).
    + done.
    + by rewrite contains_app, Hs.
    + by apply app_not_empty.
    + intros H. pose proof (endswith_app (PdfInfo.sha256 pdf) ".pdf") as E.
      rewrite H in E. done.
  - unfold immutable_dst. by rewrite immutable_rel_parts.
Qed.

(** The key under which a record whose identifier is not the single dot
    is published, below a root without double dots. *)
Lemma target_key (root : Path) k s :
  ".." ∉ root →
  PyPath.norm (root ++ ["pdfs"; k; s +:+ ".pdf"]) =
    root ++ (if decide (k = "..") then [s +:+ ".pdf"]
             else ["pdfs"; k; s +:+ ".pdf"]).
Proof.
  intros Hroot. rewrite norm_app_plain by done. simpl.
  rewrite (decide_False (P := s +:+ ".pdf" = "..")) by apply pdf_name_not_dots.
  case_decide.
  - by rewrite removelast_last.
  - by rewrite <-!app_assoc.
Qed.

(** Making the directories for any record never creates the place of
    another record's copy. *)
Lemma ancestors_miss_target (root : Path) k s pdf q :
  ".." ∉ root → k ≠ "." →
  PyStr.contains "/" (PdfInfo.iata pdf) = false →
  PdfInfo.iata pdf ≠ "" →
  PyStr.contains "/" (PdfInfo.sha256 pdf) = false →
  q ∈ Os.ancestors_and_self (PyPath.parent (immutable_dst root pdf)) →
  PyPath.norm q ≠ PyPath.norm (root ++ ["pdfs"; k; s +:+ ".pdf"]).
Proof.
  intros Hroot Hk Hi Hne Hs Hq. rewrite target_key by done.
  rewrite immutable_dst_shape in Hq by done.
  unfold PyPath.parent in Hq.
  rewrite !app_comm_cons, app_assoc, removelast_last in Hq.
  assert (∀ q', q' ∈ Os.ancestors_and_self (root ++ ["pdfs"]) →
            PyPath.norm q' ≠
            root ++ (if decide (k = "..") then [s +:+ ".pdf"]
                     else ["pdfs"; k; s +:+ ".pdf"])) as Hbase.
  { intros q'. rewrite ancestors_snoc.
    intros [Hq'|Hq']%elem_of_app; [|apply list_elem_of_singleton in Hq' as ->].
    - apply ancestors_plain in Hq' as [-> Hlen]; [|done].
      intros E%(f_equal length). rewrite length_app in E.
      case_decide; simpl in E; lia.
    - rewrite norm_app_plain by done. simpl.
      intros E%app_inv_head. case_decide; [|done].
      injection E as E. symmetry in E. by apply pdf_name_not_pdfs in E. }
  destruct (decide (PdfInfo.iata pdf = ".")) as [Hdot|Hdot].
  - simpl in Hq. by apply Hbase.
  - simpl in Hq.
    change (root ++ ["pdfs"; PdfInfo.iata pdf])
      with (root ++ ["pdfs"] ++ [PdfInfo.iata pdf]) in Hq.
    rewrite app_assoc, ancestors_snoc in Hq.
    apply elem_of_app in Hq as [Hq|Hq]; [by apply Hbase|].
    apply list_elem_of_singleton in Hq as ->.
    rewrite <-app_assoc, norm_app_plain by done. simpl.
    destruct (decide (PdfInfo.iata pdf = "..")).
    + rewrite removelast_last.
      intros E%(f_equal length). rewrite length_app in E.
      case_decide; simpl in E; lia.
    + rewrite <-app_assoc. intros E%app_inv_head. by case_decide.
Qed.

(** Two records are published at the same place only if they have the
    same identifier and the same digest. *)
Lemma same_target (root : Path) k s pdf :
  ".." ∉ root → k ≠ "." →
  PyStr.contains "/" (PdfInfo.iata pdf) = false →
  PdfInfo.iata pdf ≠ "" →
  PyStr.contains "/" (PdfInfo.sha256 pdf) = false →
  PyPath.norm (immutable_dst root pdf) =
    PyPath.norm (root ++ ["pdfs"; k; s +:+ ".pdf"]) →
  PdfInfo.iata pdf = k ∧ PdfInfo.sha256 pdf = s.
Proof.
  intros Hroot Hk Hi Hne Hs. rewrite target_key by done.
  rewrite immutable_dst_shape by done.
  destruct (decide (PdfInfo.iata pdf = ".")) as [Hdot|Hdot].
  - simpl. rewrite norm_app_plain by done. simpl.
    rewrite (decide_False (P := _ +:+ ".pdf" = ".."))
      by apply pdf_name_not_dots.
    rewrite <-!app_assoc. intros E%app_inv_head. by case_decide.
  - simpl. rewrite target_key by done.
    intros E%app_inv_head.
    destruct (decide (PdfInfo.iata pdf = "..")) as [Hdd|Hdd];
      destruct (decide (k = "..")) as [Hkd|Hkd]; try done.
    + injection E as E. apply pdf_name_inj in E. by rewrite Hdd, Hkd.
    + injection E as E1 E2. apply pdf_name_inj in E2. done.
Qed.

(** *** What a build leaves at the place of a copy *)

Section Target.
Context (json_loads : string → option json).
Context (root : Path) (k s : string) (f : FileData)
        (pdfs : gmap string PdfInfo.t) (w0 : World).
Hypothesis Hroot : ".." ∉ root.
Hypothesis Hk : k ≠ ".".
(** Every record has an identifier and a digest that are one path
    component each, and the record with identifier [k] and digest [s] is
    that of the file [f]. *)
Hypothesis Hrec :
  ∀ k' pdf, pdfs !! k' = Some pdf →
    PyStr.contains "/" (PdfInfo.iata pdf) = false ∧
    PdfInfo.iata pdf ≠ "" ∧
    PyStr.contains "/" (PdfInfo.sha256 pdf) = false ∧
    (PdfInfo.iata pdf = k → PdfInfo.sha256 pdf = s →
     Os.at_path (w_fs w0) (PdfInfo.src_path pdf) = Some (NFile f)).

Local Abbreviation target_free_or_copied :=
  (target_free_or_copied root k s f w0).

Lemma copy_keeps_target k' pdf w url w' :
  pdfs !! k' = Some pdf →
  copy_pdf_to_immutable_path root pdf w = (inr url, w') →
  target_free_or_copied w → target_free_or_copied w'.
Proof.
  intros (Hi & Hne & Hs & Hsame)%Hrec Hcopy [Hsub Hfree].
  pose proof Hcopy as (_ & Hsub' & _)%copy_pdf_spec.
  split; [by etrans|].
  set (t := PyPath.norm (root ++ ["pdfs"; k; s +:+ ".pdf"])) in *.
  unfold copy_pdf_to_immutable_path in Hcopy.
  apply bind_inr in Hcopy as (u & w1 & Hmk & Hcopy).
  pose proof Hmk as [Hsub1 _]%mkdir_parents_grows.
  apply mkdirs_any in Hmk as [_ Hframe].
  assert (w_fs w1 !! t = w_fs w !! t) as Ht1.
  { apply Hframe. intros q Hq E. symmetry in E.
    by apply (ancestors_miss_target root k s pdf q) in E. }
  apply bind_inr in Hcopy as (present & w2 & Hex & Hcopy).
  unfold Os.exists_ in Hex. injection Hex as <- <-.
  case_bool_decide as Hpres.
  { apply ret_inr in Hcopy as [_ <-]. by rewrite Ht1. }
  apply bind_inr in Hcopy as (u2 & w3 & Hc & Hcopy).
  apply ret_inr in Hcopy as [_ <-].
  unfold Os.copy2 in Hc.
  apply bind_inr in Hc as (g & w4 & Hread & Hc).
  unfold Os.read_file in Hread.
  destruct (Os.at_path (w_fs w1) (PdfInfo.src_path pdf)) as [[|g']|] eqn:Hsrc;
    try done. injection Hread as <- <-.
  fold (immutable_dst root pdf) in Hc.
  destruct (Os.at_path (w_fs w1) (PyPath.parent _)) as [[|?]|]; try done.
  injection Hc as Hw3. subst w3. simpl.
  destruct (decide (PyPath.norm (immutable_dst root pdf) = t)) as [E|E].
  - right. rewrite E, lookup_insert_eq.
    apply same_target in E as [Hik His]; [|done..].
    specialize (Hsame Hik His).
    apply (at_path_weaken _ (w_fs w1)) in Hsame; [|by etrans].
    rewrite Hsrc in Hsame. by injection Hsame as ->.
  - rewrite lookup_insert_ne by done. by rewrite Ht1.
Qed.

Lemma template_loop_target l acc w out w' :
  for_each l (template_step pdfs root) acc w = (inr out, w') →
  target_free_or_copied w → target_free_or_copied w'.
Proof.
  intros Hrun Hinit.
  apply (for_each_ind (λ _ w1, target_free_or_copied w1) _ _ _ _ _ _ Hrun);
    [done|].
  intros x s1 w1 s2 w2 _ Hw1 Hx. unfold template_step in Hx.
  destruct x as [| | | | | |a]; try (by apply ret_inr in Hx as [_ <-]).
  case_decide; [by apply ret_inr in Hx as [_ <-]|].
  destruct (pdfs !! template_iata a) as [pdf|] eqn:Hpdf.
  - apply bind_inr in Hx as (url & w3 & Hc & Hx).
    apply ret_inr in Hx as [_ <-]. by eapply copy_keeps_target.
  - unfold bind, Os.print, ret in Hx. injection Hx as _ <-. done.
Qed.

Lemma minimal_loop_target acc w out w' :
  for_each (items_by_key pdfs) (minimal_step root) acc w = (inr out, w') →
  target_free_or_copied w → target_free_or_copied w'.
Proof.
  intros Hrun Hinit.
  apply (for_each_ind (λ _ w1, target_free_or_copied w1) _ _ _ _ _ _ Hrun);
    [done|].
  intros [k' pdf] s1 w1 s2 w2 Hin%elem_of_items_by_key Hw1 Hx.
  simpl in Hx, Hin.
  apply bind_inr in Hx as (url & w3 & Hc & Hx).
  apply ret_inr in Hx as [_ <-]. by eapply copy_keeps_target.
Qed.

(** A build that starts with nothing at the place of the copy ends with
    nothing there or with the copy of [f]. *)
Lemma build_keeps_target base tpl m w2 :
  build_manifest json_loads pdfs root base tpl w0 = (inr m, w2) →
  w_fs w0 !! PyPath.norm (root ++ ["pdfs"; k; s +:+ ".pdf"]) = None →
  w_fs w2 !! PyPath.norm (root ++ ["pdfs"; k; s +:+ ".pdf"]) = None ∨
  w_fs w2 !! PyPath.norm (root ++ ["pdfs"; k; s +:+ ".pdf"]) = Some (NFile f).
Proof.
  unfold build_manifest. intros H Hfree.
  apply bind_inr in H as (now & w1 & Hnow & H).
  unfold Os.now in Hnow. injection Hnow as <- <-.
  apply bind_inr in H as (entries & w3 & Hloop & H).
  apply ret_inr in H as [_ <-].
  assert (target_free_or_copied
            (mk_world (w_fs w0) (w_out w0) (S (w_tick w0)) (w_clock w0)))
    as Hinit by (split; [done|by left]).
  destruct tpl as [path|].
  - apply bind_inr in Hloop as (template & w4 & Hload & Hloop).
    apply load_json_inr in Hload as (-> & _).
    destruct template as [| | | | | |t]; try done.
    destruct (PyDict.get "airports" t) as [[| | | | |l|]|]; try done.
    by apply template_loop_target in Hloop as [_ ?].
  - by apply minimal_loop_target in Hloop as [_ ?].
Qed.

End Target.

(** ** C1: content-addressed publication *)

(** The publisher on the record of an empty [JFK.pdf]: the URL and the
    copy are under [pdfs/], and nothing is created under [documents/].
    For the file named [. .pdf] the identifier is a single dot, which the
    path arithmetic drops: its copy lands directly in [pdfs/].  When
    something is already at the place of the copy, here a directory,
    line 137 returns the URL and leaves it there: no file is placed. *)
Lemma published_path_counterexample :
  let run := copy_pdf_to_immutable_path ["site"] jfk_record jfk_world in
  let dot := copy_pdf_to_immutable_path ["site"] dot_record jfk_world in
  let occ := copy_pdf_to_immutable_path ["site"] jfk_record occupied_world in
  run.1 = inr ("pdfs/JFK/" +:+ sha256_of_empty +:+ ".pdf") ∧
  run.1 ≠ inr ("documents/JFK/" +:+ sha256_of_empty +:+ ".pdf") ∧
  file_at (w_fs run.2) ["site"; "pdfs"; "JFK"; sha256_of_empty +:+ ".pdf"] = true ∧
  Os.at_path (w_fs run.2)
    ["site"; "documents"; "JFK"; sha256_of_empty +:+ ".pdf"] = None ∧
  PdfInfo.iata dot_record = "." ∧
  dot.1 = inr ("pdfs/" +:+ sha256_of_empty +:+ ".pdf") ∧
  file_at (w_fs dot.2) ["site"; "pdfs"; sha256_of_empty +:+ ".pdf"] = true ∧
  occ.1 = inr ("pdfs/JFK/" +:+ sha256_of_empty +:+ ".pdf") ∧
  Os.at_path (w_fs occ.2)
    ["site"; "pdfs"; "JFK"; sha256_of_empty +:+ ".pdf"] = Some NDir.
Proof. vm_compute. split_and!; done. Qed.

Section C1.
Context (sha256_digest : string → string) (json_loads : string → option json).

(** C1 (amended): in a file system whose names hold no separator and for
    a site root without double dots, after a scan and a build that
    return, every manifest entry is that of a scanned record, stored
    under its identifier, whose digest is that of the bytes of its source
    file; unless the identifier is the single dot, the entry's URL is
    [pdfs/<identifier>/<hash>.pdf], and at
    [<site-root>/pdfs/<identifier>/<hash>.pdf] the file system holds a
    regular file with the bytes and the modification time of the source
    file when nothing was at that path before the build, and otherwise
    what was there before (line 137 leaves it as it is). Without a
    template every scanned record has such a manifest entry. *)
Theorem published_under_pdfs d root base tpl w pdfs w1 m w2 :
  names_ok (w_fs w) →
  ".." ∉ root →
  scan_pdfs sha256_digest d w = (inr pdfs, w1) →
  build_manifest json_loads pdfs root base tpl w1 = (inr m, w2) →
  (∀ e, e ∈ airports_of m →
     ∃ i f, pdfs !! PdfInfo.iata i = Some i ∧
          field "iata" e = Some (JStr (PdfInfo.iata i)) ∧
          Os.at_path (w_fs w) (PdfInfo.src_path i) = Some (NFile f) ∧
          PdfInfo.sha256 i = PyStr.hex (sha256_digest (f_bytes f)) ∧
          (PdfInfo.iata i ≠ "." →
           entry_url e =
             Some (JStr ("pdfs/" +:+ PdfInfo.iata i +:+ "/" +:+
                         PdfInfo.sha256 i +:+ ".pdf")) ∧
           match Os.at_path (w_fs w)
                   (root ++ ["pdfs"; PdfInfo.iata i;
                             PdfInfo.sha256 i +:+ ".pdf"]) with
           | None =>
               Os.at_path (w_fs w2)
                 (root ++ ["pdfs"; PdfInfo.iata i;
                           PdfInfo.sha256 i +:+ ".pdf"]) = Some (NFile f)
           | Some n =>
               Os.at_path (w_fs w2)
                 (root ++ ["pdfs"; PdfInfo.iata i;
                           PdfInfo.sha256 i +:+ ".pdf"]) = Some n
           end)) ∧
  (tpl = None →
   ∀ k i, pdfs !! k = Some i →
          ∃ e, e ∈ airports_of m ∧ field "iata" e = Some (JStr k)).
Proof.
  intros Hok Hroot Hscan Hbuild.
  pose proof (scan_pdfs_inr _ _ _ _ _ Hscan) as (_ & Hfs & _).
  (* what is at the place of the copy of a record the build has published *)
  assert (∀ k i, pdfs !! k = Some i → k ≠ "." →
            present_at (w_fs w2) (immutable_dst root i) →
            ∃ f, PdfInfo.iata i = k ∧
                 Os.at_path (w_fs w) (PdfInfo.src_path i) = Some (NFile f) ∧
                 PdfInfo.sha256 i = PyStr.hex (sha256_digest (f_bytes f)) ∧
                 PyPath.as_posix (immutable_rel i) =
                   "pdfs/" +:+ k +:+ "/" +:+ PdfInfo.sha256 i +:+ ".pdf" ∧
                 match Os.at_path (w_fs w)
                         (root ++ ["pdfs"; k; PdfInfo.sha256 i +:+ ".pdf"]) with
                 | None =>
                     Os.at_path (w_fs w2)
                       (root ++ ["pdfs"; k; PdfInfo.sha256 i +:+ ".pdf"])
                       = Some (NFile f)
                 | Some n =>
                     Os.at_path (w_fs w2)
                       (root ++ ["pdfs"; k; PdfInfo.sha256 i +:+ ".pdf"])
                       = Some n
                 end) as Hplace.
  { intros k i Hi Hdot Hpres.
    destruct (scanned_record_components _ _ _ _ _ _ _ Hok Hscan Hi)
      as (Hiata & Hne & Hsep & Hsha).
    destruct (scan_pdfs_record _ _ _ _ _ _ _ Hscan Hi)
      as (_ & _ & _ & f & Hat & Hrec).
    destruct (ordinary_record_destination root i) as [Hurl Hdst];
      [done|done|congruence|congruence|].
    rewrite Hiata in Hurl, Hdst. rewrite Hdst in Hpres.
    exists f. split_and!; [done|done|by rewrite Hrec|done|].
    destruct (Os.at_path (w_fs w)
                (root ++ ["pdfs"; k; PdfInfo.sha256 i +:+ ".pdf"]))
      as [n|] eqn:Hbefore.
    { apply build_manifest_spec in Hbuild as (? & _ & Hsub & _).
      eapply at_path_weaken; [done|]. by rewrite Hfs. }
    apply at_path_None in Hbefore as [Hnn Hnone].
    destruct Hpres as [n Hn].
    assert (Os.at_path (w_fs w2)
              (root ++ ["pdfs"; k; PdfInfo.sha256 i +:+ ".pdf"]) =
            w_fs w2 !! PyPath.norm
              (root ++ ["pdfs"; k; PdfInfo.sha256 i +:+ ".pdf"])) as Hlook.
    { unfold Os.at_path. by destruct (PyPath.norm _). }
    rewrite Hlook in Hn |- *.
    destruct (build_keeps_target json_loads root k (PdfInfo.sha256 i) f
                pdfs w1 Hroot Hdot) with (base := base) (tpl := tpl)
                (m := m) (w2 := w2) as [Hfree|Hcopied];
      [|done|by rewrite Hfs|congruence|done].
    intros k' pdf Hpdf.
    destruct (scanned_record_components _ _ _ _ _ _ _ Hok Hscan Hpdf)
      as (Hiata' & Hne' & Hsep' & Hsha').
    split_and!; [done|congruence|done|].
    intros Hk' _. rewrite Hfs.
    assert (pdf = i) as -> by congruence. done. }
  apply build_manifest_spec in Hbuild as (entries & -> & Hsub & Htpl).
  rewrite airports_of_manifest. destruct tpl as [path|].
  - destruct Htpl as (l & Hl & -> & Hpub). split; [|done].
    intros e (a & Ha & Hm)%list_elem_of_omap.
    apply merged_entry_Some in Hm as (a' & pdf & -> & Hne & Hpdf & ->).
    destruct (scanned_record_components _ _ _ _ _ _ _ Hok Hscan Hpdf)
      as (Hiata & _ & Hsep & Hsha).
    destruct (scan_pdfs_record _ _ _ _ _ _ _ Hscan Hpdf)
      as (_ & _ & _ & f & Hat & Hrec).
    exists pdf, f. rewrite Hiata.
    split_and!; [done| |done|by rewrite Hrec|].
    + rewrite merged_entry_field, normalize_airport_dict_get. done.
    + intros Hdot.
      destruct (Hplace _ _ Hpdf Hdot) as (f' & _ & Hat' & _ & Hurl & Hfile);
        [by eapply Hpub|].
      rewrite Hat in Hat'. injection Hat' as <-. split; [|done].
      unfold entry_url. rewrite merged_entry_field. simpl. by rewrite Hurl.
  - destruct Htpl as (-> & Hpub). split.
    + intros e ([k i] & -> & Hkv)%list_elem_of_fmap.
      pose proof Hkv as Hi%elem_of_items_by_key. simpl in Hi.
      destruct (scanned_record_components _ _ _ _ _ _ _ Hok Hscan Hi)
        as (Hiata & Hne & Hsep & Hsha).
      destruct (scan_pdfs_record _ _ _ _ _ _ _ Hscan Hi)
        as (_ & _ & _ & f & Hat & Hrec).
      exists i, f. rewrite Hiata.
      split_and!; [done|done|done|by rewrite Hrec|].
      intros Hdot.
      destruct (Hplace _ _ Hi Hdot) as (f' & _ & Hat' & _ & Hurl & Hfile);
        [by apply (Hpub (k, i))|].
      rewrite Hat in Hat'. injection Hat' as <-. split; [|done].
      unfold entry_url. simpl. by rewrite Hurl.
    + intros _ k i Hi. exists (minimal_entry (k, i)). split; [|done].
      apply list_elem_of_fmap. exists (k, i). split; [done|].
      by apply elem_of_items_by_key.
Qed.

End C1.

(** The sample run without a template: both scanned records are published
    under [pdfs/], where nothing was before. *)
Lemma published_under_pdfs_witness :
  names_ok (w_fs sample_world) ∧
  (".." ∉ ["site"]) ∧
  scan_pdfs sample_digest ["src"] sample_world
    = (inr sample_pdfs, sample_scanned) ∧
  build_manifest sample_loads sample_pdfs ["site"] None None sample_scanned
    = (inr (sample_manifest None None), sample_built None None) ∧
  (∀ e, e ∈ airports_of (sample_manifest None None) →
     ∃ i f, sample_pdfs !! PdfInfo.iata i = Some i ∧
          field "iata" e = Some (JStr (PdfInfo.iata i)) ∧
          Os.at_path (w_fs sample_world) (PdfInfo.src_path i)
            = Some (NFile f) ∧
          PdfInfo.sha256 i = PyStr.hex (sample_digest (f_bytes f)) ∧
          (PdfInfo.iata i ≠ "." →
           entry_url e =
             Some (JStr ("pdfs/" +:+ PdfInfo.iata i +:+ "/" +:+
                         PdfInfo.sha256 i +:+ ".pdf")) ∧
           match Os.at_path (w_fs sample_world)
                   (["site"] ++ ["pdfs"; PdfInfo.iata i;
                                 PdfInfo.sha256 i +:+ ".pdf"]) with
           | None =>
               Os.at_path (w_fs (sample_built None None))
                 (["site"] ++ ["pdfs"; PdfInfo.iata i;
                               PdfInfo.sha256 i +:+ ".pdf"]) = Some (NFile f)
           | Some n =>
               Os.at_path (w_fs (sample_built None None))
                 (["site"] ++ ["pdfs"; PdfInfo.iata i;
                               PdfInfo.sha256 i +:+ ".pdf"]) = Some n
           end)) ∧
  (@None Path = None →
   ∀ k i, sample_pdfs !! k = Some i →
          ∃ e, e ∈ airports_of (sample_manifest None None) ∧
               field "iata" e = Some (JStr k)).
Proof.
  assert (Is_true (names_ok (w_fs sample_world))) as Hok
    by (vm_compute; exact I).
  assert (".." ∉ ["site"]) as Hroot
    by (apply (bool_decide_unpack _); vm_compute; exact I).
  assert (build_manifest sample_loads sample_pdfs ["site"] None None
            sample_scanned
          = (inr (sample_manifest None None), sample_built None None))
    as Hbuild.
  { apply sample_build_run. vm_compute. reflexivity. }
  split; [exact Hok|]. split; [exact Hroot|].
  split; [exact sample_scan_run|]. split; [exact Hbuild|].
  exact (published_under_pdfs sample_digest sample_loads ["src"] ["site"]
           None None sample_world sample_pdfs sample_scanned _ _
           Hok Hroot sample_scan_run Hbuild).
Defined.

(** ** C2: a failed scan writes nothing *)

Section C2.
Context (sha256_digest : string → string) (json_loads : string → option json)
        (json_dumps : json → string).

Lemma scan_first_no_file fs k l :
  (∀ p, p ∈ l → file_at fs p = false) →
  scan_first sha256_digest fs k l = None.
Proof.
  induction l as [|p l IH]; intros Hl; simpl; [done|].
  assert (file_at fs p = false) as Hp by (apply Hl; left).
  unfold file_at in Hp.
  destruct (Os.at_path fs p) as [[|f]|]; try done;
    apply IH; intros q Hq; apply Hl; by right.
Qed.

Lemma scan_pdfs_missing d w :
  ¬ present_at (w_fs w) d →
  ∃ msg, scan_pdfs sha256_digest d w = (inl (FileNotFoundError msg), w).
Proof.
  intros Hd. rewrite scan_pdfs_eq, bool_decide_eq_false_2 by done. by eexists.
Qed.

Lemma scan_pdfs_no_file d w :
  present_at (w_fs w) d →
  (∀ p, p ∈ Os.rglob_pdf (w_fs w) d → file_at (w_fs w) p = false) →
  ∃ msg w', scan_pdfs sha256_digest d w = (inl (RuntimeError msg), w') ∧
            w_fs w' = w_fs w.
Proof.
  intros Hd Hnone. rewrite scan_pdfs_eq, bool_decide_eq_true_2 by done.
  destruct (scan_loop_spec sha256_digest (Os.sorted_pdfs (w_fs w) d) ∅ w)
    as (m' & w1 & -> & Hfs & _ & Hk).
  rewrite decide_True; [by eauto|].
  apply map_eq. intros k. rewrite Hk, lookup_empty.
  case_decide; [done|]. apply scan_first_no_file.
  intros p Hp%elem_of_sorted_pdfs. by apply Hnone.
Qed.

(** C2: when the source directory does not exist the run ends in a
    [FileNotFoundError]; when it exists but holds no regular file matching
    [*.pdf] the run ends in a [RuntimeError]; either way the file system
    is the one the run started with. *)
Theorem scan_failure_writes_nothing args w :
  ¬ present_at (w_fs w) (args_source_pdfs args) ∨
  (∀ p, p ∈ Os.rglob_pdf (w_fs w) (args_source_pdfs args) →
        file_at (w_fs w) p = false) →
  ∃ e w',
    main sha256_digest json_loads json_dumps args w = (inl e, w') ∧
    w_fs w' = w_fs w ∧
    (¬ present_at (w_fs w) (args_source_pdfs args) → is_FileNotFoundError e) ∧
    (present_at (w_fs w) (args_source_pdfs args) → is_RuntimeError e).
Proof.
  intros H.
  destruct (decide (present_at (w_fs w) (args_source_pdfs args))) as [Hd|Hd].
  - destruct H as [?|Hnone]; [done|].
    destruct (scan_pdfs_no_file _ _ Hd Hnone) as (msg & w' & Hscan & Hfs).
    exists (RuntimeError msg), w'. split_and!; [|done..].
    unfold main. apply bind_inl. by left.
  - destruct (scan_pdfs_missing _ _ Hd) as (msg & Hscan).
    exists (FileNotFoundError msg), w. split_and!; [|done..].
    unfold main. apply bind_inl. by left.
Qed.

End C2.

(** Two sample runs: a source directory that does not exist, and one that
    holds a text file only. *)
Lemma scan_failure_writes_nothing_witness :
  (∃ e w',
     main sample_digest sample_loads sample_dumps
          (mk_args ["nowhere"] ["site"] None None None) sample_world
       = (inl e, w') ∧
     w_fs w' = w_fs sample_world ∧
     (¬ present_at (w_fs sample_world) ["nowhere"] → is_FileNotFoundError e) ∧
     (present_at (w_fs sample_world) ["nowhere"] → is_RuntimeError e)) ∧
  (∃ e w',
     main sample_digest sample_loads sample_dumps
          (mk_args ["empty"] ["site"] None None None) sample_world
       = (inl e, w') ∧
     w_fs w' = w_fs sample_world ∧
     (¬ present_at (w_fs sample_world) ["empty"] → is_FileNotFoundError e) ∧
     (present_at (w_fs sample_world) ["empty"] → is_RuntimeError e)).
Proof.
  split.
  - apply (scan_failure_writes_nothing sample_digest sample_loads sample_dumps
             (mk_args ["nowhere"] ["site"] None None None) sample_world).
    left. intros [n Hn]. vm_compute in Hn. done.
  - apply (scan_failure_writes_nothing sample_digest sample_loads sample_dumps
             (mk_args ["empty"] ["site"] None None None) sample_world).
    right. intros p Hp. vm_compute in Hp. by apply elem_of_nil in Hp.
Defined.

(** ** C3: duplicate identifiers *)

(** Two sample files share the identifier JFK and the scan keeps one
    record for it, yet the manifest built from a template that lists LAX
    only has no entry for JFK. *)
Lemma duplicate_not_listed_counterexample :
  let tpl := Some ["tpl"; "lax_only.json"] in
  ["src"; "a"; "JFK.pdf"] ∈ documents sample_fs ["src"] ∧
  ["src"; "jfk.pdf"] ∈ documents sample_fs ["src"] ∧
  safe_iata_from_filename ["src"; "a"; "JFK.pdf"] = "JFK" ∧
  safe_iata_from_filename ["src"; "jfk.pdf"] = "JFK" ∧
  is_Some (sample_pdfs !! "JFK") ∧
  (build_manifest sample_loads sample_pdfs ["site"] None tpl sample_scanned).1
    = inr (sample_manifest None tpl) ∧
  filter (has_iata "JFK") (airports_of (sample_manifest None tpl)) = [] ∧
  length (airports_of (sample_manifest None tpl)) = 1.
Proof.
  vm_compute. split_and!; try done.
  - apply list_elem_of_In. simpl. auto.
  - apply list_elem_of_In. simpl. auto.
  - by eexists.
Qed.

Section C3.
Context (sha256_digest : string → string) (json_loads : string → option json).

Lemma scan_step_fs p m w m1 w1 :
  scan_step sha256_digest p m w = (inr m1, w1) → w_fs w1 = w_fs w.
Proof.
  rewrite scan_step_eq.
  destruct (Os.at_path (w_fs w) p) as [[|f]|]; simpl;
    repeat case_decide; try destruct (m !! _); by intros [= <- <-].
Qed.

(** Every file passed over for an earlier one is named in a warning. *)
Lemma scan_loop_warns l m w m' w' p i :
  for_each l (scan_step sha256_digest) m w = (inr m', w') →
  p ∈ l → file_at (w_fs w) p → safe_iata_from_filename p ≠ "" →
  m' !! safe_iata_from_filename p = Some i → PdfInfo.src_path i ≠ p →
  duplicate_warning (safe_iata_from_filename p) (PdfInfo.src_path i) p
    ∈ w_out w'.
Proof.
  revert m w. induction l as [|x l IH]; intros m w Hrun Hin Hfile Hne Hi Hsrc.
  { by apply elem_of_nil in Hin. }
  simpl in Hrun. apply bind_inr in Hrun as (m1 & w1 & Hx & Hrun).
  pose proof (scan_step_fs _ _ _ _ _ Hx) as Hfs1.
  apply elem_of_cons in Hin as [->|Hin].
  - destruct (scan_loop_spec sha256_digest l m1 w1)
      as (m'' & w'' & Hrun' & _ & [lines Hout] & Hk).
    rewrite Hrun in Hrun'. injection Hrun' as <- <-.
    rewrite scan_step_eq in Hx. unfold file_at in Hfile.
    destruct (Os.at_path (w_fs w) x) as [[|f]|]; try done. simpl in Hx.
    rewrite decide_False in Hx by done.
    destruct (m !! safe_iata_from_filename x) as [kept|] eqn:Hkept.
    + injection Hx as <- <-. rewrite Hk, Hkept in Hi. injection Hi as <-.
      rewrite Hout. simpl. apply elem_of_app. left. apply elem_of_app. right.
      left.
    + injection Hx as <- <-. rewrite Hk, lookup_insert_eq in Hi.
      injection Hi as <-. done.
  - eapply IH; try done. by rewrite Hfs1.
Qed.

Lemma scan_pdfs_loop d w pdfs w1 :
  scan_pdfs sha256_digest d w = (inr pdfs, w1) →
  for_each (Os.sorted_pdfs (w_fs w) d) (scan_step sha256_digest) ∅ w
    = (inr pdfs, w1).
Proof.
  rewrite scan_pdfs_eq. case_bool_decide; [|done].
  destruct (for_each _ _ _ _) as [[e|m] w']; [done|].
  case_decide; [done|]. by intros [= <- <-].
Qed.

Lemma no_entry_with_iata (l : list (string * PdfInfo.t)) k :
  k ∉ l.*1 → filter (has_iata k) (minimal_entry <$> l) = [].
Proof.
  induction l as [|[k' i'] l IH]; [done|]. rewrite !fmap_cons.
  intros [Hne Hl]%not_elem_of_cons.
  rewrite filter_cons_False; [by apply IH|].
  unfold has_iata. simpl. intros H%bool_decide_unpack.
  simpl in Hne. congruence.
Qed.

Lemma one_entry_with_iata (l : list (string * PdfInfo.t)) k i :
  NoDup l.*1 → (k, i) ∈ l →
  filter (has_iata k) (minimal_entry <$> l) = [minimal_entry (k, i)].
Proof.
  induction l as [|[k' i'] l IH]; intros Hnd Hin; [by apply elem_of_nil in Hin|].
  rewrite fmap_cons in Hnd. apply NoDup_cons in Hnd as [Hk' Hnd].
  rewrite fmap_cons. simpl in Hk'.
  apply elem_of_cons in Hin as [[= <- <-]|Hin].
  - rewrite filter_cons_True.
    + by rewrite no_entry_with_iata.
    + unfold has_iata. simpl. by apply bool_decide_pack.
  - rewrite filter_cons_False; [by apply IH|].
    unfold has_iata. simpl. intros ->%bool_decide_unpack.
    apply Hk'. apply list_elem_of_fmap. by exists (k, i).
Qed.

Lemma items_by_key_NoDup (pdfs : gmap string PdfInfo.t) :
  NoDup (items_by_key pdfs).*1.
Proof.
  unfold items_by_key. rewrite merge_sort_Permutation.
  apply NoDup_fst_map_to_list.
Qed.

(** With a template, the entries that carry a scanned identifier are as
    many as the template objects that name it. *)
Lemma count_entries pdfs k l :
  k ≠ "" → is_Some (pdfs !! k) →
  length (filter (has_iata k) (omap (merged_entry pdfs) l)) =
  length (filter (λ k', k' = k) (template_ids l)).
Proof.
  intros Hk [i Hi]. unfold template_ids.
  induction l as [|x l IH]; [done|].
  destruct x as [| | | | | |a]; try done. csimpl.
  destruct (decide (template_iata a = "")) as [E|E].
  { rewrite filter_cons_False by congruence. done. }
  destruct (decide (template_iata a = k)) as [Hak|Hne].
  - assert (pdfs !! template_iata a = Some i) as -> by (by rewrite Hak).
    csimpl.
    rewrite !filter_cons_True; [cbn [length]; by rewrite IH|done|].
    unfold has_iata.
    rewrite merged_entry_field, normalize_airport_dict_get. simpl.
    by apply bool_decide_pack.
  - rewrite (filter_cons_False _ (template_iata a)) by done.
    destruct (pdfs !! template_iata a) as [pdf|]; csimpl; [|done].
    rewrite filter_cons_False; [done|].
    unfold has_iata.
    rewrite merged_entry_field, normalize_airport_dict_get. simpl.
    by intros ?%bool_decide_unpack.
Qed.

(** C3 (amended): for file names and template identifiers of 7-bit text,
    when two documents of an existing source directory have the same
    normalized identifier, the scan returns; its result holds one record
    for that identifier, that of the document whose path comes first in
    the order of [sorted]; every other document with the identifier is
    named, with the kept one, in a warning; every manifest entry for the
    identifier describes the kept document; a manifest built without a
    template has exactly one such entry, and one built with a template
    has as many as the template has objects naming the identifier. *)
Theorem scan_keeps_first_path d root base tpl w p1 p2 :
  ascii_names (w_fs w) d →
  ascii_template json_loads (w_fs w) tpl →
  present_at (w_fs w) d →
  p1 ∈ documents (w_fs w) d → p2 ∈ documents (w_fs w) d → p1 ≠ p2 →
  safe_iata_from_filename p1 = safe_iata_from_filename p2 →
  ∃ pdfs w1 i,
    scan_pdfs sha256_digest d w = (inr pdfs, w1) ∧
    pdfs !! safe_iata_from_filename p1 = Some i ∧
    (∀ k j, pdfs !! k = Some j →
            PdfInfo.iata j = safe_iata_from_filename p1 →
            k = safe_iata_from_filename p1) ∧
    PdfInfo.src_path i ∈ documents (w_fs w) d ∧
    safe_iata_from_filename (PdfInfo.src_path i) = safe_iata_from_filename p1 ∧
    (∀ q, q ∈ documents (w_fs w) d →
          safe_iata_from_filename q = safe_iata_from_filename p1 →
          PyPath.le (PdfInfo.src_path i) q ∧
          (q ≠ PdfInfo.src_path i →
           duplicate_warning (safe_iata_from_filename p1)
                             (PdfInfo.src_path i) q ∈ w_out w1)) ∧
    ∀ m w2,
      build_manifest json_loads pdfs root base tpl w1 = (inr m, w2) →
      (∀ e, e ∈ airports_of m → has_iata (safe_iata_from_filename p1) e →
            field "pdf" e =
              Some (pdf_block (PyPath.as_posix (immutable_rel i)) i)) ∧
      (tpl = None →
       filter (has_iata (safe_iata_from_filename p1)) (airports_of m) =
         [minimal_entry (safe_iata_from_filename p1, i)]) ∧
      (∀ path, tpl = Some path →
         ∃ l, template_airports json_loads (w_fs w) path l ∧
              length (filter (has_iata (safe_iata_from_filename p1))
                             (airports_of m)) =
              length (filter (λ k, k = safe_iata_from_filename p1)
                             (template_ids l))).
Proof.
  intros _ _ Hd Hp1 Hp2 Hneq Hsame.
  destruct (scan_pdfs_returns sha256_digest d w p1 Hd Hp1) as (pdfs & w1 & Hscan).
  pose proof (scan_pdfs_inr _ _ _ _ _ Hscan) as (_ & Hfs & _ & Hk).
  pose proof Hp1 as [[Hfile1 Hne1] Hin1]%list_elem_of_filter.
  set (k := safe_iata_from_filename p1) in *.
  assert (is_Some (pdfs !! k)) as [i Hi].
  { rewrite Hk, decide_False by done.
    eapply scan_first_is_Some; [by apply elem_of_sorted_pdfs|done..]. }
  pose proof Hi as Hfirst. rewrite Hk, decide_False in Hfirst by done.
  destruct (scan_pdfs_record _ _ _ _ _ _ _ Hscan Hi)
    as (_ & Hiata & Hsrc & f & Hat & Hrec).
  assert (safe_iata_from_filename (PdfInfo.src_path i) = k) as Hsrck.
  { transitivity (PdfInfo.iata
                    (scanned_record sha256_digest (PdfInfo.src_path i) f));
      [done|by rewrite <-Hrec]. }
  exists pdfs, w1, i. split_and!; [done|done| | |done| |].
  - intros k' j Hj Hjk.
    by destruct (scan_pdfs_record _ _ _ _ _ _ _ Hscan Hj) as (_ & <- & _).
  - apply list_elem_of_filter. split; [|done]. split.
    + unfold file_at. by rewrite Hat.
    + by rewrite Hsrck.
  - intros q [[Hfileq Hneq'] Hinq]%list_elem_of_filter Hqk. split.
    + eapply scan_first_least;
        [apply sorted_pdfs_sorted|done|by apply elem_of_sorted_pdfs|done..].
    + intros Hq. rewrite <-Hqk.
      eapply scan_loop_warns;
        [by apply scan_pdfs_loop|by apply elem_of_sorted_pdfs|done|done| |done].
      by rewrite Hqk.
  - intros m w2 Hbuild.
    apply build_manifest_spec in Hbuild as (entries & -> & _ & Htpl).
    rewrite airports_of_manifest. destruct tpl as [path|].
    + destruct Htpl as (l & Hl & -> & _). split_and!; [|done|].
      * intros e (a & _ & Hm)%list_elem_of_omap Hhas.
        apply merged_entry_Some in Hm as (a' & pdf & -> & _ & Hpdf & ->).
        unfold has_iata in Hhas.
        rewrite merged_entry_field, normalize_airport_dict_get in Hhas.
        simpl in Hhas. apply bool_decide_unpack in Hhas.
        rewrite Hhas, Hi in Hpdf. injection Hpdf as <-.
        by rewrite merged_entry_field.
      * intros ? [= <-]. exists l. rewrite <-Hfs. split; [done|].
        apply count_entries; [done|by eexists].
    + destruct Htpl as (-> & _). split_and!; [| |done].
      * intros e ([k' i'] & -> & Hkv%elem_of_items_by_key)%list_elem_of_fmap Hhas.
        unfold has_iata in Hhas. simpl in *.
        apply bool_decide_unpack in Hhas. subst k'.
        rewrite Hi in Hkv. by injection Hkv as <-.
      * intros _. apply one_entry_with_iata; [apply items_by_key_NoDup|].
        by apply elem_of_items_by_key.
Qed.

End C3.

(** The sample source directory holds [a/JFK.pdf] and [jfk.pdf]. *)
Lemma scan_keeps_first_path_witness :
  ascii_names (w_fs sample_world) ["src"] ∧
  present_at (w_fs sample_world) ["src"] ∧
  ["src"; "a"; "JFK.pdf"] ∈ documents (w_fs sample_world) ["src"] ∧
  ["src"; "jfk.pdf"] ∈ documents (w_fs sample_world) ["src"] ∧
  safe_iata_from_filename ["src"; "a"; "JFK.pdf"]
    = safe_iata_from_filename ["src"; "jfk.pdf"] ∧
  (∃ pdfs w1 i,
    scan_pdfs sample_digest ["src"] sample_world = (inr pdfs, w1) ∧
    pdfs !! safe_iata_from_filename ["src"; "a"; "JFK.pdf"] = Some i ∧
    (∀ k j, pdfs !! k = Some j →
            PdfInfo.iata j = safe_iata_from_filename ["src"; "a"; "JFK.pdf"] →
            k = safe_iata_from_filename ["src"; "a"; "JFK.pdf"]) ∧
    PdfInfo.src_path i ∈ documents (w_fs sample_world) ["src"] ∧
    safe_iata_from_filename (PdfInfo.src_path i)
      = safe_iata_from_filename ["src"; "a"; "JFK.pdf"] ∧
    (∀ q, q ∈ documents (w_fs sample_world) ["src"] →
          safe_iata_from_filename q
            = safe_iata_from_filename ["src"; "a"; "JFK.pdf"] →
          PyPath.le (PdfInfo.src_path i) q ∧
          (q ≠ PdfInfo.src_path i →
           duplicate_warning (safe_iata_from_filename ["src"; "a"; "JFK.pdf"])
                             (PdfInfo.src_path i) q ∈ w_out w1)) ∧
    ∀ m w2,
      build_manifest sample_loads pdfs ["site"] None
        (@None Path) w1 = (inr m, w2) →
      (∀ e, e ∈ airports_of m →
            has_iata (safe_iata_from_filename ["src"; "a"; "JFK.pdf"]) e →
            field "pdf" e =
              Some (pdf_block (PyPath.as_posix (immutable_rel i)) i)) ∧
      ((@None Path) = None →
       filter (has_iata (safe_iata_from_filename ["src"; "a"; "JFK.pdf"]))
              (airports_of m) =
         [minimal_entry (safe_iata_from_filename ["src"; "a"; "JFK.pdf"], i)]) ∧
      (∀ path, (@None Path) = Some path →
         ∃ l, template_airports sample_loads (w_fs sample_world) path l ∧
              length (filter (has_iata (safe_iata_from_filename ["src"; "a"; "JFK.pdf"]))
                             (airports_of m)) =
              length (filter (λ k, k = safe_iata_from_filename ["src"; "a"; "JFK.pdf"])
                             (template_ids l)))) ∧
  (∃ pdfs w1 i,
    scan_pdfs sample_digest ["src"] sample_world = (inr pdfs, w1) ∧
    pdfs !! safe_iata_from_filename ["src"; "a"; "JFK.pdf"] = Some i ∧
    (∀ k j, pdfs !! k = Some j →
            PdfInfo.iata j = safe_iata_from_filename ["src"; "a"; "JFK.pdf"] →
            k = safe_iata_from_filename ["src"; "a"; "JFK.pdf"]) ∧
    PdfInfo.src_path i ∈ documents (w_fs sample_world) ["src"] ∧
    safe_iata_from_filename (PdfInfo.src_path i)
      = safe_iata_from_filename ["src"; "a"; "JFK.pdf"] ∧
    (∀ q, q ∈ documents (w_fs sample_world) ["src"] →
          safe_iata_from_filename q
            = safe_iata_from_filename ["src"; "a"; "JFK.pdf"] →
          PyPath.le (PdfInfo.src_path i) q ∧
          (q ≠ PdfInfo.src_path i →
           duplicate_warning (safe_iata_from_filename ["src"; "a"; "JFK.pdf"])
                             (PdfInfo.src_path i) q ∈ w_out w1)) ∧
    ∀ m w2,
      build_manifest sample_loads pdfs ["site"] None
        (Some ["tpl"; "manifest_template.json"]) w1 = (inr m, w2) →
      (∀ e, e ∈ airports_of m →
            has_iata (safe_iata_from_filename ["src"; "a"; "JFK.pdf"]) e →
            field "pdf" e =
              Some (pdf_block (PyPath.as_posix (immutable_rel i)) i)) ∧
      ((Some ["tpl"; "manifest_template.json"]) = None →
       filter (has_iata (safe_iata_from_filename ["src"; "a"; "JFK.pdf"]))
              (airports_of m) =
         [minimal_entry (safe_iata_from_filename ["src"; "a"; "JFK.pdf"], i)]) ∧
      (∀ path, (Some ["tpl"; "manifest_template.json"]) = Some path →
         ∃ l, template_airports sample_loads (w_fs sample_world) path l ∧
              length (filter (has_iata (safe_iata_from_filename ["src"; "a"; "JFK.pdf"]))
                             (airports_of m)) =
              length (filter (λ k, k = safe_iata_from_filename ["src"; "a"; "JFK.pdf"])
                             (template_ids l)))).
Proof.
  assert (present_at (w_fs sample_world) ["src"]) as Hd by (by eexists).
  assert (["src"; "a"; "JFK.pdf"] ∈ documents (w_fs sample_world) ["src"]) as H1.
  { vm_compute. apply list_elem_of_In. simpl. auto. }
  assert (["src"; "jfk.pdf"] ∈ documents (w_fs sample_world) ["src"]) as H2.
  { vm_compute. apply list_elem_of_In. simpl. auto. }
  assert (safe_iata_from_filename ["src"; "a"; "JFK.pdf"]
            = safe_iata_from_filename ["src"; "jfk.pdf"]) as Hsame
    by (vm_compute; reflexivity).
  split; [exact sample_names_ascii|]. split; [exact Hd|].
  split; [exact H1|]. split; [exact H2|]. split; [exact Hsame|]. split.
  - apply (scan_keeps_first_path sample_digest sample_loads ["src"] ["site"]
             None None sample_world ["src"; "a"; "JFK.pdf"] ["src"; "jfk.pdf"]);
      [exact sample_names_ascii|apply ascii_template_none|done..].
  - apply (scan_keeps_first_path sample_digest sample_loads ["src"] ["site"]
             None (Some ["tpl"; "manifest_template.json"]) sample_world
             ["src"; "a"; "JFK.pdf"] ["src"; "jfk.pdf"]);
      [exact sample_names_ascii| |done..].
    exact (ascii_template_of _ _ _ _ sample_template_airports_before
             sample_ids_ascii).
Defined.

(** ** C4: number and order of the entries *)

Lemma entry_iata_minimal (l : list (string * PdfInfo.t)) :
  entry_iata <$> (minimal_entry <$> l) = l.*1.
Proof. rewrite <-list_fmap_compose. by apply list_fmap_ext. Qed.

Lemma entry_iata_merged pdfs l :
  entry_iata <$> omap (merged_entry pdfs) l =
    filter (λ k, k ≠ "" ∧ is_Some (pdfs !! k)) (template_ids l).
Proof.
  unfold template_ids. induction l as [|a l IH]; [done|].
  destruct a as [| | | | | |a']; try done. csimpl.
  destruct (decide (template_iata a' = "")) as [E|E].
  { rewrite filter_cons_False by naive_solver. done. }
  destruct (pdfs !! template_iata a') as [pdf|] eqn:Hpdf; csimpl.
  - rewrite filter_cons_True by (split; [done|by rewrite Hpdf]).
    rewrite <-IH. f_equal.
    unfold entry_iata. rewrite merged_entry_field, normalize_airport_dict_get.
    done.
  - rewrite filter_cons_False; [done|].
    rewrite Hpdf. intros [_ [? ?]]. done.
Qed.

Section C4.
Context (sha256_digest : string → string) (json_loads : string → option json).

(** The identifiers of the scan result are those of the documents. *)
Lemma scan_pdfs_keys d w pdfs w1 k :
  scan_pdfs sha256_digest d w = (inr pdfs, w1) →
  k ∈ (items_by_key pdfs).*1 ↔
  k ∈ safe_iata_from_filename <$> documents (w_fs w) d.
Proof.
  intros Hscan. rewrite !list_elem_of_fmap. split.
  - intros ([k' i] & -> & Hi%elem_of_items_by_key). simpl in *.
    destruct (scan_pdfs_record _ _ _ _ _ _ _ Hscan Hi)
      as (Hne & Hiata & Hsrc & f & Hat & Hrec).
    assert (safe_iata_from_filename (PdfInfo.src_path i) = k') as Hk.
    { transitivity (PdfInfo.iata
                      (scanned_record sha256_digest (PdfInfo.src_path i) f));
        [done|by rewrite <-Hrec]. }
    exists (PdfInfo.src_path i). split; [done|].
    apply list_elem_of_filter. split; [|done]. split.
    + unfold file_at. by rewrite Hat.
    + by rewrite Hk.
  - intros (p & -> & [[Hfile Hne] Hin]%list_elem_of_filter).
    apply scan_pdfs_inr in Hscan as (_ & _ & _ & Hk).
    destruct (scan_first_is_Some sha256_digest (w_fs w)
                (safe_iata_from_filename p) (Os.sorted_pdfs (w_fs w) d) p)
      as [i Hi]; [by apply elem_of_sorted_pdfs|done..|].
    exists (safe_iata_from_filename p, i). split; [done|].
    apply elem_of_items_by_key. simpl. by rewrite Hk, decide_False.
Qed.

(** C4: for file names and template identifiers of 7-bit text, a
    manifest built without a template has one entry per scanned
    identifier (as many as there are documents when no two share an
    identifier), in strictly ascending order of identifier; a manifest
    built with a template lists, in the order of the template, the
    template entries whose identifier was scanned. *)
Theorem manifest_entry_order d root base tpl w pdfs w1 m w2 :
  ascii_names (w_fs w) d →
  ascii_template json_loads (w_fs w) tpl →
  scan_pdfs sha256_digest d w = (inr pdfs, w1) →
  build_manifest json_loads pdfs root base tpl w1 = (inr m, w2) →
  match tpl with
  | None =>
      length (airports_of m) = size pdfs ∧
      (NoDup (safe_iata_from_filename <$> documents (w_fs w) d) →
       length (airports_of m) = length (documents (w_fs w) d)) ∧
      StronglySorted String.le (entry_iata <$> airports_of m) ∧
      NoDup (entry_iata <$> airports_of m) ∧
      ∀ k, k ∈ entry_iata <$> airports_of m ↔
           k ∈ safe_iata_from_filename <$> documents (w_fs w) d
  | Some path =>
      ∃ l, template_airports json_loads (w_fs w1) path l ∧
           airports_of m = omap (merged_entry pdfs) l ∧
           entry_iata <$> airports_of m =
             filter (λ k, k ≠ "" ∧ is_Some (pdfs !! k)) (template_ids l)
  end.
Proof.
  intros _ _ Hscan Hbuild.
  apply build_manifest_spec in Hbuild as (entries & -> & _ & Htpl).
  rewrite airports_of_manifest. destruct tpl as [path|].
  - destruct Htpl as (l & Hl & -> & _). exists l.
    split_and!; [done..|]. apply entry_iata_merged.
  - destruct Htpl as (-> & _). rewrite entry_iata_minimal.
    assert (length (minimal_entry <$> items_by_key pdfs) = size pdfs) as Hlen.
    { rewrite length_fmap. unfold items_by_key.
      rewrite merge_sort_Permutation. apply length_map_to_list. }
    split_and!.
    + done.
    + intros Hnd. rewrite length_fmap.
      rewrite <-(length_fmap fst), <-(length_fmap safe_iata_from_filename).
      apply Permutation_length, NoDup_Permutation;
        [apply items_by_key_NoDup|done|].
      intros k. by eapply scan_pdfs_keys.
    + apply (StronglySorted_fmap _ key_le); [done|].
      apply (StronglySorted_merge_sort _).
    + apply items_by_key_NoDup.
    + intros k. by eapply scan_pdfs_keys.
Qed.

End C4.

(** The sample run without a template, and with the sample template. *)
Lemma manifest_entry_order_witness :
  ascii_names (w_fs unique_world) ["src"] ∧
  scan_pdfs sample_digest ["src"] unique_world
    = (inr unique_pdfs, unique_scanned) ∧
  NoDup (safe_iata_from_filename <$> documents (w_fs unique_world) ["src"]) ∧
  length (documents (w_fs unique_world) ["src"]) = 2%nat ∧
  length (airports_of (unique_manifest None)) = 2%nat ∧
  (length (airports_of (unique_manifest None)) = size unique_pdfs ∧
   (NoDup (safe_iata_from_filename <$> documents (w_fs unique_world) ["src"]) →
    length (airports_of (unique_manifest None))
      = length (documents (w_fs unique_world) ["src"])) ∧
   StronglySorted String.le (entry_iata <$> airports_of (unique_manifest None)) ∧
   NoDup (entry_iata <$> airports_of (unique_manifest None)) ∧
   ∀ k, k ∈ entry_iata <$> airports_of (unique_manifest None) ↔
        k ∈ safe_iata_from_filename <$> documents (w_fs unique_world) ["src"]) ∧
  (∃ l, template_airports sample_loads (w_fs unique_scanned)
          ["tpl"; "manifest_template.json"] l ∧
        airports_of (unique_manifest (Some ["tpl"; "manifest_template.json"]))
          = omap (merged_entry unique_pdfs) l ∧
        entry_iata <$> airports_of (unique_manifest (Some ["tpl"; "manifest_template.json"]))
          = filter (λ k, k ≠ "" ∧ is_Some (unique_pdfs !! k)) (template_ids l)).
Proof.
  assert (NoDup (safe_iata_from_filename <$>
                   documents (w_fs unique_world) ["src"])) as Hnd.
  { apply (bool_decide_unpack _). vm_compute. exact I. }
  assert (length (documents (w_fs unique_world) ["src"]) = 2%nat) as Hlen
    by (vm_compute; reflexivity).
  assert (build_manifest sample_loads unique_pdfs ["site"] None None
            unique_scanned = (inr (unique_manifest None), unique_built None))
    as Hnone by (apply unique_build_run; vm_compute; reflexivity).
  assert (build_manifest sample_loads unique_pdfs ["site"] None
            (Some ["tpl"; "manifest_template.json"]) unique_scanned
          = (inr (unique_manifest (Some ["tpl"; "manifest_template.json"])),
             unique_built (Some ["tpl"; "manifest_template.json"])))
    as Hsome by (apply unique_build_run; vm_compute; reflexivity).
  pose proof (manifest_entry_order sample_digest sample_loads ["src"] ["site"]
                None None unique_world unique_pdfs unique_scanned _ _
                unique_names_ascii (ascii_template_none _ _)
                unique_scan_run Hnone) as HN.
  pose proof (manifest_entry_order sample_digest sample_loads ["src"] ["site"]
                None (Some ["tpl"; "manifest_template.json"]) unique_world
                unique_pdfs unique_scanned _ _
                unique_names_ascii
                (ascii_template_of _ _ _ _ unique_template_airports
                   sample_ids_ascii)
                unique_scan_run Hsome) as HS.
  split; [exact unique_names_ascii|]. split; [exact unique_scan_run|].
  split; [exact Hnd|]. split; [exact Hlen|].
  split; [rewrite <-Hlen; by apply HN|].
  split; [exact HN|exact HS].
Defined.

Example sample_template_order :
  entry_iata <$>
    airports_of (sample_manifest None (Some ["tpl"; "manifest_template.json"]))
  = ["JFK"; "LAX"].
Proof. vm_compute. done. Qed.

(** ** C5: template entries without a scanned file *)

Section C5.
Context (json_loads : string → option json).

Lemma template_airports_inj fs path l l' :
  template_airports json_loads fs path l →
  template_airports json_loads fs path l' → l = l'.
Proof.
  intros (f & t & Hf & _ & Ht & Hl) (f' & t' & Hf' & _ & Ht' & Hl').
  congruence.
Qed.

Lemma copy_pdf_out root pdf w url w' :
  copy_pdf_to_immutable_path root pdf w = (inr url, w') → w_out w' = w_out w.
Proof. by intros (_ & _ & ? & _)%copy_pdf_spec. Qed.

(** One iteration of the template loop only adds to the output. *)
Lemma template_step_out pdfs root x acc w acc1 w1 :
  template_step pdfs root x acc w = (inr acc1, w1) →
  ∃ lines, w_out w1 = w_out w ++ lines.
Proof.
  unfold template_step. destruct x as [| | | | | |a];
    try (intros [<- <-]%ret_inr; exists []; by rewrite app_nil_r).
  case_decide; [intros [<- <-]%ret_inr; exists []; by rewrite app_nil_r|].
  destruct (pdfs !! template_iata a) as [pdf|].
  - intros (url & w2 & Hout%copy_pdf_out & [<- <-]%ret_inr)%bind_inr.
    exists []. by rewrite app_nil_r.
  - intros (u & w2 & Hprint & [<- <-]%ret_inr)%bind_inr.
    unfold Os.print in Hprint. simplify_eq. simpl. by eexists.
Qed.

Lemma template_loop_out pdfs root l acc w out w' :
  for_each l (template_step pdfs root) acc w = (inr out, w') →
  ∃ lines, w_out w' = w_out w ++ lines.
Proof.
  intros H.
  apply (for_each_ind (λ _ w1, ∃ lines, w_out w1 = w_out w ++ lines)) in H;
    [done|exists []; by rewrite app_nil_r|].
  intros x s1 w1 s2 w2 _ [lines Hl] [lines' Hl']%template_step_out.
  exists (lines ++ lines'). by rewrite Hl', Hl, app_assoc.
Qed.

(** A template entry whose identifier was not scanned: the iteration
    leaves the entries and the file system as they are, and prints the
    warning unless the identifier is empty. *)
Lemma template_step_missing pdfs root a acc w :
  pdfs !! template_iata a = None →
  template_step pdfs root (JDict a) acc w =
    (inr acc,
     if decide (template_iata a = "") then w
     else mk_world (w_fs w)
                   (w_out w ++ [missing_pdf_warning (template_iata a)])
                   (w_tick w) (w_clock w)).
Proof.
  intros Hnone. unfold template_step. case_decide; [done|].
  by rewrite Hnone.
Qed.

Lemma template_loop_warns pdfs root l acc w out w' a :
  for_each l (template_step pdfs root) acc w = (inr out, w') →
  JDict a ∈ l → template_iata a ≠ "" → pdfs !! template_iata a = None →
  missing_pdf_warning (template_iata a) ∈ w_out w'.
Proof.
  revert acc w. induction l as [|x l IH]; intros acc w Hrun Hin Hne Hnone.
  { by apply elem_of_nil in Hin. }
  simpl in Hrun. apply bind_inr in Hrun as (acc1 & w1 & Hx & Hrun).
  apply elem_of_cons in Hin as [<-|Hin]; [|by eapply IH].
  rewrite template_step_missing, decide_False in Hx by done.
  injection Hx as <- <-.
  apply template_loop_out in Hrun as [lines ->]. simpl.
  apply elem_of_app. left. apply elem_of_app. right. left.
Qed.

(** The run of the template loop inside a build that returned. *)
Lemma build_manifest_template_run pdfs root base path w m w2 :
  build_manifest json_loads pdfs root base (Some path) w = (inr m, w2) →
  ∃ l entries w1,
    template_airports json_loads (w_fs w) path l ∧
    w_out w1 = w_out w ∧
    for_each l (template_step pdfs root) [] w1 = (inr entries, w2).
Proof.
  unfold build_manifest. intros H.
  apply bind_inr in H as (now & w1 & Hnow & H).
  unfold Os.now in Hnow. injection Hnow as <- <-.
  apply bind_inr in H as (entries & w3 & Hloop & H).
  apply ret_inr in H as [<- <-].
  apply bind_inr in Hloop as (template & w4 & Hload & Hloop).
  apply load_json_inr in Hload as (-> & f' & Hat & Hutf & Hv).
  destruct template as [| | | | | |t]; try done.
  destruct (PyDict.get "airports" t) as [[| | | | |l|]|] eqn:Hl; try done.
  eexists l, entries, _. split_and!; [by exists f', t| |done]. done.
Qed.

(** C5: in a template whose identifiers are 7-bit text, an entry whose
    normalized identifier has no scanned record contributes nothing: the
    manifest's entries are those of the template without it, no entry
    carries its identifier, its iteration changes neither the entries nor
    the file system, and the warning is printed (for an identifier that
    is not empty). *)
Theorem missing_pdf_entry_skipped pdfs root base path w m w2 l1 a l2 :
  template_airports json_loads (w_fs w) path (l1 ++ JDict a :: l2) →
  ascii_ids (l1 ++ JDict a :: l2) →
  pdfs !! template_iata a = None →
  build_manifest json_loads pdfs root base (Some path) w = (inr m, w2) →
  airports_of m = omap (merged_entry pdfs) (l1 ++ l2) ∧
  (∀ e, e ∈ airports_of m → ¬ has_iata (template_iata a) e) ∧
  (template_iata a ≠ "" →
   missing_pdf_warning (template_iata a) ∈ w_out w2) ∧
  ∀ acc w',
    template_step pdfs root (JDict a) acc w' =
      (inr acc,
       if decide (template_iata a = "") then w'
       else mk_world (w_fs w')
                     (w_out w' ++ [missing_pdf_warning (template_iata a)])
                     (w_tick w') (w_clock w')).
Proof.
  intros Hl _ Hnone Hbuild.
  pose proof (build_manifest_template_run _ _ _ _ _ _ _ Hbuild)
    as (l & entries & w1 & Hl' & _ & Hrun).
  pose proof (template_airports_inj _ _ _ _ Hl Hl') as <-.
  apply build_manifest_spec in Hbuild as (entries' & -> & _ & Htpl).
  destruct Htpl as (l' & Hl'' & -> & _).
  pose proof (template_airports_inj _ _ _ _ Hl Hl'') as <-.
  rewrite airports_of_manifest. split_and!.
  - rewrite !omap_app. f_equal. csimpl.
    rewrite Hnone. by case_decide.
  - intros e (x & _ & Hm)%list_elem_of_omap Hhas.
    apply merged_entry_Some in Hm as (a' & pdf & -> & _ & Hpdf & ->).
    unfold has_iata in Hhas.
    rewrite merged_entry_field, normalize_airport_dict_get in Hhas.
    simpl in Hhas. apply bool_decide_unpack in Hhas. congruence.
  - intros Hne. eapply template_loop_warns; [done| |done..].
    apply elem_of_app. right. left.
  - intros acc w'. by apply template_step_missing.
Qed.

End C5.

(** The sample template names SFO, for which the sample source directory
    has no file. *)
Lemma missing_pdf_entry_skipped_witness :
  airports_of (sample_manifest None (Some ["tpl"; "manifest_template.json"]))
    = omap (merged_entry sample_pdfs) ([JDict jfk_entry] ++ [JDict lax_entry]) ∧
  (∀ e, e ∈ airports_of (sample_manifest None (Some ["tpl"; "manifest_template.json"])) →
        ¬ has_iata (template_iata sfo_entry) e) ∧
  (template_iata sfo_entry ≠ "" →
   missing_pdf_warning (template_iata sfo_entry)
     ∈ w_out (sample_built None (Some ["tpl"; "manifest_template.json"]))) ∧
  ∀ acc w',
    template_step sample_pdfs ["site"] (JDict sfo_entry) acc w' =
      (inr acc,
       if decide (template_iata sfo_entry = "") then w'
       else mk_world (w_fs w')
                     (w_out w' ++ [missing_pdf_warning (template_iata sfo_entry)])
                     (w_tick w') (w_clock w')).
Proof.
  assert (build_manifest sample_loads sample_pdfs ["site"] None
      (Some ["tpl"; "manifest_template.json"]) sample_scanned
    = (inr (sample_manifest None (Some ["tpl"; "manifest_template.json"])),
       sample_built None (Some ["tpl"; "manifest_template.json"]))) as Hbuild.
  { apply sample_build_run. vm_compute. reflexivity. }
  apply (missing_pdf_entry_skipped sample_loads sample_pdfs ["site"] None
           ["tpl"; "manifest_template.json"] sample_scanned
           (sample_manifest None (Some ["tpl"; "manifest_template.json"]))
           (sample_built None (Some ["tpl"; "manifest_template.json"]))
           [JDict jfk_entry] sfo_entry [JDict lax_entry]).
  - exact sample_template_airports.
  - exact sample_ids_ascii.
  - vm_compute. reflexivity.
  - exact Hbuild.
Defined.

(** ** C6: defaults never overwrite template fields *)

(** [normalize_airport_dict] gives [icao] and [name] the identifier and
    [city] the empty string exactly when the template entry lacks them;
    every field the entry supplies, other than [iata], is kept as
    supplied. *)
Lemma normalize_airport_dict_fields airport iata :
  let out := normalize_airport_dict airport iata in
  PyDict.get "icao" out = Some (default (JStr iata) (PyDict.get "icao" airport)) ∧
  PyDict.get "name" out = Some (default (JStr iata) (PyDict.get "name" airport)) ∧
  PyDict.get "city" out = Some (default (JStr "") (PyDict.get "city" airport)) ∧
  (∀ k v, k ≠ "iata" → PyDict.get k airport = Some v →
          PyDict.get k out = Some v) ∧
  (∀ k, k ∉ ["iata"; "icao"; "name"; "city"] →
        PyDict.get k out = PyDict.get k airport).
Proof.
  cbv zeta. rewrite !normalize_airport_dict_get. simpl. split_and!.
  - by destruct (PyDict.get "icao" airport).
  - by destruct (PyDict.get "name" airport).
  - by destruct (PyDict.get "city" airport).
  - intros k v Hk Hv. rewrite normalize_airport_dict_get, Hv.
    by rewrite decide_False.
  - intros k Hk. rewrite normalize_airport_dict_get.
    repeat (case_decide; [subst; set_solver|]).
    by destruct (PyDict.get k airport).
Qed.

Section C6.
Context (json_loads : string → option json).

(** The entry made from a matched template object keeps its fields. *)
Lemma merged_entry_keeps pdfs a pdf :
  template_iata a ≠ "" → pdfs !! template_iata a = Some pdf →
  ∃ e, merged_entry pdfs (JDict a) = Some e ∧ keeps_fields a e.
Proof.
  intros Hne Hpdf.
  exists (JDict (PyDict.set "pdf"
                   (pdf_block (PyPath.as_posix (immutable_rel pdf)) pdf)
                   (normalize_airport_dict a (template_iata a)))).
  split.
  { unfold merged_entry. rewrite decide_False by done. by rewrite Hpdf. }
  unfold keeps_fields.
  rewrite !merged_entry_field, !normalize_airport_dict_get. simpl.
  split_and!; [done|by destruct (PyDict.get "icao" a)|
               by destruct (PyDict.get "name" a)|
               by destruct (PyDict.get "city" a)|].
  intros k v Hk Hp Hv.
  rewrite dict_get_set, decide_False, normalize_airport_dict_get by done.
  by rewrite decide_False, Hv.
Qed.

(** C6: in the manifest built from a template whose identifiers are 7-bit
    text, every matched template object has an entry that carries its
    normalized identifier, carries [icao] and [name] as the object
    supplies them or else the identifier, [city] as supplied or else the
    empty string, and every other field the object supplies, as supplied
    (all but [pdf], which the build sets); and every entry of the manifest
    is such an entry of a matched template object. *)
Theorem template_fields_preserved pdfs root base path w m w2 l :
  build_manifest json_loads pdfs root base (Some path) w = (inr m, w2) →
  template_airports json_loads (w_fs w) path l →
  ascii_ids l →
  (∀ a pdf, JDict a ∈ l → template_iata a ≠ "" →
            pdfs !! template_iata a = Some pdf →
            ∃ e, e ∈ airports_of m ∧ keeps_fields a e) ∧
  (∀ e, e ∈ airports_of m →
        ∃ a, JDict a ∈ l ∧ template_iata a ≠ "" ∧
             is_Some (pdfs !! template_iata a) ∧ keeps_fields a e).
Proof.
  intros Hbuild Hl _.
  apply build_manifest_spec in Hbuild as (entries & -> & _ & l' & Hl' & -> & _).
  pose proof (template_airports_inj _ _ _ _ _ Hl Hl') as <-.
  rewrite airports_of_manifest. split.
  - intros a pdf Ha Hne Hpdf.
    destruct (merged_entry_keeps pdfs a pdf Hne Hpdf) as (e & He & Hkeep).
    exists e. split; [|done]. apply list_elem_of_omap. by exists (JDict a).
  - intros e (x & Hx & Hm)%list_elem_of_omap.
    pose proof Hm as (a & pdf & -> & Hne & Hpdf & _)%merged_entry_Some.
    destruct (merged_entry_keeps pdfs a pdf Hne Hpdf) as (e' & He' & Hkeep).
    rewrite Hm in He'. injection He' as <-.
    exists a. split_and!; [done|done|by eexists|done].
Qed.

End C6.

(** The sample build with the sample template, whose object for JFK
    supplies a name and a city but no ICAO code. *)
Lemma template_fields_preserved_witness :
  build_manifest sample_loads sample_pdfs ["site"] None
      (Some ["tpl"; "manifest_template.json"]) sample_scanned
    = (inr (sample_manifest None (Some ["tpl"; "manifest_template.json"])),
       sample_built None (Some ["tpl"; "manifest_template.json"])) ∧
  template_airports sample_loads (w_fs sample_scanned)
    ["tpl"; "manifest_template.json"]
    [JDict jfk_entry; JDict sfo_entry; JDict lax_entry] ∧
  ascii_ids [JDict jfk_entry; JDict sfo_entry; JDict lax_entry] ∧
  (∀ a pdf, JDict a ∈ [JDict jfk_entry; JDict sfo_entry; JDict lax_entry] →
            template_iata a ≠ "" →
            sample_pdfs !! template_iata a = Some pdf →
            ∃ e, e ∈ airports_of
                       (sample_manifest None
                          (Some ["tpl"; "manifest_template.json"])) ∧
                 keeps_fields a e) ∧
  (∀ e, e ∈ airports_of
              (sample_manifest None (Some ["tpl"; "manifest_template.json"])) →
        ∃ a, JDict a ∈ [JDict jfk_entry; JDict sfo_entry; JDict lax_entry] ∧
             template_iata a ≠ "" ∧
             is_Some (sample_pdfs !! template_iata a) ∧ keeps_fields a e).
Proof.
  assert (build_manifest sample_loads sample_pdfs ["site"] None
      (Some ["tpl"; "manifest_template.json"]) sample_scanned
    = (inr (sample_manifest None (Some ["tpl"; "manifest_template.json"])),
       sample_built None (Some ["tpl"; "manifest_template.json"]))) as Hbuild.
  { apply sample_build_run. vm_compute. reflexivity. }
  split; [exact Hbuild|]. split; [exact sample_template_airports|].
  split; [vm_compute; exact I|].
  exact (template_fields_preserved sample_loads sample_pdfs ["site"] None
           ["tpl"; "manifest_template.json"] sample_scanned _ _ _
           Hbuild sample_template_airports I).
Defined.

(** The sample template supplies a name and a city for JFK but no ICAO
    code: the manifest keeps the first two and defaults the third. *)
Example sample_override_kept :
  ∃ e, airports_of (sample_manifest None (Some ["tpl"; "manifest_template.json"]))
         !! 0 = Some e ∧
       field "iata" e = Some (JStr "JFK") ∧
       field "name" e = Some (JStr "John F. Kennedy Intl") ∧
       field "city" e = Some (JStr "New York") ∧
       field "icao" e = Some (JStr "JFK").
Proof. eexists. vm_compute. done. Qed.

(** ** C7: a template without an [airports] list *)

Section C7.
Context (json_loads : string → option json).

(** When the template file decodes to an object whose [airports] field
    is missing or is not a list, [build_manifest] raises the [ValueError]
    of line 169; nothing was published or printed before. *)
Lemma template_without_list_rejected pdfs root base path w f t :
  Os.at_path (w_fs w) path = Some (NFile f) →
  PyStr.utf8_valid (f_bytes f) = true →
  json_loads (f_bytes f) = Some (JDict t) →
  (∀ l, PyDict.get "airports" t ≠ Some (JList l)) →
  ∃ msg w',
    build_manifest json_loads pdfs root base (Some path) w
      = (inl (ValueError msg), w') ∧
    w_fs w' = w_fs w ∧ w_out w' = w_out w.
Proof.
  intros Hat Hutf Hload Hlist.
  eexists _, (mk_world (w_fs w) (w_out w) (S (w_tick w)) (w_clock w)).
  split; [|done].
  unfold build_manifest, bind, Os.now, load_json, Os.read_file, bind, ret.
  simpl. rewrite Hat. simpl. rewrite Hutf. simpl. rewrite Hload. simpl.
  destruct (PyDict.get "airports" t) as [[| | | | |l|]|] eqn:E; try done.
  by destruct (Hlist l).
Qed.

(** When it decodes to anything but an object, the call of [get] at line
    167 raises [AttributeError] before the check of line 168 is reached. *)
Lemma template_not_an_object pdfs root base path w f v :
  Os.at_path (w_fs w) path = Some (NFile f) →
  PyStr.utf8_valid (f_bytes f) = true →
  json_loads (f_bytes f) = Some v →
  (∀ t, v ≠ JDict t) →
  (build_manifest json_loads pdfs root base (Some path) w).1
    = inl (AttributeError ("'" +:+ PyRepr.type_name v +:+
                           "' object has no attribute 'get'")).
Proof.
  intros Hat Hutf Hload Hobj.
  unfold build_manifest, bind, Os.now, load_json, Os.read_file, bind, ret.
  simpl. rewrite Hat. simpl. rewrite Hutf. simpl. rewrite Hload. simpl.
  destruct v as [| | | | | |t]; try done. by destruct (Hobj t).
Qed.

End C7.

(** Two sample templates that are objects: one whose [airports] is a
    string, one without the field. *)
Example sample_templates_without_list :
  (∃ msg w',
     build_manifest sample_loads sample_pdfs ["site"] None
       (Some ["tpl"; "no_list.json"]) sample_scanned
       = (inl (ValueError msg), w') ∧
     w_fs w' = w_fs sample_scanned ∧ w_out w' = w_out sample_scanned) ∧
  (∃ msg w',
     build_manifest sample_loads sample_pdfs ["site"] None
       (Some ["tpl"; "no_field.json"]) sample_scanned
       = (inl (ValueError msg), w') ∧
     w_fs w' = w_fs sample_scanned ∧ w_out w' = w_out sample_scanned).
Proof.
  split.
  - apply (template_without_list_rejected sample_loads sample_pdfs ["site"] None
             ["tpl"; "no_list.json"] sample_scanned
             (mk_file "no list" sample_time) [("airports", JStr "JFK")]).
    + vm_compute. done.
    + vm_compute. done.
    + vm_compute. done.
    + intros l. vm_compute. done.
  - apply (template_without_list_rejected sample_loads sample_pdfs ["site"] None
             ["tpl"; "no_field.json"] sample_scanned
             (mk_file "no field" sample_time) [("schemaVersion", JInt 1)]).
    + vm_compute. done.
    + vm_compute. done.
    + vm_compute. done.
    + intros l. vm_compute. done.
Qed.

(** C7: the template file [tpl/list.json] holds the JSON document [[]],
    a list: it has no [airports] field, yet the build does not fail with
    an error of class [ValueError]. The [AttributeError] of line 167
    escapes, which is not one. *)
Lemma list_template_attribute_error :
  Os.at_path (w_fs list_template_world) ["tpl"; "list.json"]
    = Some (NFile (mk_file "[]" sample_time)) ∧
  list_loads "[]" = Some (JList []) ∧
  (build_manifest list_loads sample_pdfs ["site"] None
     (Some ["tpl"; "list.json"]) list_template_world).1
    = inl (AttributeError "'list' object has no attribute 'get'") ∧
  is_ValueError (AttributeError "'list' object has no attribute 'get'")
    = false.
Proof. vm_compute. done. Qed.

(** A template file that is not UTF-8 text: reading it as text fails
    before the JSON parser sees it, with [UnicodeDecodeError], a
    [ValueError]. The byte 255 starts no character; 195 169 is one
    character; 192 128 is an overlong form and 237 160 128 a surrogate,
    which the strict decoder refuses. *)
Example sample_template_not_utf8 :
  let bad := String (ascii_of_N 255) "{}" in
  let w := mk_world (list_to_map
                       [(["tpl"], NDir);
                        (["tpl"; "bad.json"], NFile (mk_file bad sample_time))])
                    [] 0 sample_clock in
  PyStr.utf8_valid bad = false ∧
  PyStr.utf8_valid (String (ascii_of_N 195) (String (ascii_of_N 169) "")) = true ∧
  PyStr.utf8_valid (String (ascii_of_N 192) (String (ascii_of_N 128) "")) = false ∧
  PyStr.utf8_valid (String (ascii_of_N 237) (String (ascii_of_N 160)
                      (String (ascii_of_N 128) ""))) = false ∧
  (load_json sample_loads ["tpl"; "bad.json"] w).1 = inl UnicodeDecodeError ∧
  (build_manifest sample_loads sample_pdfs ["site"] None
     (Some ["tpl"; "bad.json"]) w).1 = inl UnicodeDecodeError ∧
  is_ValueError UnicodeDecodeError = true.
Proof. vm_compute. done. Qed.

(** ** C8: the base URL *)

(** A caller who supplies the empty string as base URL gets a manifest
    without the [baseURL] field. *)
Lemma empty_base_url_counterexample :
  (build_manifest sample_loads sample_pdfs ["site"] (Some "") None
     sample_scanned).1 = inr (sample_manifest (Some "") None) ∧
  field "baseURL" (sample_manifest (Some "") None) = None ∧
  is_Some (Some "" : option string).
Proof. vm_compute. split_and!; [done..|by eexists]. Qed.

Lemma ensure_trailing_slash_spec url :
  PyStr.endswith (ensure_trailing_slash url) "/" = true ∧
  (PyStr.endswith url "/" = true → ensure_trailing_slash url = url) ∧
  (PyStr.endswith url "/" = false → ensure_trailing_slash url = url +:+ "/").
Proof.
  unfold ensure_trailing_slash.
  destruct (PyStr.endswith url "/") eqn:E; split_and!; try done.
  apply endswith_app.
Qed.

Section C8.
Context (json_loads : string → option json).

(** C8 (amended): the manifest of a build that returns has a [baseURL]
    field exactly when the caller supplied a base URL other than the
    empty string; its value is then the supplied text, followed by a
    slash unless it already ends with one. *)
Theorem base_url_field pdfs root base tpl w m w2 :
  build_manifest json_loads pdfs root base tpl w = (inr m, w2) →
  field "baseURL" m =
    match base with
    | Some url =>
        if decide (url = "") then None
        else Some (JStr (ensure_trailing_slash url))
    | None => None
    end ∧
  (is_Some (field "baseURL" m) ↔ ∃ url, base = Some url ∧ url ≠ "") ∧
  ∀ url, base = Some url → url ≠ "" →
    ∃ v, field "baseURL" m = Some (JStr v) ∧
         PyStr.endswith v "/" = true ∧
         (PyStr.endswith url "/" = true → v = url) ∧
         (PyStr.endswith url "/" = false → v = url +:+ "/").
Proof.
  intros (entries & -> & _)%build_manifest_spec.
  assert (field "baseURL"
            (JDict (manifest_fields (w_clock w (w_tick w)) entries base)) =
          match base with
          | Some url =>
              if decide (url = "") then None
              else Some (JStr (ensure_trailing_slash url))
          | None => None
          end) as Hfield.
  { unfold manifest_fields. destruct base as [url|]; [|done].
    case_decide; [done|]. simpl. done. }
  split_and!; [done| |].
  - rewrite Hfield. destruct base as [url|].
    + case_decide; split.
      * by intros [? ?].
      * intros (? & [= <-] & ?). done.
      * intros _. by exists url.
      * intros _. by eexists.
    + split; [by intros [? ?]|by intros (? & ? & ?)].
  - intros url -> Hne. rewrite Hfield, decide_False by done.
    eexists. split; [done|]. apply ensure_trailing_slash_spec.
Qed.

End C8.

(** The sample run with a base URL that lacks the final slash. *)
Lemma base_url_field_witness :
  field "baseURL" (sample_manifest (Some "https://x.github.io/r") None) =
    (if decide ("https://x.github.io/r" = "") then None
     else Some (JStr (ensure_trailing_slash "https://x.github.io/r"))) ∧
  (is_Some (field "baseURL" (sample_manifest (Some "https://x.github.io/r") None))
   ↔ ∃ url, Some "https://x.github.io/r" = Some url ∧ url ≠ "") ∧
  ∀ url, Some "https://x.github.io/r" = Some url → url ≠ "" →
    ∃ v, field "baseURL" (sample_manifest (Some "https://x.github.io/r") None)
           = Some (JStr v) ∧
         PyStr.endswith v "/" = true ∧
         (PyStr.endswith url "/" = true → v = url) ∧
         (PyStr.endswith url "/" = false → v = url +:+ "/").
Proof.
  apply (base_url_field sample_loads sample_pdfs ["site"]
           (Some "https://x.github.io/r") None sample_scanned
           (sample_manifest (Some "https://x.github.io/r") None)
           (sample_built (Some "https://x.github.io/r") None)).
  vm_compute. done.
Defined.

Example sample_base_url :
  field "baseURL" (sample_manifest (Some "https://x.github.io/r") None)
    = Some (JStr "https://x.github.io/r/") ∧
  field "baseURL" (sample_manifest (Some "https://x.github.io/r/") None)
    = Some (JStr "https://x.github.io/r/") ∧
  field "baseURL" (sample_manifest None None) = None.
Proof. vm_compute. done. Qed.

(** ** C10: identifiers in the manifest are the normalized ones *)

Section C10.
Context (sha256_digest : string → string) (json_loads : string → option json).


End C10.


(** ** C9: the two manifest files *)

Lemma norm_snoc p c :
  c ≠ ".." → PyPath.norm (p ++ [c]) = PyPath.norm p ++ [c].
Proof.
  intros Hc. unfold PyPath.norm. rewrite foldl_app. simpl.
  by rewrite decide_False.
Qed.

Lemma endswith_app_r s t suf :
  PyStr.endswith t suf = true → PyStr.endswith (s +:+ t) suf = true.
Proof.
  intros Ht. induction s as [|a s IH]; [done|].
  change (String a s +:+ t) with (String a (s +:+ t)). simpl.
  rewrite IH. apply orb_true_r.
Qed.

Lemma at_path_snoc fs p c :
  c ≠ ".." → Os.at_path fs (p ++ [c]) = fs !! (PyPath.norm p ++ [c]).
Proof.
  intros Hc. unfold Os.at_path. rewrite norm_snoc by done.
  by destruct (PyPath.norm p).
Qed.


Section C9.
Context (sha256_digest : string → string) (json_loads : string → option json)
        (json_dumps : json → string).


(** Where the snapshot goes for a given time stamp, lines 258. *)
Lemma timestamp_step args w ts w1 :
  match args_timestamp args with
  | Some ts => if decide (ts = "") then
                 bind Os.now (λ t, ret (PyTime.strftime_compact t))
               else ret ts
  | None => bind Os.now (λ t, ret (PyTime.strftime_compact t))
  end w = (inr ts, w1) →
  w_fs w1 = w_fs w ∧
  ∀ t, args_timestamp args = Some t → t ≠ "" → ts = t.
Proof.
  destruct (args_timestamp args) as [t0|]; [case_decide|].
  - subst. unfold bind, Os.now, ret. intros [= <- <-]. split; [done|].
    intros ? [= <-] ?. done.
  - intros [<- <-]%ret_inr. split; [done|]. by intros ? [= <-] _.
  - unfold bind, Os.now, ret. intros [= <- <-]. done.
Qed.


End C9.


Example sample_manifest_files :
  ∃ f1 f2,
    w_fs sample_ran !! ["site"; "manifest.json"] = Some (NFile f1) ∧
    w_fs sample_ran !! ["site"; "manifests"; "manifest-20240307-090500.json"]
      = Some (NFile f2) ∧
    f_bytes f1 = f_bytes f2 ∧
    w_fs sample_ran !! ["site"; "manifest.json.tmp"] = None.
Proof. eexists _, _. vm_compute. done. Qed.

(** ** Further properties of the script *)

(** *** Identifiers are in normal form *)

Lemma upper_char_idem a :
  PyStr.upper_char (PyStr.upper_char a) = PyStr.upper_char a.
Proof. destruct a as [[] [] [] [] [] [] [] []]; reflexivity. Qed.

Lemma isspace_upper_char a :
  PyStr.isspace (PyStr.upper_char a) = PyStr.isspace a.
Proof. destruct a as [[] [] [] [] [] [] [] []]; reflexivity. Qed.

Lemma upper_idem s : PyStr.upper (PyStr.upper s) = PyStr.upper s.
Proof.
  induction s as [|a s IH]; simpl; [done|]. by rewrite upper_char_idem, IH.
Qed.

Lemma upper_empty s : PyStr.upper s = "" ↔ s = "".
Proof. by destruct s. Qed.

Lemma upper_lstrip s : PyStr.upper (PyStr.lstrip s) = PyStr.lstrip (PyStr.upper s).
Proof.
  induction s as [|a s IH]; simpl; [done|].
  rewrite isspace_upper_char. by destruct (PyStr.isspace a).
Qed.

Lemma upper_rstrip s : PyStr.upper (PyStr.rstrip s) = PyStr.rstrip (PyStr.upper s).
Proof.
  induction s as [|a s IH]; simpl; [done|].
  rewrite <-IH, isspace_upper_char.
  destruct (decide (PyStr.rstrip s = "")) as [E|E].
  - rewrite E. simpl. by destruct (PyStr.isspace a).
  - rewrite decide_False by (by rewrite upper_empty). done.
Qed.

Lemma upper_strip s : PyStr.upper (PyStr.strip s) = PyStr.strip (PyStr.upper s).
Proof. unfold PyStr.strip. by rewrite upper_rstrip, upper_lstrip. Qed.

Lemma rstrip_idem s : PyStr.rstrip (PyStr.rstrip s) = PyStr.rstrip s.
Proof.
  induction s as [|a s IH]; simpl; [done|].
  destruct (decide (PyStr.rstrip s = "")) as [E|E].
  - destruct (PyStr.isspace a) eqn:Ha; simpl; [done|]. by rewrite Ha.
  - simpl. by rewrite IH, decide_False.
Qed.

(** A text without leading white space keeps its first character when
    white space is removed from its end. *)
Lemma lstrip_rstrip s :
  PyStr.lstrip s = s → PyStr.lstrip (PyStr.rstrip s) = PyStr.rstrip s.
Proof.
  destruct s as [|a s]; [done|]. simpl.
  destruct (PyStr.isspace a) eqn:Ha.
  - intros E. exfalso.
    assert (String.length (PyStr.lstrip s) ≤ String.length s)%nat as Hlen.
    { clear. induction s as [|b s IH]; simpl; [done|].
      destruct (PyStr.isspace b); simpl; lia. }
    rewrite E in Hlen. simpl in Hlen. lia.
  - intros _. destruct (decide (PyStr.rstrip s = "")); simpl; by rewrite Ha.
Qed.

Lemma lstrip_idem s : PyStr.lstrip (PyStr.lstrip s) = PyStr.lstrip s.
Proof.
  induction s as [|a s IH]; simpl; [done|].
  destruct (PyStr.isspace a) eqn:Ha; [done|]. simpl. by rewrite Ha.
Qed.

Lemma strip_idem s : PyStr.strip (PyStr.strip s) = PyStr.strip s.
Proof.
  unfold PyStr.strip.
  rewrite (lstrip_rstrip (PyStr.lstrip s)) by apply lstrip_idem.
  apply rstrip_idem.
Qed.

Lemma normalize_idem s :
  PyStr.upper (PyStr.strip (PyStr.upper (PyStr.strip s)))
    = PyStr.upper (PyStr.strip s).
Proof. by rewrite <-upper_strip, strip_idem, upper_idem. Qed.

(** X1: for a file name and a template value of 7-bit text, the
    identifier derived from the file name, and the identifier the
    template entry names, are fixed points of the normalization:
    stripping and upper-casing them again changes nothing, so a template
    that spells an identifier as the manifest prints it names that very
    identifier. *)
Theorem identifiers_in_normal_form p a :
  PyStr.isascii (PyPath.name p) →
  json_isascii (default (JStr "") (PyDict.get "iata" a)) →
  PyStr.upper (PyStr.strip (safe_iata_from_filename p))
    = safe_iata_from_filename p ∧
  PyStr.upper (PyStr.strip (template_iata a)) = template_iata a ∧
  template_iata [("iata", JStr (safe_iata_from_filename p))]
    = safe_iata_from_filename p ∧
  template_iata [("iata", JStr (template_iata a))] = template_iata a.
Proof.
  intros _ _. unfold safe_iata_from_filename, template_iata. simpl.
  split_and!; apply normalize_idem.
Qed.

(** The sample file [jfk.pdf] and the sample template object for JFK,
    which spells the identifier with blanks and in lower case. *)
Lemma identifiers_in_normal_form_witness :
  PyStr.isascii (PyPath.name ["src"; "jfk.pdf"]) ∧
  json_isascii (default (JStr "") (PyDict.get "iata" jfk_entry)) ∧
  PyStr.upper (PyStr.strip (safe_iata_from_filename ["src"; "jfk.pdf"]))
    = safe_iata_from_filename ["src"; "jfk.pdf"] ∧
  PyStr.upper (PyStr.strip (template_iata jfk_entry)) = template_iata jfk_entry ∧
  template_iata [("iata", JStr (safe_iata_from_filename ["src"; "jfk.pdf"]))]
    = safe_iata_from_filename ["src"; "jfk.pdf"] ∧
  template_iata [("iata", JStr (template_iata jfk_entry))]
    = template_iata jfk_entry.
Proof.
  assert (Is_true (PyStr.isascii (PyPath.name ["src"; "jfk.pdf"]))) as H1
    by (vm_compute; exact I).
  assert (Is_true (json_isascii
                     (default (JStr "") (PyDict.get "iata" jfk_entry)))) as H2
    by (vm_compute; exact I).
  split; [exact H1|]. split; [exact H2|].
  exact (identifiers_in_normal_form ["src"; "jfk.pdf"] jfk_entry H1 H2).
Defined.

(** *** Time stamps *)


Lemma take_app_length (a b : string) :
  PyStr.take (String.length a) (a +:+ b) = a.
Proof.
  unfold PyStr.take. induction a as [|x a IH].
  - by destruct b.
  - change (String x a +:+ b) with (String x (a +:+ b)). simpl. by rewrite IH.
Qed.

(** [replace] copies a text that has no plus sign. *)
Lemma replace_skip s t :
  PyStr.contains "+" s = false →
  PyReplace.replace "+00:00" "Z" (s +:+ t)
    = s +:+ PyReplace.replace "+00:00" "Z" t.
Proof.
  unfold PyReplace.replace. induction s as [|a s IH]; [done|].
  change (String a s +:+ t) with (String a (s +:+ t)).
  intros [Ha Hs]%orb_false_elim. apply bool_decide_eq_false in Ha.
  cbn [PyReplace.go PyReplace.is_prefix].
  rewrite bool_decide_eq_false_2 by congruence. simpl.
  by rewrite IH.
Qed.

Lemma plain_field_4 n : (n ≤ 9999)%N → plain_field 4 n.
Proof.
  intros Hn.
  assert (forallb (λ i, plain_field 4 (N.of_nat i))
            (seq 0 (N.to_nat 10000)) = true)
    as Hall by (vm_compute; reflexivity).
  rewrite forallb_forall in Hall. specialize (Hall (N.to_nat n)).
  rewrite N2Nat.id in Hall. apply Is_true_true, Hall, in_seq. lia.
Qed.

Lemma plain_field_2 n : (n ≤ 59)%N → plain_field 2 n.
Proof.
  intros Hn.
  assert (forallb (λ i, plain_field 2 (N.of_nat i))
            (seq 0 (N.to_nat 60)) = true)
    as Hall by (vm_compute; reflexivity).
  rewrite forallb_forall in Hall. specialize (Hall (N.to_nat n)).
  rewrite N2Nat.id in Hall. apply Is_true_true, Hall, in_seq. lia.
Qed.

Lemma plain_field_spec w n :
  plain_field w n →
  String.length (PyTime.dec w n) = w ∧
  PyStr.contains "+" (PyTime.dec w n) = false.
Proof.
  unfold plain_field. intros [H1 H2]%andb_True.
  split; [by apply Nat.eqb_eq, Is_true_true|].
  by apply negb_true_iff, Is_true_true.
Qed.

(** X2: for a [datetime] with fields in range, [iso_z] is the 20
    characters [YYYY-MM-DDTHH:MM:SSZ], zero-padded; the microseconds do
    not show; the first ten characters, which the manifest records as
    [version], are the date. *)
Theorem iso_z_shape dt us :
  valid_datetime dt →
  iso_z dt = iso_date dt +:+ "T" +:+ iso_time dt +:+ "Z" ∧
  String.length (iso_z dt) = 20 ∧
  PyStr.take 10 (iso_z dt) = iso_date dt ∧
  String.length (iso_date dt) = 10 ∧
  iso_z (PyTime.with_microsecond us dt) = iso_z dt.
Proof.
  unfold valid_datetime. rewrite !andb_True.
  intros (((((((((Hy1 & Hy2) & Hmo1) & Hmo2) & Hd1) & Hd2) & Hh) & Hmi) & Hs) & _).
  apply Is_true_true, N.leb_le in Hy2, Hmo2, Hd2, Hh, Hmi, Hs.
  destruct (plain_field_spec 4 (dt_year dt)) as [Ly Py];
    [apply plain_field_4; lia|].
  destruct (plain_field_spec 2 (dt_month dt)) as [Lmo Pmo];
    [apply plain_field_2; lia|].
  destruct (plain_field_spec 2 (dt_day dt)) as [Ld Pd];
    [apply plain_field_2; lia|].
  destruct (plain_field_spec 2 (dt_hour dt)) as [Lh Ph];
    [apply plain_field_2; lia|].
  destruct (plain_field_spec 2 (dt_minute dt)) as [Lmi Pmi];
    [apply plain_field_2; lia|].
  destruct (plain_field_spec 2 (dt_second dt)) as [Ls Ps];
    [apply plain_field_2; lia|].
  assert (iso_z dt = iso_date dt +:+ "T" +:+ iso_time dt +:+ "Z") as Hiso.
  { unfold iso_z, PyTime.isoformat, iso_date, iso_time. simpl.
    rewrite !string_app_assoc.
    repeat (rewrite replace_skip by done). done. }
  assert (String.length (iso_date dt) = 10) as Ldate.
  { unfold iso_date. rewrite !string_length_app, Ly, Lmo, Ld. done. }
  split_and!; [done| | |done|done].
  - rewrite Hiso, !string_length_app, Ldate. unfold iso_time.
    rewrite !string_length_app, Lh, Lmi, Ls. done.
  - rewrite Hiso, <-Ldate at 1. apply take_app_length.
Qed.

(** The sample time stamp. *)
Lemma iso_z_shape_witness :
  valid_datetime sample_time ∧
  iso_z sample_time = iso_date sample_time +:+ "T" +:+ iso_time sample_time +:+ "Z" ∧
  String.length (iso_z sample_time) = 20 ∧
  PyStr.take 10 (iso_z sample_time) = iso_date sample_time ∧
  String.length (iso_date sample_time) = 10 ∧
  iso_z (PyTime.with_microsecond 7 sample_time) = iso_z sample_time.
Proof.
  split; [vm_compute; done|].
  apply (iso_z_shape sample_time 7). vm_compute. done.
Defined.

(** *** Outcomes of the scan *)

Section ScanOutcome.
Context (sha256_digest : string → string).

(** X3: over file names of 7-bit text, [scan_pdfs] only reads the file
    system. It returns exactly when the source directory exists and holds
    at least one document (a regular [*.pdf] file with a non-empty
    identifier); it raises [FileNotFoundError] exactly when the directory
    does not exist, and [RuntimeError] when it exists without any
    document, be it that all matching files have an empty identifier. *)
Theorem scan_outcome d w :
  ascii_names (w_fs w) d →
  w_fs (scan_pdfs sha256_digest d w).2 = w_fs w ∧
  match (scan_pdfs sha256_digest d w).1 with
  | inr pdfs =>
      present_at (w_fs w) d ∧ documents (w_fs w) d ≠ [] ∧ pdfs ≠ ∅
  | inl e =>
      (¬ present_at (w_fs w) d ∧ is_FileNotFoundError e) ∨
      (present_at (w_fs w) d ∧ documents (w_fs w) d = [] ∧ is_RuntimeError e)
  end.
Proof.
  intros _. rewrite scan_pdfs_eq. case_bool_decide as Hd; [|simpl; auto].
  destruct (scan_loop_spec sha256_digest (Os.sorted_pdfs (w_fs w) d) ∅ w)
    as (m' & w1 & -> & Hfs & _ & Hk).
  destruct (decide (m' = ∅)) as [->|Hne]; simpl; (split; [done|]).
  - right. split_and!; [done| |done].
    destruct (documents (w_fs w) d) as [|q l] eqn:E; [done|exfalso].
    assert (q ∈ documents (w_fs w) d) as [[Hfile Hq] Hin]%list_elem_of_filter
      by (rewrite E; left).
    specialize (Hk (safe_iata_from_filename q)).
    rewrite !lookup_empty, decide_False in Hk by done.
    destruct (scan_first_is_Some sha256_digest (w_fs w)
                (safe_iata_from_filename q) (Os.sorted_pdfs (w_fs w) d) q)
      as [i Hi]; [by apply elem_of_sorted_pdfs|done..|].
    congruence.
  - split_and!; [done| |done]. intros Hnone.
    apply Hne, map_eq. intros k. rewrite Hk, !lookup_empty.
    case_decide as Hkne; [done|].
    destruct (scan_first sha256_digest (w_fs w) k _) as [i|] eqn:Hi; [|done].
    exfalso.
    apply scan_first_Some in Hi as (l1 & l2 & f & Hl & Hat & Hrec & Hiata & _).
    assert (PdfInfo.src_path i ∈ documents (w_fs w) d) as Hdoc.
    { apply list_elem_of_filter. split.
      - split; [unfold file_at; by rewrite Hat|].
        rewrite Hrec in Hiata. simpl in Hiata. by rewrite Hiata.
      - apply elem_of_sorted_pdfs. rewrite Hl. apply elem_of_app. right. left. }
    rewrite Hnone in Hdoc. by apply elem_of_nil in Hdoc.
Qed.

(** The scan loop accounts for every document: it is recorded or it is
    reported, and nothing else is printed. *)
Lemma scan_loop_accounts l m w m' w' :
  for_each l (scan_step sha256_digest) m w = (inr m', w') →
  ∃ lines,
    w_out w' = w_out w ++ lines ∧
    (length (filter (λ p, file_at (w_fs w) p ∧ safe_iata_from_filename p ≠ "") l)
       + size m = size m' + length lines)%nat ∧
    ∀ line, line ∈ lines →
      ∃ p i, p ∈ l ∧ file_at (w_fs w) p ∧ safe_iata_from_filename p ≠ "" ∧
             m' !! safe_iata_from_filename p = Some i ∧
             line = duplicate_warning (safe_iata_from_filename p)
                                      (PdfInfo.src_path i) p.
Proof.
  revert m w. induction l as [|p l IH]; intros m w Hrun; simpl in Hrun.
  { apply ret_inr in Hrun as [<- <-]. exists []. rewrite app_nil_r.
    split_and!; [done|simpl; lia|]. by intros ? ?%elem_of_nil. }
  apply bind_inr in Hrun as (m1 & w1 & Hp & Hrun).
  pose proof (scan_step_fs _ _ _ _ _ _ Hp) as Hfs.
  destruct (scan_loop_spec sha256_digest l m1 w1)
    as (m'' & w'' & Hrun' & _ & _ & Hfinal).
  rewrite Hrun in Hrun'. injection Hrun' as <- <-.
  apply IH in Hrun as (lines & Hout & Hcount & Hlines).
  rewrite Hfs in Hcount.
  assert (∀ line, line ∈ lines →
    ∃ q i, q ∈ p :: l ∧ file_at (w_fs w) q ∧ safe_iata_from_filename q ≠ "" ∧
           m' !! safe_iata_from_filename q = Some i ∧
           line = duplicate_warning (safe_iata_from_filename q)
                                    (PdfInfo.src_path i) q) as Htail.
  { intros line (q & i & Hq & Hfile & Hne & Hi & ->)%Hlines.
    exists q, i. rewrite Hfs in Hfile. split_and!; [by right|done..]. }
  rewrite scan_step_eq in Hp.
  destruct (Os.at_path (w_fs w) p) as [[|f]|] eqn:Hat.
  - injection Hp as <- <-. exists lines. split_and!; [done| |done].
    rewrite filter_cons_False; [done|]. unfold file_at. by rewrite Hat; intros [].
  - simpl in Hp. destruct (decide (safe_iata_from_filename p = "")) as [E|E].
    { injection Hp as <- <-. exists lines. split_and!; [done| |done].
      rewrite filter_cons_False; [done|]. by intros []. }
    rewrite filter_cons_True by (unfold file_at; by rewrite Hat).
    destruct (m !! safe_iata_from_filename p) as [kept|] eqn:Hkept.
    + injection Hp as <- <-. simpl in Hout.
      eexists (_ :: lines). split_and!.
      { rewrite Hout, <-app_assoc. done. }
      { simpl. lia. }
      intros line [->|Hline]%elem_of_cons; [|by apply Htail].
      exists p, kept. split_and!; [by left| |done| |done].
      * unfold file_at. by rewrite Hat.
      * by rewrite Hfinal, Hkept.
    + injection Hp as <- <-. exists lines. split_and!; [done| |done].
      rewrite map_size_insert_None in Hcount by done. simpl. lia.
  - injection Hp as <- <-. exists lines. split_and!; [done| |done].
    rewrite filter_cons_False; [done|]. unfold file_at. by rewrite Hat; intros [].
Qed.

(** X4: over file names of 7-bit text, a scan that returns accounts for
    every document of the source directory: the number of documents is
    the number of records plus the number of lines printed, and every
    line printed is the warning that names a document passed over and
    the file kept for its identifier. *)
Theorem scan_accounts_for_documents d w pdfs w' :
  ascii_names (w_fs w) d →
  scan_pdfs sha256_digest d w = (inr pdfs, w') →
  ∃ lines,
    w_out w' = w_out w ++ lines ∧
    length (documents (w_fs w) d) = (size pdfs + length lines)%nat ∧
    ∀ line, line ∈ lines →
      ∃ p i, p ∈ documents (w_fs w) d ∧
             pdfs !! safe_iata_from_filename p = Some i ∧
             line = duplicate_warning (safe_iata_from_filename p)
                                      (PdfInfo.src_path i) p.
Proof.
  intros _ Hrun%scan_pdfs_loop.
  apply scan_loop_accounts in Hrun as (lines & Hout & Hcount & Hlines).
  exists lines. split_and!; [done| |].
  - rewrite map_size_empty in Hcount. rewrite <-Hcount, Nat.add_0_r.
    unfold documents, Os.sorted_pdfs.
    by rewrite merge_sort_Permutation.
  - intros line (p & i & Hp & Hfile & Hne & Hi & ->)%Hlines.
    exists p, i. split_and!; [|done..].
    apply list_elem_of_filter. split; [done|].
    by apply elem_of_sorted_pdfs.
Qed.

End ScanOutcome.

Lemma scan_outcome_witness :
  ascii_names (w_fs sample_world) ["src"] ∧
  w_fs (scan_pdfs sample_digest ["src"] sample_world).2 = w_fs sample_world ∧
  match (scan_pdfs sample_digest ["src"] sample_world).1 with
  | inr pdfs =>
      present_at (w_fs sample_world) ["src"] ∧
      documents (w_fs sample_world) ["src"] ≠ [] ∧ pdfs ≠ ∅
  | inl e =>
      (¬ present_at (w_fs sample_world) ["src"] ∧ is_FileNotFoundError e) ∨
      (present_at (w_fs sample_world) ["src"] ∧
       documents (w_fs sample_world) ["src"] = [] ∧ is_RuntimeError e)
  end.
Proof.
  split; [exact sample_names_ascii|].
  exact (scan_outcome sample_digest ["src"] sample_world sample_names_ascii).
Defined.

Lemma scan_accounts_for_documents_witness :
  ascii_names (w_fs sample_world) ["src"] ∧
  scan_pdfs sample_digest ["src"] sample_world = (inr sample_pdfs, sample_scanned) ∧
  ∃ lines,
    w_out sample_scanned = w_out sample_world ++ lines ∧
    length (documents (w_fs sample_world) ["src"])
      = (size sample_pdfs + length lines)%nat ∧
    ∀ line, line ∈ lines →
      ∃ p i, p ∈ documents (w_fs sample_world) ["src"] ∧
             sample_pdfs !! safe_iata_from_filename p = Some i ∧
             line = duplicate_warning (safe_iata_from_filename p)
                                      (PdfInfo.src_path i) p.
Proof.
  split; [exact sample_names_ascii|]. split; [exact sample_scan_run|].
  exact (scan_accounts_for_documents sample_digest ["src"] sample_world
           sample_pdfs sample_scanned sample_names_ascii sample_scan_run).
Defined.


(** *** Publishing, however it ends, only adds *)


Lemma copy2_absent_any src dst w r w' :
  Os.at_path (w_fs w) dst = None →
  Os.copy2 src dst w = (r, w') → w_fs w ⊆ w_fs w'.
Proof.
  intros [_ Hnone]%at_path_None. unfold Os.copy2, bind, Os.read_file.
  destruct (Os.at_path (w_fs w) src) as [[|f]|]; try by intros [= <- <-].
  destruct (Os.at_path (w_fs w) (PyPath.parent dst)) as [[|?]|];
    intros [= <- <-]; [|done..]. simpl. by apply insert_subseteq.
Qed.

Lemma copy_pdf_any root pdf w r w' :
  copy_pdf_to_immutable_path root pdf w = (r, w') → w_fs w ⊆ w_fs w'.
Proof.
  unfold copy_pdf_to_immutable_path. intros H.
  apply bind_any in H as [(e & [Hsub _]%mkdirs_any & _)|(u & w1 & [Hsub _]%mkdirs_any & H)];
    [done|].
  apply bind_any in H as [(e & Hex & _)|(present & w2 & Hex & H)];
    unfold Os.exists_ in Hex; [done|]. injection Hex as <- <-.
  case_bool_decide as Hpres.
  - unfold ret in H. by injection H as _ <-.
  - assert (Os.at_path (w_fs w1) (PyPath.under root (immutable_rel pdf)) = None)
      as Habs.
    { destruct (Os.at_path _ _) eqn:E; [|done]. destruct Hpres. by eexists. }
    apply bind_any in H as [(e & Hc & _)|(u2 & w3 & Hc & H)].
    + etrans; [done|]. by eapply copy2_absent_any.
    + unfold ret in H. injection H as _ <-.
      etrans; [done|]. by eapply copy2_absent_any.
Qed.

Section BuildAdds.
Context (json_loads : string → option json).

Lemma template_step_any pdfs root a acc w r w' :
  template_step pdfs root a acc w = (r, w') → w_fs w ⊆ w_fs w'.
Proof.
  unfold template_step. destruct a as [| | | | | |a];
    try by (unfold ret; intros [= _ <-]).
  case_decide; [by (unfold ret; intros [= _ <-])|].
  destruct (pdfs !! template_iata a) as [pdf|].
  - intros [(e & Hc%copy_pdf_any & _)|(url & w1 & Hc%copy_pdf_any & Hr)]%bind_any;
      [done|]. unfold ret in Hr. by injection Hr as _ <-.
  - unfold bind, Os.print, ret. by intros [= _ <-].
Qed.

Lemma minimal_step_any root kv acc w r w' :
  minimal_step root kv acc w = (r, w') → w_fs w ⊆ w_fs w'.
Proof.
  unfold minimal_step. destruct kv as [k pdf].
  intros [(e & Hc%copy_pdf_any & _)|(url & w1 & Hc%copy_pdf_any & H)]%bind_any;
    [done|]. unfold ret in H. by injection H as _ <-.
Qed.

Lemma load_json_any path w r w' :
  load_json json_loads path w = (r, w') → w' = w.
Proof.
  unfold load_json, bind, Os.read_file, ret, raise.
  destruct (Os.at_path (w_fs w) path) as [[|f]|]; try by intros [= _ <-].
  destruct (PyStr.utf8_valid (f_bytes f)); simpl; [|by intros [= _ <-]].
  destruct (json_loads (f_bytes f)); by intros [= _ <-].
Qed.

(** X5: whether [build_manifest] returns or raises, every file and
    directory that was in the file system is still there, unchanged:
    building only adds directories and copies, and in particular never
    alters a source file or a copy published earlier. *)
Theorem build_only_adds pdfs root base tpl w :
  w_fs w ⊆ w_fs (build_manifest json_loads pdfs root base tpl w).2.
Proof.
  destruct (build_manifest json_loads pdfs root base tpl w) as [r w'] eqn:H.
  simpl. unfold build_manifest in H.
  apply bind_any in H as [(e & Hnow & _)|(now & w1 & Hnow & H)];
    unfold Os.now in Hnow; [done|]. injection Hnow as <- <-.
  set (w0 := mk_world (w_fs w) (w_out w) (S (w_tick w)) (w_clock w)) in *.
  change (w_fs w) with (w_fs w0).
  assert (∀ l r1 w1,
    for_each l (template_step pdfs root) [] w0 = (r1, w1) →
    w_fs w0 ⊆ w_fs w1) as Htl.
  { intros l r1 w1 Hl.
    apply (for_each_any (λ w2, w_fs w0 ⊆ w_fs w2)) in Hl; [done|done|].
    intros x s1 wa r2 wb _ Hsub Hs%template_step_any. by etrans. }
  assert (∀ l r1 w1,
    for_each l (minimal_step root) [] w0 = (r1, w1) →
    w_fs w0 ⊆ w_fs w1) as Hml.
  { intros l r1 w1 Hl.
    apply (for_each_any (λ w2, w_fs w0 ⊆ w_fs w2)) in Hl; [done|done|].
    intros x s1 wa r2 wb _ Hsub Hs%minimal_step_any. by etrans. }
  assert (∀ r1 w1,
    match tpl with
    | Some path =>
        bind (load_json json_loads path) (λ template,
          match template with
          | JDict template =>
              match PyDict.get "airports" template with
              | Some (JList template_airports) =>
                  for_each template_airports (template_step pdfs root) []
              | _ => raise (ValueError
                       "Template manifest must contain an 'airports' array.")
              end
          | v => raise (AttributeError
                   ("'" +:+ PyRepr.type_name v +:+
                    "' object has no attribute 'get'"))
          end)
    | None => for_each (items_by_key pdfs) (minimal_step root) []
    end w0 = (r1, w1) → w_fs w0 ⊆ w_fs w1) as Hloop.
  { intros r1 w1 Hrun. destruct tpl as [path|]; [|by eapply Hml].
    apply bind_any in Hrun
      as [(e & ->%load_json_any & _)|(t & w3 & ->%load_json_any & Hrun)];
      [done|].
    destruct t as [| | | | | |t];
      try by (unfold raise in Hrun; injection Hrun as _ <-).
    destruct (PyDict.get "airports" t) as [[| | | | |l|]|];
      try by (unfold raise in Hrun; injection Hrun as _ <-).
    by eapply Htl. }
  apply bind_any in H as [(e & Hrun & _)|(entries & w2 & Hrun & H)].
  - by eapply Hloop.
  - unfold ret in H. injection H as _ <-. by eapply Hloop.
Qed.

End BuildAdds.

(** *** Copies *)

Lemma mkdir1_dir p u w u' w' :
  Os.mkdir1 p u w = (inr u', w') → Os.at_path (w_fs w') p = Some NDir.
Proof.
  unfold Os.mkdir1. destruct (Os.at_path (w_fs w) p) as [[|f]|] eqn:E;
    intros [= <- <-]; [done|]. simpl.
  apply at_path_insert. by apply at_path_None in E as [? _].
Qed.

Lemma mkdirs_dirs l w u w' :
  for_each l Os.mkdir1 () w = (inr u, w') →
  ∀ q, q ∈ l → Os.at_path (w_fs w') q = Some NDir.
Proof.
  revert w. induction l as [|x l IH]; intros w H q Hq; simpl in H.
  { by apply elem_of_nil in Hq. }
  apply bind_inr in H as ([] & w1 & Hx & H).
  apply elem_of_cons in Hq as [->|Hq]; [|by eapply IH].
  apply mkdirs_any in H as [Hsub _].
  eapply at_path_weaken; [done|]. by eapply mkdir1_dir.
Qed.

Lemma mkdirs_noop l w :
  (∀ q, q ∈ l → Os.at_path (w_fs w) q = Some NDir) →
  for_each l Os.mkdir1 () w = (inr (), w).
Proof.
  induction l as [|x l IH]; intros Hl; simpl; [done|].
  unfold bind, Os.mkdir1. rewrite Hl by left.
  apply IH. intros q Hq. apply Hl. by right.
Qed.

(** X6: publishing a record a second time changes nothing: once
    [copy_pdf_to_immutable_path] has returned, calling it again in the
    world it left returns the same URL and leaves that world as it is. *)
Theorem copy_is_idempotent root pdf w url w1 :
  copy_pdf_to_immutable_path root pdf w = (inr url, w1) →
  copy_pdf_to_immutable_path root pdf w1 = (inr url, w1).
Proof.
  unfold copy_pdf_to_immutable_path. intros H.
  apply bind_inr in H as (u & wa & Hmk & H).
  pose proof (mkdirs_dirs _ _ _ _ Hmk) as Hdirs.
  apply bind_inr in H as (present & wb & Hex & H).
  unfold Os.exists_ in Hex. injection Hex as <- <-.
  set (dst := PyPath.under root (immutable_rel pdf)) in *.
  assert (w_fs wa ⊆ w_fs w1 ∧ is_Some (Os.at_path (w_fs w1) dst) ∧
          url = PyPath.as_posix (immutable_rel pdf)) as (Hsub & Hpres & ->).
  { case_bool_decide as Hpres.
    - apply ret_inr in H as [<- <-]. done.
    - apply bind_inr in H as (u2 & wc & Hcopy & H).
      apply ret_inr in H as [<- <-].
      assert (Os.at_path (w_fs wa) dst = None) as Habs.
      { destruct (Os.at_path _ _) eqn:E; [|done]. destruct Hpres. by eexists. }
      split_and!; [by eapply copy2_absent_any| |done].
      unfold Os.copy2, bind, Os.read_file in Hcopy.
      destruct (Os.at_path (w_fs wa) (PdfInfo.src_path pdf)) as [[|f]|];
        try done.
      destruct (Os.at_path (w_fs wa) (PyPath.parent dst)) as [[|?]|];
        try done.
      injection Hcopy as _ <-. simpl. eexists. apply at_path_insert.
      by apply at_path_None in Habs as [? _]. }
  unfold bind, Os.mkdir_parents. rewrite mkdirs_noop.
  - unfold Os.exists_. simpl. by rewrite bool_decide_eq_true_2.
  - intros q Hq. eapply at_path_weaken; [done|]. by apply Hdirs.
Qed.


(** Making the parents of a path without double dots does not touch the
    path itself. *)
Lemma mkdir_parents_keeps p w r w' :
  ".." ∉ p → p ≠ [] →
  Os.mkdir_parents (PyPath.parent p) w = (r, w') →
  w_fs w' !! p = w_fs w !! p.
Proof.
  intros Hdd Hne [_ Hframe]%mkdirs_any. apply Hframe.
  intros q [Hq [rest Hrest]]%ancestors_prefix.
  pose proof (removelast_prefix p) as [rest' Hp].
  pose proof (removelast_shorter p Hne) as Hlen.
  unfold PyPath.parent in Hrest.
  rewrite norm_plain.
  - intros ->. rewrite Hrest, length_app in Hlen. lia.
  - intros Hin. apply Hdd. rewrite Hp, Hrest.
    apply elem_of_app. left. apply elem_of_app. by left.
Qed.

(** X7: when nothing is at the destination, and the destination has no
    double-dot component, a copy that returns puts there a regular file
    with the bytes and the modification time of the source, as
    [shutil.copy2] does; the source is still in place and every ancestor
    of the destination is a directory. *)
Theorem copy_to_fresh_destination root pdf w url w1 f :
  ".." ∉ immutable_dst root pdf →
  Os.at_path (w_fs w) (immutable_dst root pdf) = None →
  Os.at_path (w_fs w) (PdfInfo.src_path pdf) = Some (NFile f) →
  copy_pdf_to_immutable_path root pdf w = (inr url, w1) →
  w_fs w1 !! immutable_dst root pdf = Some (NFile f) ∧
  Os.at_path (w_fs w1) (PdfInfo.src_path pdf) = Some (NFile f) ∧
  ∀ q, q ∈ Os.ancestors_and_self (PyPath.parent (immutable_dst root pdf)) →
       Os.at_path (w_fs w1) q = Some NDir.
Proof.
  unfold copy_pdf_to_immutable_path, immutable_dst.
  set (dst := PyPath.under root (immutable_rel pdf)).
  intros Hdd Habs Hsrc H.
  assert (dst ≠ []) as Hne.
  { intros E. rewrite E in Habs. done. }
  pose proof Habs as [_ Hnone]%at_path_None.
  rewrite norm_plain in Hnone by done.
  apply bind_inr in H as (u & wa & Hmk & H).
  pose proof (mkdirs_dirs _ _ _ _ Hmk) as Hdirs.
  pose proof (mkdir_parents_keeps _ _ _ _ Hdd Hne Hmk) as Hkeep.
  pose proof Hmk as [Hsub _]%mkdirs_any.
  apply bind_inr in H as (present & wb & Hex & H).
  unfold Os.exists_ in Hex. injection Hex as <- <-.
  assert (Os.at_path (w_fs wa) dst = None) as Habs'.
  { unfold Os.at_path. rewrite norm_plain by done.
    destruct dst; [done|]. by rewrite Hkeep. }
  rewrite bool_decide_eq_false_2 in H by (rewrite Habs'; by intros [? ?]).
  apply bind_inr in H as (u2 & wc & Hcopy & H).
  apply ret_inr in H as [_ <-].
  pose proof (copy2_absent_any _ _ _ _ _ Habs' Hcopy) as Hsub'.
  unfold Os.copy2, bind, Os.read_file in Hcopy.
  rewrite (at_path_weaken _ _ _ _ Hsub Hsrc) in Hcopy.
  destruct (Os.at_path (w_fs wa) (PyPath.parent dst)) as [[|?]|]; try done.
  injection Hcopy as _ <-. simpl in *. split_and!.
  - rewrite norm_plain by done. apply lookup_insert_eq.
  - eapply at_path_weaken; [exact Hsub'|]. by eapply at_path_weaken.
  - intros q Hq. eapply at_path_weaken; [exact Hsub'|]. by apply Hdirs.
Qed.

Lemma copy_is_idempotent_witness :
  copy_pdf_to_immutable_path ["site"] jfk_record jfk_world
    = (inr ("pdfs/JFK/" +:+ sha256_of_empty +:+ ".pdf"),
       (copy_pdf_to_immutable_path ["site"] jfk_record jfk_world).2) ∧
  copy_pdf_to_immutable_path ["site"] jfk_record
      (copy_pdf_to_immutable_path ["site"] jfk_record jfk_world).2
    = (inr ("pdfs/JFK/" +:+ sha256_of_empty +:+ ".pdf"),
       (copy_pdf_to_immutable_path ["site"] jfk_record jfk_world).2).
Proof.
  assert (copy_pdf_to_immutable_path ["site"] jfk_record jfk_world
    = (inr ("pdfs/JFK/" +:+ sha256_of_empty +:+ ".pdf"),
       (copy_pdf_to_immutable_path ["site"] jfk_record jfk_world).2)) as H.
  { apply run_result. vm_compute. reflexivity. }
  split; [exact H|].
  exact (copy_is_idempotent ["site"] jfk_record jfk_world _ _ H).
Defined.

Lemma copy_to_fresh_destination_witness :
  w_fs (copy_pdf_to_immutable_path ["site"] jfk_record jfk_world).2
    !! immutable_dst ["site"] jfk_record
    = Some (NFile (mk_file "" sample_time)) ∧
  Os.at_path (w_fs (copy_pdf_to_immutable_path ["site"] jfk_record jfk_world).2)
    (PdfInfo.src_path jfk_record) = Some (NFile (mk_file "" sample_time)) ∧
  ∀ q, q ∈ Os.ancestors_and_self (PyPath.parent (immutable_dst ["site"] jfk_record)) →
       Os.at_path (w_fs (copy_pdf_to_immutable_path ["site"] jfk_record jfk_world).2)
         q = Some NDir.
Proof.
  apply (copy_to_fresh_destination ["site"] jfk_record jfk_world
           ("pdfs/JFK/" +:+ sha256_of_empty +:+ ".pdf")
           (copy_pdf_to_immutable_path ["site"] jfk_record jfk_world).2
           (mk_file "" sample_time)).
  - apply (bool_decide_unpack _). vm_compute. exact I.
  - vm_compute. reflexivity.
  - vm_compute. reflexivity.
  - apply run_result. vm_compute. reflexivity.
Defined.

(** *** The manifest as a document *)

Section Manifest.
Context (sha256_digest : string → string) (json_loads : string → option json).

(** Every entry of a manifest names a scanned record and carries the
    fields the viewer decodes. *)
Lemma manifest_entry_layout pdfs root base tpl w m w2 e :
  build_manifest json_loads pdfs root base tpl w = (inr m, w2) →
  e ∈ airports_of m →
  ∃ k pdf,
    pdfs !! k = Some pdf ∧
    field "iata" e = Some (JStr k) ∧
    is_Some (field "icao" e) ∧ is_Some (field "name" e) ∧
    is_Some (field "city" e) ∧
    field "pdf" e = Some (pdf_block (PyPath.as_posix (immutable_rel pdf)) pdf).
Proof.
  intros (entries & -> & _ & Htpl)%build_manifest_spec.
  rewrite airports_of_manifest. intros He. destruct tpl as [path|].
  - destruct Htpl as (l & _ & -> & _).
    apply list_elem_of_omap in He as (a & _ & Hm).
    apply merged_entry_Some in Hm as (a' & pdf & -> & Hne & Hpdf & ->).
    exists (template_iata a'), pdf.
    rewrite !merged_entry_field, !normalize_airport_dict_get. simpl.
    split_and!; [done|done| | | |done];
      by destruct (PyDict.get _ a').
  - destruct Htpl as (-> & _).
    apply list_elem_of_fmap in He as ([k pdf] & -> & Hkv).
    pose proof Hkv as Hi%elem_of_items_by_key. simpl in Hi.
    exists k, pdf. simpl. split_and!; try done; by eexists.
Qed.

(** X8: the manifest of a build that returns has the layout the viewer
    decodes: [schemaVersion] 1, [generatedAt] the clock reading taken at
    the start of the build, and an [airports] list whose every entry has
    a string [iata] naming a scanned record, the fields [icao], [name] and
    [city], and a [pdf] object with the URL of the record and its
    [sha256], [size], [updatedAt] and [version]. *)
Theorem manifest_layout pdfs root base tpl w m w2 :
  build_manifest json_loads pdfs root base tpl w = (inr m, w2) →
  field "schemaVersion" m = Some (JInt 1) ∧
  field "generatedAt" m = Some (JStr (iso_z (w_clock w (w_tick w)))) ∧
  field "airports" m = Some (JList (airports_of m)) ∧
  ∀ e, e ∈ airports_of m →
    ∃ k pdf,
      pdfs !! k = Some pdf ∧
      field "iata" e = Some (JStr k) ∧
      is_Some (field "icao" e) ∧ is_Some (field "name" e) ∧
      is_Some (field "city" e) ∧
      field "pdf" e =
        Some (JDict [("url", JStr (PyPath.as_posix (immutable_rel pdf)));
                     ("sha256", JStr (PdfInfo.sha256 pdf));
                     ("size", JInt (PdfInfo.size pdf));
                     ("updatedAt", JStr (iso_z (PdfInfo.mtime pdf)));
                     ("version",
                      JStr (PyStr.take 10 (iso_z (PdfInfo.mtime pdf))))]).
Proof.
  intros Hbuild.
  pose proof Hbuild as (entries & Hm & _)%build_manifest_spec.
  assert (∀ k, k ≠ "baseURL" →
    field k (JDict (manifest_fields (w_clock w (w_tick w)) entries base)) =
    PyDict.get k [("schemaVersion", JInt SCHEMA_VERSION);
                  ("generatedAt", JStr (iso_z (w_clock w (w_tick w))));
                  ("airports", JList entries)]) as Hfield.
  { intros k Hk. unfold manifest_fields. destruct base as [url|]; [|done].
    case_decide; [done|]. cbn [field]. rewrite dict_get_set.
    by rewrite decide_False. }
  split_and!.
  - by rewrite Hm, Hfield.
  - by rewrite Hm, Hfield.
  - rewrite Hm, airports_of_manifest. by rewrite Hfield.
  - intros e He.
    destruct (manifest_entry_layout _ _ _ _ _ _ _ _ Hbuild He)
      as (k & pdf & ? & ? & ? & ? & ? & ?).
    by exists k, pdf.
Qed.

(** X9: for file names and template identifiers of 7-bit text, the [pdf]
    object of every entry describes a document that was in the source
    directory when it was scanned: the checksum is the hex digest of its
    bytes, the size their number, [updatedAt] its modification time and
    [version] the date part of that time. *)
Theorem manifest_describes_documents d root base tpl w pdfs w1 m w2 :
  ascii_names (w_fs w) d →
  ascii_template json_loads (w_fs w) tpl →
  scan_pdfs sha256_digest d w = (inr pdfs, w1) →
  build_manifest json_loads pdfs root base tpl w1 = (inr m, w2) →
  ∀ e, e ∈ airports_of m →
    ∃ p f blk,
      p ∈ documents (w_fs w) d ∧
      Os.at_path (w_fs w) p = Some (NFile f) ∧
      field "iata" e = Some (JStr (safe_iata_from_filename p)) ∧
      field "pdf" e = Some blk ∧
      field "sha256" blk = Some (JStr (PyStr.hex (sha256_digest (f_bytes f)))) ∧
      field "size" blk = Some (JInt (Z.of_nat (String.length (f_bytes f)))) ∧
      field "updatedAt" blk = Some (JStr (iso_z (f_mtime f))) ∧
      field "version" blk = Some (JStr (PyStr.take 10 (iso_z (f_mtime f)))).
Proof.
  intros _ _ Hscan Hbuild e He.
  destruct (manifest_entry_layout _ _ _ _ _ _ _ _ Hbuild He)
    as (k & pdf & Hpdf & Hiata & _ & _ & _ & Hblk).
  destruct (scan_pdfs_record _ _ _ _ _ _ _ Hscan Hpdf)
    as (Hne & Hk & Hsrc & f & Hat & Hrec).
  assert (k = safe_iata_from_filename (PdfInfo.src_path pdf)) as Hkp.
  { rewrite <-Hk. by rewrite Hrec at 1. }
  exists (PdfInfo.src_path pdf), f. eexists. split_and!; [|done| |done|..].
  - apply list_elem_of_filter. split; [|done]. split.
    + unfold file_at. by rewrite Hat.
    + by rewrite <-Hkp.
  - by rewrite Hiata, Hkp.
  - by rewrite Hrec.
  - by rewrite Hrec.
  - by rewrite Hrec.
  - by rewrite Hrec.
Qed.

(** The template loop prints one warning for each object of the list
    whose identifier is not empty and has no record, in the order of the
    list, and nothing else. *)
Lemma template_loop_prints pdfs root l acc w out w' :
  for_each l (template_step pdfs root) acc w = (inr out, w') →
  w_out w' = w_out w ++
    (missing_pdf_warning <$>
       filter (λ k, k ≠ "" ∧ pdfs !! k = None) (template_ids l)).
Proof.
  revert acc w. induction l as [|x l IH]; intros acc w H; simpl in H.
  - apply ret_inr in H as [_ <-]. by rewrite app_nil_r.
  - apply bind_inr in H as (acc1 & w1 & Hx & H). apply IH in H as ->.
    destruct x as [| | | | | |a]; try (apply ret_inr in Hx as [_ <-]; done).
    unfold template_ids. csimpl. fold (template_ids l).
    rewrite filter_cons. simpl in Hx.
    destruct (decide (template_iata a = "")) as [E|E].
    { apply ret_inr in Hx as [_ <-].
      rewrite decide_False by (by intros [? _]). done. }
    destruct (pdfs !! template_iata a) as [pdf|] eqn:Hpdf.
    + apply bind_inr in Hx as (url & w2 & Hout%copy_pdf_out & Hx).
      apply ret_inr in Hx as [_ <-]. rewrite Hout.
      rewrite decide_False by (by intros [_ ?]). done.
    + unfold bind, Os.print, ret in Hx. injection Hx as _ <-. simpl.
      rewrite decide_True by done. by rewrite fmap_cons, <-app_assoc.
Qed.

Lemma minimal_loop_prints root l acc w out w' :
  for_each l (minimal_step root) acc w = (inr out, w') → w_out w' = w_out w.
Proof.
  intros H.
  apply (for_each_ind (λ _ w1, w_out w1 = w_out w) _ _ _ _ _ _ H); [done|].
  intros [k pdf] s1 w1 s2 w2 _ <- Hx. simpl in Hx.
  apply bind_inr in Hx as (url & w3 & Hout%copy_pdf_out & Hx).
  apply ret_inr in Hx as [_ <-]. done.
Qed.

(** X10: what a build that returns prints.  Without a template it
    prints nothing.  With one, whose identifiers are 7-bit text, it
    prints exactly one warning for each object of the template's list
    whose normalized identifier is not empty and has no scanned record,
    in the order of the list and as often as the identifier occurs. *)
Theorem build_prints_missing_only pdfs root base tpl w m w2 :
  ascii_template json_loads (w_fs w) tpl →
  build_manifest json_loads pdfs root base tpl w = (inr m, w2) →
  match tpl with
  | None => w_out w2 = w_out w
  | Some path =>
      ∃ l, template_airports json_loads (w_fs w) path l ∧
           w_out w2 = w_out w ++
             (missing_pdf_warning <$>
                filter (λ k, k ≠ "" ∧ pdfs !! k = None) (template_ids l))
  end.
Proof.
  intros _. destruct tpl as [path|].
  - intros (l & entries & w1 & Hl & <- & Hrun)%build_manifest_template_run.
    exists l. split; [done|]. by eapply template_loop_prints.
  - unfold build_manifest. intros H.
    apply bind_inr in H as (now & w1 & Hnow & H).
    unfold Os.now in Hnow. injection Hnow as <- <-.
    apply bind_inr in H as (entries & w3 & Hloop & H).
    apply ret_inr in H as [_ <-].
    by apply minimal_loop_prints in Hloop.
Qed.


(** Assigning to a key the value it has, and giving a default to a key
    that is present, leave a dictionary as it is. *)
Lemma dict_set_same {V} k (v : V) d :
  PyDict.get k d = Some v → PyDict.set k v d = d.
Proof.
  induction d as [|[k' v'] d IH]; simpl; [done|].
  case_decide; [by intros [= ->]|]. intros Hd. by rewrite IH.
Qed.

Lemma dict_setdefault_same {V} k (v : V) d :
  is_Some (PyDict.get k d) → PyDict.setdefault k v d = d.
Proof. unfold PyDict.setdefault. by intros [x ->]. Qed.

(** An entry laid out as the build lays entries out is the entry the
    template loop makes of it. *)
Lemma merged_entry_fixed pdfs e k pdf :
  field "iata" e = Some (JStr k) →
  PyStr.upper (PyStr.strip k) = k → k ≠ "" →
  pdfs !! k = Some pdf →
  is_Some (field "icao" e) → is_Some (field "name" e) →
  is_Some (field "city" e) →
  field "pdf" e = Some (pdf_block (PyPath.as_posix (immutable_rel pdf)) pdf) →
  merged_entry pdfs e = Some e.
Proof.
  destruct e as [| | | | | |a]; try done. simpl.
  intros Hiata Hnorm Hne Hpdf Hicao Hname Hcity Hblk.
  assert (template_iata a = k) as Hk.
  { unfold template_iata. by rewrite Hiata. }
  rewrite Hk, decide_False by done. rewrite Hpdf. simpl.
  unfold normalize_airport_dict.
  rewrite (dict_set_same "iata") by done.
  rewrite (dict_setdefault_same "icao") by done.
  rewrite (dict_setdefault_same "name") by done.
  rewrite (dict_setdefault_same "city") by done.
  by rewrite dict_set_same.
Qed.

Lemma omap_fixed {A} (f : A → option A) (l : list A) :
  (∀ x, x ∈ l → f x = Some x) → omap f l = l.
Proof.
  induction l as [|x l IH]; intros Hf; csimpl; [done|].
  rewrite Hf by left. simpl. rewrite IH; [done|].
  intros y Hy. apply Hf. by right.
Qed.

Lemma filter_none {A} (P : A → Prop) `{∀ x, Decision (P x)} (l : list A) :
  (∀ x, x ∈ l → ¬ P x) → filter P l = [].
Proof.
  induction l as [|x l IH]; intros H'; [done|].
  rewrite filter_cons, decide_False by (apply H'; left).
  apply IH. intros y Hy. apply H'. by right.
Qed.

(** X11: for file names and template identifiers of 7-bit text, a
    manifest the script built is a template for itself.  When the
    template file of a later build over the same scanned records decodes
    to that manifest, the later build lists the same entries in the same
    order and prints no warning. *)
Theorem manifest_is_a_template
    d root base tpl w0 pdfs w m w1 base' path w2 f m' w3 :
  ascii_names (w_fs w0) d →
  ascii_template json_loads (w_fs w0) tpl →
  scan_pdfs sha256_digest d w0 = (inr pdfs, w) →
  build_manifest json_loads pdfs root base tpl w = (inr m, w1) →
  Os.at_path (w_fs w2) path = Some (NFile f) →
  json_loads (f_bytes f) = Some m →
  build_manifest json_loads pdfs root base' (Some path) w2 = (inr m', w3) →
  airports_of m' = airports_of m ∧ w_out w3 = w_out w2.
Proof.
  intros _ _ Hscan Hbuild Hat Hloads Hagain.
  assert (∀ e, e ∈ airports_of m →
     merged_entry pdfs e = Some e ∧
     ∃ a, e = JDict a ∧ is_Some (pdfs !! template_iata a)) as Hfix.
  { intros e He.
    destruct (manifest_entry_layout _ _ _ _ _ _ _ _ Hbuild He)
      as (k & pdf & Hpdf & Hiata & Hicao & Hname & Hcity & Hblk).
    destruct (scan_pdfs_record _ _ _ _ _ _ _ Hscan Hpdf)
      as (Hne & Hk & _ & g & _ & Hrec).
    assert (PyStr.upper (PyStr.strip k) = k) as Hnorm.
    { rewrite <-Hk. rewrite Hrec at 1 2. simpl. apply normalize_idem. }
    split; [by eapply merged_entry_fixed|].
    destruct e as [| | | | | |a]; try done. exists a. split; [done|].
    unfold template_iata. simpl in Hiata. rewrite Hiata. simpl.
    rewrite Hnorm. by eexists. }
  assert (∀ l, template_airports json_loads (w_fs w2) path l →
               l = airports_of m) as Hl.
  { intros l (f' & t & Hat' & _ & Hloads' & Hget).
    rewrite Hat in Hat'. injection Hat' as <-.
    rewrite Hloads in Hloads'. injection Hloads' as ->.
    simpl. by rewrite Hget. }
  split.
  - apply build_manifest_spec in Hagain as (entries & -> & _ & l & Hl' & -> & _).
    rewrite airports_of_manifest, (Hl _ Hl').
    apply omap_fixed. intros e He. by apply Hfix.
  - apply build_manifest_template_run in Hagain
      as (l & entries & w4 & Hl' & <- & Hrun).
    rewrite (template_loop_prints _ _ _ _ _ _ _ Hrun), (Hl _ Hl').
    rewrite filter_none; [by rewrite app_nil_r|].
    intros k Hk [_ Hnone].
    apply list_elem_of_omap in Hk as (e & He & Hk).
    destruct (Hfix e He) as (_ & a & -> & [pdf Hpdf]).
    injection Hk as <-. congruence.
Qed.


End Manifest.

(** The sample template names SFO, which has no document. *)
Lemma build_prints_missing_only_witness :
  ascii_template sample_loads (w_fs sample_scanned)
    (Some ["tpl"; "manifest_template.json"]) ∧
  build_manifest sample_loads sample_pdfs ["site"] None
      (Some ["tpl"; "manifest_template.json"]) sample_scanned
    = (inr (sample_manifest None (Some ["tpl"; "manifest_template.json"])),
       sample_built None (Some ["tpl"; "manifest_template.json"])) ∧
  ∃ l, template_airports sample_loads (w_fs sample_scanned)
         ["tpl"; "manifest_template.json"] l ∧
       w_out (sample_built None (Some ["tpl"; "manifest_template.json"]))
         = w_out sample_scanned ++
             (missing_pdf_warning <$>
                filter (λ k, k ≠ "" ∧ sample_pdfs !! k = None) (template_ids l)).
Proof.
  assert (build_manifest sample_loads sample_pdfs ["site"] None
      (Some ["tpl"; "manifest_template.json"]) sample_scanned
    = (inr (sample_manifest None (Some ["tpl"; "manifest_template.json"])),
       sample_built None (Some ["tpl"; "manifest_template.json"]))) as H.
  { apply sample_build_run. vm_compute. reflexivity. }
  assert (ascii_template sample_loads (w_fs sample_scanned)
            (Some ["tpl"; "manifest_template.json"])) as Hascii.
  { exact (ascii_template_of _ _ _ _ sample_template_airports
             sample_ids_ascii). }
  split; [exact Hascii|]. split; [exact H|].
  exact (build_prints_missing_only sample_loads sample_pdfs ["site"] None
           (Some ["tpl"; "manifest_template.json"]) sample_scanned _ _
           Hascii H).
Defined.

(** The sample build without a template. *)
Lemma manifest_layout_witness :
  build_manifest sample_loads sample_pdfs ["site"] None None sample_scanned
    = (inr (sample_manifest None None), sample_built None None) ∧
  field "schemaVersion" (sample_manifest None None) = Some (JInt 1) ∧
  field "generatedAt" (sample_manifest None None)
    = Some (JStr (iso_z (w_clock sample_scanned (w_tick sample_scanned)))) ∧
  field "airports" (sample_manifest None None)
    = Some (JList (airports_of (sample_manifest None None))) ∧
  ∀ e, e ∈ airports_of (sample_manifest None None) →
    ∃ k pdf,
      sample_pdfs !! k = Some pdf ∧
      field "iata" e = Some (JStr k) ∧
      is_Some (field "icao" e) ∧ is_Some (field "name" e) ∧
      is_Some (field "city" e) ∧
      field "pdf" e =
        Some (JDict [("url", JStr (PyPath.as_posix (immutable_rel pdf)));
                     ("sha256", JStr (PdfInfo.sha256 pdf));
                     ("size", JInt (PdfInfo.size pdf));
                     ("updatedAt", JStr (iso_z (PdfInfo.mtime pdf)));
                     ("version",
                      JStr (PyStr.take 10 (iso_z (PdfInfo.mtime pdf))))]).
Proof.
  assert (build_manifest sample_loads sample_pdfs ["site"] None None
            sample_scanned
          = (inr (sample_manifest None None), sample_built None None)) as H.
  { apply sample_build_run. vm_compute. reflexivity. }
  split; [exact H|].
  exact (manifest_layout sample_loads sample_pdfs ["site"] None None
           sample_scanned _ _ H).
Defined.

(** The sample scan followed by the sample build with the template. *)
Lemma manifest_describes_documents_witness :
  ascii_names (w_fs sample_world) ["src"] ∧
  ascii_template sample_loads (w_fs sample_world)
    (Some ["tpl"; "manifest_template.json"]) ∧
  scan_pdfs sample_digest ["src"] sample_world
    = (inr sample_pdfs, sample_scanned) ∧
  build_manifest sample_loads sample_pdfs ["site"] None
      (Some ["tpl"; "manifest_template.json"]) sample_scanned
    = (inr (sample_manifest None (Some ["tpl"; "manifest_template.json"])),
       sample_built None (Some ["tpl"; "manifest_template.json"])) ∧
  ∀ e, e ∈ airports_of
             (sample_manifest None (Some ["tpl"; "manifest_template.json"])) →
    ∃ p f blk,
      p ∈ documents (w_fs sample_world) ["src"] ∧
      Os.at_path (w_fs sample_world) p = Some (NFile f) ∧
      field "iata" e = Some (JStr (safe_iata_from_filename p)) ∧
      field "pdf" e = Some blk ∧
      field "sha256" blk = Some (JStr (PyStr.hex (sample_digest (f_bytes f)))) ∧
      field "size" blk = Some (JInt (Z.of_nat (String.length (f_bytes f)))) ∧
      field "updatedAt" blk = Some (JStr (iso_z (f_mtime f))) ∧
      field "version" blk = Some (JStr (PyStr.take 10 (iso_z (f_mtime f)))).
Proof.
  assert (build_manifest sample_loads sample_pdfs ["site"] None
      (Some ["tpl"; "manifest_template.json"]) sample_scanned
    = (inr (sample_manifest None (Some ["tpl"; "manifest_template.json"])),
       sample_built None (Some ["tpl"; "manifest_template.json"]))) as Hbuild.
  { apply sample_build_run. vm_compute. reflexivity. }
  assert (ascii_template sample_loads (w_fs sample_world)
            (Some ["tpl"; "manifest_template.json"])) as Hascii.
  { exact (ascii_template_of _ _ _ _ sample_template_airports_before
             sample_ids_ascii). }
  split; [exact sample_names_ascii|]. split; [exact Hascii|].
  split; [exact sample_scan_run|]. split; [exact Hbuild|].
  exact (manifest_describes_documents sample_digest sample_loads ["src"]
           ["site"] None (Some ["tpl"; "manifest_template.json"])
           sample_world sample_pdfs sample_scanned _ _
           sample_names_ascii Hascii sample_scan_run Hbuild).
Defined.

(** The sample manifest built without a template, used as the template
    of a second build. *)
Lemma manifest_is_a_template_witness :
  ascii_names (w_fs sample_world) ["src"] ∧
  scan_pdfs sample_digest ["src"] sample_world
    = (inr sample_pdfs, sample_scanned) ∧
  build_manifest manifest_loads sample_pdfs ["site"] None None sample_scanned
    = (inr (sample_manifest None None), sample_built None None) ∧
  Os.at_path (w_fs republished_world) ["site"; "manifest.json"]
    = Some (NFile (mk_file "manifest" sample_time)) ∧
  manifest_loads (f_bytes (mk_file "manifest" sample_time))
    = Some (sample_manifest None None) ∧
  build_manifest manifest_loads sample_pdfs ["site"] None
      (Some ["site"; "manifest.json"]) republished_world
    = (inr republished_manifest, republished_built) ∧
  airports_of republished_manifest = airports_of (sample_manifest None None) ∧
  w_out republished_built = w_out republished_world.
Proof.
  assert (build_manifest manifest_loads sample_pdfs ["site"] None None
            sample_scanned
          = (inr (sample_manifest None None), sample_built None None))
    as Hbuild.
  { apply (sample_build_run manifest_loads). vm_compute. reflexivity. }
  assert (Os.at_path (w_fs republished_world) ["site"; "manifest.json"]
            = Some (NFile (mk_file "manifest" sample_time))) as Hat.
  { vm_compute. reflexivity. }
  assert (manifest_loads (f_bytes (mk_file "manifest" sample_time))
            = Some (sample_manifest None None)) as Hloads.
  { reflexivity. }
  assert (build_manifest manifest_loads sample_pdfs ["site"] None
      (Some ["site"; "manifest.json"]) republished_world
    = (inr republished_manifest, republished_built)) as Hagain.
  { apply (run_returned (build_manifest manifest_loads sample_pdfs ["site"]
                           None (Some ["site"; "manifest.json"]))
             republished_world JNull).
    vm_compute. reflexivity. }
  split; [exact sample_names_ascii|]. split; [exact sample_scan_run|].
  do 4 (split; [eassumption|]).
  exact (manifest_is_a_template sample_digest manifest_loads ["src"] ["site"]
           None None sample_world sample_pdfs sample_scanned _ _ None
           ["site"; "manifest.json"] republished_world _ _ _
           sample_names_ascii (ascii_template_none _ _)
           sample_scan_run Hbuild Hat Hloads Hagain).
Defined.


(** *** Templates that cannot be used *)

Section BadTemplate.
Context (sha256_digest : string → string) (json_loads : string → option json)
        (json_dumps : json → string).



End BadTemplate.


(** *** Writing a manifest file *)

Lemma substring_all s : substring 0 (String.length s) s = s.
Proof. induction s as [|a s IH]; simpl; [done|]. by rewrite IH. Qed.

Lemma take_drop i s : PyStr.take i s +:+ PyStr.drop i s = s.
Proof.
  unfold PyStr.take, PyStr.drop. revert i.
  induction s as [|a s IH]; intros [|i]; simpl; try done.
  - change ("" +:+ ?x) with x. by rewrite substring_all.
  - change (String a ?x +:+ ?y) with (String a (x +:+ y)). by rewrite IH.
Qed.

Lemma stem_suffix nm : PyPath.stem nm +:+ PyPath.suffix nm = nm.
Proof.
  unfold PyPath.stem, PyPath.suffix. destruct (PyPath.suffix_at nm).
  - apply take_drop.
  - induction nm as [|a s IH]; [done|].
    change (String a s +:+ "") with (String a (s +:+ "")). by rewrite IH.
Qed.

(** The temporary name of [write_json] is the name followed by [.tmp]. *)
Lemma tmp_name nm :
  PyPath.stem nm +:+ (PyPath.suffix nm +:+ ".tmp") = nm +:+ ".tmp".
Proof. by rewrite <-string_app_assoc, stem_suffix. Qed.

Lemma path_parent_name (p : Path) :
  p ≠ [] → p = PyPath.parent p ++ [PyPath.name p].
Proof. intros Hp. by apply app_removelast_last. Qed.

Section WriteJson.
Context (json_dumps : json → string).

(** X13: [write_json] replaces the destination in one step.  For a path
    without [..] components: when it returns, the destination is a
    regular file holding the serialization followed by a line feed, and
    nothing is left under the temporary name; when it raises, what is at
    the destination is what was there before. *)
Theorem write_json_all_or_nothing path obj w r w' :
  ".." ∉ path →
  write_json json_dumps path obj w = (r, w') →
  match r with
  | inr _ =>
      (∃ t, Os.at_path (w_fs w') path =
              Some (NFile (mk_file
                (json_dumps obj +:+ String (ascii_of_N 10) "") t))) ∧
      Os.at_path (w_fs w')
        (PyPath.parent path ++ [PyPath.name path +:+ ".tmp"]) = None
  | inl _ => Os.at_path (w_fs w') path = Os.at_path (w_fs w) path
  end.
Proof.
  intros Hdd H. unfold write_json in H.
  destruct (decide (path = [])) as [->|Hne].
  { simpl in H. unfold bind, Os.mkdir_parents in H. simpl in H.
    injection H as <- <-. done. }
  assert (∀ fs, Os.at_path fs path = fs !! path) as Hat.
  { intros fs. unfold Os.at_path. rewrite norm_plain by done.
    by destruct path. }
  rewrite !Hat.
  assert (PyPath.name path ≠ "..") as Hname.
  { intros E. apply Hdd. rewrite (path_parent_name path Hne), E.
    apply elem_of_app. right. left. }
  set (c := PyPath.name path +:+ ".tmp").
  assert (c ≠ PyPath.name path) as Hc.
  { intros E%(f_equal String.length). unfold c in E.
    rewrite string_length_app in E. simpl in E. lia. }
  assert (".." ∉ PyPath.parent path ++ [c]) as Hddt.
  { intros [Hin|Hin%list_elem_of_singleton]%elem_of_app.
    - apply Hdd. rewrite (path_parent_name path Hne).
      apply elem_of_app. by left.
    - apply (f_equal String.length) in Hin. unfold c in Hin.
      rewrite string_length_app in Hin. simpl in Hin. lia. }
  assert (PyPath.parent path ++ [c] ≠ path) as Htp.
  { rewrite (path_parent_name path Hne) at 2.
    intros E%app_inv_head. congruence. }
  assert (∀ fs, Os.at_path fs (PyPath.parent path ++ [c]) =
                fs !! (PyPath.parent path ++ [c])) as Hatt.
  { intros fs. unfold Os.at_path. rewrite norm_plain by done.
    by destruct (PyPath.parent path). }
  rewrite Hatt.
  apply bind_any in H as [(e & Hmk & ->) | ([] & w1 & Hmk & H)].
  { by eapply mkdir_parents_keeps. }
  apply mkdir_parents_keeps in Hmk as Hkeep; [|done..].
  unfold PyPath.with_suffix in H.
  destruct (PyPath.name path) as [|a nm] eqn:Hnm.
  { injection H as <- <-. done. }
  rewrite tmp_name in H. fold c in H.
  apply bind_any in H as [(e & Hwr & ->) | ([] & w2 & Hwr & H)].
  - unfold Os.write_file in Hwr.
    destruct (Os.at_path (w_fs w1) (PyPath.parent path ++ [c])) as [[|?]|];
      destruct (Os.at_path (w_fs w1) (PyPath.parent (PyPath.parent path ++ [c])))
        as [[|?]|]; simplify_eq; done.
  - assert (w_fs w2 = <[PyPath.parent path ++ [c] :=
                          NFile (mk_file
                            (json_dumps obj +:+ String (ascii_of_N 10) "")
                            (w_clock w1 (w_tick w1)))]> (w_fs w1)) as Hfs2.
    { unfold Os.write_file in Hwr. rewrite norm_plain in Hwr by done.
      destruct (Os.at_path (w_fs w1) (PyPath.parent path ++ [c])) as [[|?]|];
        destruct (Os.at_path (w_fs w1)
                    (PyPath.parent (PyPath.parent path ++ [c])))
          as [[|?]|]; simplify_eq; done. }
    unfold Os.replace in H.
    rewrite Hatt, Hat, !norm_plain, Hfs2, lookup_insert_eq in H by done.
    rewrite lookup_insert_ne in H by done.
    destruct (w_fs w1 !! path) as [[|?]|] eqn:Hdst; simplify_eq; simpl.
    + rewrite Hfs2, lookup_insert_ne by done. congruence.
    + rewrite lookup_insert_eq, lookup_insert_ne, lookup_delete_eq by done.
      split; [by eexists|done].
    + rewrite lookup_insert_eq, lookup_insert_ne, lookup_delete_eq by done.
      split; [by eexists|done].
Qed.

End WriteJson.

(** *** What a run leaves alone *)

Lemma split_on_suffix c s t :
  PyStr.contains c t = false →
  ∃ l u, PyStr.split_on c (s +:+ t) = l ++ [u +:+ t].
Proof.
  intros Ht. induction s as [|a s (l & u & IH)].
  - exists [], "". by rewrite split_on_absent.
  - change (String a s +:+ t) with (String a (s +:+ t)). simpl. rewrite IH.
    case_decide.
    + by exists ("" :: l), u.
    + destruct l as [|h l]; simpl.
      * by exists [], (String a u).
      * by exists (String a h :: l), u.
Qed.

(** The snapshot's name, parsed: relative, and its last component ends
    in [.json] whatever the time stamp. *)
Lemma of_str_snapshot ts :
  ∃ l u, PyPath.of_str ("manifest-" +:+ ts +:+ ".json")
           = mk_pure false (l ++ [u +:+ ".json"]).
Proof.
  destruct (split_on_suffix "/" ("manifest-" +:+ ts) ".json" eq_refl)
    as (l & u & Hsplit).
  rewrite string_app_assoc in Hsplit.
  assert (PyStr.endswith (u +:+ ".json") ".json" = true) as Hend
    by apply endswith_app.
  assert (u +:+ ".json" ≠ "" ∧ u +:+ ".json" ≠ ".") as Hkeep.
  { split; intros E; by rewrite E in Hend. }
  exists (filter (λ c, c ≠ "" ∧ c ≠ ".") l), u.
  unfold PyPath.of_str. rewrite Hsplit, filter_app.
  by rewrite (filter_cons_True _ (u +:+ ".json")) by done.
Qed.

(** The last component of [root / "manifests" / ("manifest-" + ts + ".json")]. *)
Lemma snapshot_name root ts :
  ∃ p c, PyPath.norm
           (PyPath.under root
              (PyPath.div (PyPath.of_str "manifests")
                          ("manifest-" +:+ ts +:+ ".json"))) = p ++ [c] ∧
         PyStr.endswith c ".json" = true.
Proof.
  destruct (of_str_snapshot ts) as (l & u & E).
  assert (PyStr.endswith (u +:+ ".json") ".json" = true) as Hend
    by apply endswith_app.
  assert (u +:+ ".json" ≠ "..") as Hdd.
  { intros E'. by rewrite E' in Hend. }
  unfold PyPath.div. rewrite E.
  change (PyPath.of_str "manifests") with (mk_pure false ["manifests"]).
  unfold PyPath.joinpath, PyPath.under. cbn [anchored parts].
  rewrite !app_assoc, norm_snoc by done.
  by eexists _, _.
Qed.

Section RunFrame.
Context (sha256_digest : string → string) (json_loads : string → option json)
        (json_dumps : json → string).

(** What [write_json] leaves alone when it returns: everything but the
    destination and the temporary name. *)
Lemma write_json_frame path obj w u w' k n :
  write_json json_dumps path obj w = (inr u, w') →
  w_fs w !! k = Some n →
  w_fs w' !! k = Some n ∨ k = PyPath.norm path ∨
  ∃ c, k = PyPath.norm (PyPath.parent path) ++ [c] ∧
       PyStr.endswith c ".tmp" = true.
Proof.
  unfold write_json. intros H Hk.
  apply bind_inr in H as (u1 & w1 & [Hsub _]%mkdir_parents_grows & H).
  unfold PyPath.with_suffix in H.
  destruct (PyPath.name path) as [|a nm] eqn:Hname; [done|].
  set (c := PyPath.stem (String a nm) +:+
            PyPath.suffix (String a nm) +:+ ".tmp") in *.
  assert (PyStr.endswith c ".tmp" = true) as Hc.
  { unfold c. apply endswith_app_r, endswith_app. }
  assert (c ≠ "..") as Hdots.
  { intros E. rewrite E in Hc. done. }
  apply bind_inr in H as (u2 & w2 & Hwrite & H).
  unfold Os.write_file in Hwrite.
  rewrite at_path_snoc, norm_snoc in Hwrite by done.
  set (ktmp := PyPath.norm (PyPath.parent path) ++ [c]) in *.
  destruct (decide (k = ktmp)) as [->|Hkt]; [right; right; by exists c|].
  destruct (decide (k = PyPath.norm path)) as [->|Hkp]; [right; by left|].
  left.
  assert (∃ f, w_fs w2 = <[ktmp := NFile f]> (w_fs w1)) as [f Hfs2].
  { destruct (w_fs w1 !! ktmp) as [[|?]|]; try done;
      destruct (Os.at_path (w_fs w1) (PyPath.parent (PyPath.parent path ++ [c])))
        as [[|?]|]; try done; injection Hwrite as _ <-; simpl; by eexists. }
  unfold Os.replace in H. rewrite at_path_snoc, norm_snoc in H by done.
  fold ktmp in H. rewrite Hfs2, lookup_insert_eq in H.
  destruct (Os.at_path _ path) as [[|?]|]; try done;
    injection H as _ <-; simpl;
    rewrite lookup_insert_ne, lookup_delete_ne, lookup_insert_ne by done;
    by eapply lookup_weaken.
Qed.

(** X14: a run that returns leaves every file and directory as it was,
    but for names ending in [.json] or [.tmp]: no source document and no
    published copy is changed or removed. *)
Theorem run_spares_other_files args w r w' k n :
  main sha256_digest json_loads json_dumps args w = (inr r, w') →
  w_fs w !! k = Some n →
  w_fs w' !! k = Some n ∨
  PyStr.endswith (PyPath.name k) ".json" = true ∨
  PyStr.endswith (PyPath.name k) ".tmp" = true.
Proof.
  unfold main. intros H Hk.
  apply bind_inr in H as (pdfs & w1 & (_ & Hfs1 & _)%scan_pdfs_inr & H).
  apply bind_inr in H
    as (manifest & w2 & (? & _ & Hsub & _)%build_manifest_spec & H).
  apply bind_inr in H as (ts & w3 & [Hfs3 _]%timestamp_step & H).
  apply bind_inr in H as (u1 & w4 & Hlatest & H).
  apply bind_inr in H as (u2 & w5 & Hsnap & H).
  apply bind_inr in H as (u3 & w6 & Hp1 & H).
  apply bind_inr in H as (u4 & w7 & Hp2 & H).
  apply bind_inr in H as (u5 & w8 & Hp3 & H).
  apply ret_inr in H as [_ <-].
  unfold Os.print in Hp1, Hp2, Hp3.
  injection Hp1 as _ <-. injection Hp2 as _ <-. injection Hp3 as _ <-. simpl.
  change (PyPath.under (args_site_root args) (PyPath.of_str "manifest.json"))
    with (args_site_root args ++ ["manifest.json"]) in *.
  assert (w_fs w3 !! k = Some n) as Hk3.
  { rewrite Hfs3. eapply lookup_weaken; [|done]. by rewrite Hfs1. }
  destruct (write_json_frame _ _ _ _ _ _ _ Hlatest Hk3)
    as [Hk4 | [-> | (c & -> & Hc)]].
  - destruct (write_json_frame _ _ _ _ _ _ _ Hsnap Hk4)
      as [Hk5 | [-> | (c & -> & Hc)]].
    + by left.
    + right. left. destruct (snapshot_name (args_site_root args) ts)
        as (p & c & -> & Hc).
      unfold PyPath.name. by rewrite last_last.
    + right. right. unfold PyPath.name. by rewrite last_last.
  - right. left. rewrite norm_snoc by done.
    unfold PyPath.name. by rewrite last_last.
  - right. right. unfold PyPath.name. by rewrite last_last.
Qed.

End RunFrame.

(** Writing into the sample site. *)
Lemma write_json_all_or_nothing_witness :
  (".." ∉ ["site"; "manifest.json"]) ∧
  write_json sample_dumps ["site"; "manifest.json"] JNull sample_world
    = (inr (),
       (write_json sample_dumps ["site"; "manifest.json"] JNull
          sample_world).2) ∧
  (∃ t, Os.at_path
          (w_fs (write_json sample_dumps ["site"; "manifest.json"] JNull
                   sample_world).2) ["site"; "manifest.json"] =
          Some (NFile (mk_file
            (sample_dumps JNull +:+ String (ascii_of_N 10) "") t))) ∧
  Os.at_path
    (w_fs (write_json sample_dumps ["site"; "manifest.json"] JNull
             sample_world).2)
    (PyPath.parent ["site"; "manifest.json"] ++
       [PyPath.name ["site"; "manifest.json"] +:+ ".tmp"]) = None.
Proof.
  assert (".." ∉ ["site"; "manifest.json"]) as Hdd.
  { apply (bool_decide_unpack _). vm_compute. exact I. }
  assert (write_json sample_dumps ["site"; "manifest.json"] JNull sample_world
    = (inr (),
       (write_json sample_dumps ["site"; "manifest.json"] JNull
          sample_world).2)) as H.
  { apply run_result. vm_compute. reflexivity. }
  split; [exact Hdd|]. split; [exact H|].
  exact (write_json_all_or_nothing sample_dumps ["site"; "manifest.json"]
           JNull sample_world (inr ()) _ Hdd H).
Defined.

(** The sample run and one of its source documents. *)
Lemma run_spares_other_files_witness :
  main sample_digest sample_loads sample_dumps sample_args sample_world
    = (inr 0%Z, sample_ran) ∧
  w_fs sample_world !! ["src"; "lax.pdf"]
    = Some (NFile (mk_file "Z" sample_time)) ∧
  (w_fs sample_ran !! ["src"; "lax.pdf"]
     = Some (NFile (mk_file "Z" sample_time)) ∨
   PyStr.endswith (PyPath.name ["src"; "lax.pdf"]) ".json" = true ∨
   PyStr.endswith (PyPath.name ["src"; "lax.pdf"]) ".tmp" = true).
Proof.
  assert (main sample_digest sample_loads sample_dumps sample_args sample_world
            = (inr 0%Z, sample_ran)) as H.
  { apply (run_result (main sample_digest sample_loads sample_dumps sample_args)).
    vm_compute. reflexivity. }
  assert (w_fs sample_world !! ["src"; "lax.pdf"]
            = Some (NFile (mk_file "Z" sample_time))) as Hk.
  { vm_compute. reflexivity. }
  split; [exact H|]. split; [exact Hk|].
  exact (run_spares_other_files sample_digest sample_loads sample_dumps
           sample_args sample_world 0%Z sample_ran _ _ H Hk).
Defined.

(** *** Published names follow the contents *)

Lemma hex_digit_inj n m :
  (n < 16)%N → (m < 16)%N → PyStr.hex_digit n = PyStr.hex_digit m → n = m.
Proof.
  intros Hn Hm.
  assert (n = 0 ∨ n = 1 ∨ n = 2 ∨ n = 3 ∨ n = 4 ∨ n = 5 ∨ n = 6 ∨ n = 7 ∨
          n = 8 ∨ n = 9 ∨ n = 10 ∨ n = 11 ∨ n = 12 ∨ n = 13 ∨ n = 14 ∨
          n = 15)%N as Hn' by lia.
  assert (m = 0 ∨ m = 1 ∨ m = 2 ∨ m = 3 ∨ m = 4 ∨ m = 5 ∨ m = 6 ∨ m = 7 ∨
          m = 8 ∨ m = 9 ∨ m = 10 ∨ m = 11 ∨ m = 12 ∨ m = 13 ∨ m = 14 ∨
          m = 15)%N as Hm' by lia.
  destruct_or!; subst; simpl; intros E; done || discriminate E.
Qed.

Lemma hex_byte_inj a b : PyStr.hex_byte a = PyStr.hex_byte b → a = b.
Proof.
  unfold PyStr.hex_byte. intros [= Hhi Hlo].
  pose proof (N_ascii_bounded a) as Ha. pose proof (N_ascii_bounded b) as Hb.
  apply hex_digit_inj in Hhi; [|apply N.Div0.div_lt_upper_bound; lia..].
  apply hex_digit_inj in Hlo; [|apply N.mod_lt; lia..].
  rewrite <-(ascii_N_embedding a), <-(ascii_N_embedding b). f_equal.
  rewrite (N.div_mod (N_of_ascii a) 16), (N.div_mod (N_of_ascii b) 16) by lia.
  by rewrite Hhi, Hlo.
Qed.

Lemma hex_inj s t : PyStr.hex s = PyStr.hex t → s = t.
Proof.
  revert t. induction s as [|a s IH]; intros [|b t]; simpl; try done.
  intros [= Hhi Hlo Hrest].
  rewrite (hex_byte_inj a b), (IH t); [done|done|].
  unfold PyStr.hex_byte. by rewrite Hhi, Hlo.
Qed.


Lemma join_snoc_inj sep (l : list string) a b :
  PyStr.join sep (l ++ [a]) = PyStr.join sep (l ++ [b]) → a = b.
Proof.
  induction l as [|x l IH]; [done|].
  assert (∀ c, PyStr.join sep ((x :: l) ++ [c]) =
               x +:+ sep +:+ PyStr.join sep (l ++ [c])) as E.
  { intros c. simpl. by destruct l. }
  rewrite !E. intros H%string_app_inv_head%string_app_inv_head. auto.
Qed.

Section ContentAddress.
Context (sha256_digest : string → string).

(** The relative path of a scanned record: the directories its
    identifier gives, then the digest as file name. *)
Lemma scanned_rel p f :
  immutable_rel (scanned_record sha256_digest p f) =
    mk_pure
      (anchored (PyPath.div (PyPath.of_str "pdfs") (safe_iata_from_filename p)))
      (parts (PyPath.div (PyPath.of_str "pdfs") (safe_iata_from_filename p))
         ++ [PyStr.hex (sha256_digest (f_bytes f)) +:+ ".pdf"]).
Proof.
  unfold immutable_rel, scanned_record. cbn [PdfInfo.iata PdfInfo.sha256].
  set (Q := PyPath.div _ (safe_iata_from_filename p)).
  unfold PyPath.div at 1. rewrite of_str_component; [done|..].
  - rewrite contains_app, contains_hex. done.
  - by apply app_not_empty.
  - intros E%(f_equal (λ s, PyStr.endswith s ".pdf")).
    by rewrite endswith_app in E.
Qed.

(** X15: published names follow the contents.  Two scanned documents
    with the same identifier get the same URL exactly when their digests
    are equal, whatever their places and modification times: a document
    whose bytes hash differently is published under a new URL. *)
Theorem url_follows_contents p f p' f' :
  safe_iata_from_filename p = safe_iata_from_filename p' →
  PyPath.as_posix (immutable_rel (scanned_record sha256_digest p f)) =
  PyPath.as_posix (immutable_rel (scanned_record sha256_digest p' f')) ↔
  sha256_digest (f_bytes f) = sha256_digest (f_bytes f').
Proof.
  intros Hid. rewrite !scanned_rel, <-Hid.
  set (Q := PyPath.div _ _). split; [|by intros ->].
  unfold PyPath.as_posix. cbn [anchored parts].
  assert (∀ c, match parts Q ++ [c] with
               | [] => "."
               | _ :: _ => PyStr.join "/" (parts Q ++ [c])
               end = PyStr.join "/" (parts Q ++ [c])) as E.
  { intros c. by destruct (parts Q). }
  rewrite !E. intros H. apply hex_inj.
  apply (string_app_inv_tail _ _ ".pdf"), (join_snoc_inj "/" (parts Q)).
  destruct (anchored Q); [by apply string_app_inv_head in H|done].
Qed.

End ContentAddress.

(** Two sample documents named for JFK, one of them changed. *)
Lemma url_follows_contents_witness :
  safe_iata_from_filename ["src"; "jfk.pdf"]
    = safe_iata_from_filename ["old"; "JFK.pdf"] ∧
  (PyPath.as_posix
     (immutable_rel (scanned_record sample_digest ["src"; "jfk.pdf"]
                       (mk_file "YY" sample_time))) =
   PyPath.as_posix
     (immutable_rel (scanned_record sample_digest ["old"; "JFK.pdf"]
                       (mk_file "X" sample_time))) ↔
   sample_digest (f_bytes (mk_file "YY" sample_time))
     = sample_digest (f_bytes (mk_file "X" sample_time))).
Proof.
  assert (safe_iata_from_filename ["src"; "jfk.pdf"]
            = safe_iata_from_filename ["old"; "JFK.pdf"]) as H
    by (vm_compute; reflexivity).
  split; [exact H|].
  exact (url_follows_contents sample_digest ["src"; "jfk.pdf"]
           (mk_file "YY" sample_time) ["old"; "JFK.pdf"]
           (mk_file "X" sample_time) H).
Defined.
